(** * Momentum Habit Tracker: the streak and statistics engine of [src/App.jsx]

    A shallow embedding of the statistics functions of the application
    ([getDateKey], [getDaysDifference], [toggleHabitCompletion],
    [calculateStreaks], [getHabitStats], [getMonthlyData],
    [getYearlyData] and the [todayHabits] filter), together with the part
    of the ECMAScript runtime they call: the day arithmetic of [Date],
    number-to-string conversion, the default string order of
    [Array.prototype.sort] and binary64 arithmetic.  The second part of
    the definitions covers the rest of the logic of the application:
    moods and reflections, the quote of the day, the best habit, the
    counts of the dashboard, the calendar grid and its navigation, the
    weekday buttons of the habit form, and accounts (sign-up, sign-in,
    sign-out, the hexadecimal form of the password hash).

    Modelling conventions.
    - A [Date] object is its time value, an integer count of milliseconds
      since the epoch ([Z]).  Time values are taken inside the range in
      which ECMAScript dates are valid; [TimeClip] is not modelled.
    - The machine on which the program runs is a parameter [host] of the
      whole development: its time zone, as the function [LocalTZA] of
      ECMA-262 (the offset in force at an instant, and the offset by which
      a local time is read), and the date formats its engine accepts
      beyond the ISO forms modelled here.  The offset may change with
      time (daylight saving); what a theorem needs of the zone is a
      hypothesis of that theorem ([zoneOk], [fixedOffset]).
    - A JavaScript object used as a dictionary is a [gmap string _]; the
      order of [Object.keys] is not modelled, its only uses here are under
      [sort()] and [length].
    - Numbers that the source only ever uses as integers are [Z]; the
      completion rates, which are genuinely fractional, are binary64
      values ([spec_float] at precision 53).
    - The SHA-256 digest of [crypto.subtle] is a parameter [digest] of the
      account functions; the values of [generateId()] and of the clock are
      arguments of the functions that read them. *)

From Stdlib Require Import ZArith Lia Bool List Ascii String.
From Stdlib Require Import Sorting.Sorted.
From Stdlib Require Import Floats.SpecFloat.
From Stdlib Require Strings.Byte.
From stdpp Require Import base option list gmap strings sorting fin_maps.

Local Open Scope Z_scope.

(** ** ECMAScript day arithmetic (ECMA-262, "Time Values and Time Range") *)

Module ES.

Definition msPerDay : Z := 86400000.

Definition Day (t : Z) : Z := t / msPerDay.

Definition TimeWithinDay (t : Z) : Z := t mod msPerDay.

Definition DayFromYear (y : Z) : Z :=
  365 * (y - 1970) + (y - 1969) / 4 - (y - 1901) / 100 + (y - 1601) / 400.

Definition isLeap (y : Z) : bool :=
  if negb (y mod 4 =? 0) then false
  else if negb (y mod 100 =? 0) then true
  else if negb (y mod 400 =? 0) then false
  else true.

Definition DaysInYear (y : Z) : Z := if isLeap y then 366 else 365.

(** 1 in a leap year, 0 otherwise. *)
Definition leapDay (y : Z) : Z := if isLeap y then 1 else 0.

(** The year of a day number: the largest [y] with [DayFromYear y <= d].
    The mean-year estimate is off by at most one, which the two tests
    repair ([YearFromDay_spec] below). *)
Definition YearFromDay (d : Z) : Z :=
  let y0 := 1970 + (d * 400) / 146097 in
  if d <? DayFromYear y0 then y0 - 1
  else if DayFromYear (y0 + 1) <=? d then y0 + 1
  else y0.

Definition YearFromTime (t : Z) : Z := YearFromDay (Day t).

Definition InLeapYear (t : Z) : Z := leapDay (YearFromTime t).

Definition DayWithinYear (t : Z) : Z := Day t - DayFromYear (YearFromTime t).

(** The month (0 = January) of day [d] of a year, [L] being 1 in a leap
    year and 0 otherwise. *)
Definition monthOfYearDay (L d : Z) : Z :=
  if d <? 31 then 0
  else if d <? 59 + L then 1
  else if d <? 90 + L then 2
  else if d <? 120 + L then 3
  else if d <? 151 + L then 4
  else if d <? 181 + L then 5
  else if d <? 212 + L then 6
  else if d <? 243 + L then 7
  else if d <? 273 + L then 8
  else if d <? 304 + L then 9
  else if d <? 334 + L then 10
  else 11.

Definition MonthFromTime (t : Z) : Z :=
  monthOfYearDay (InLeapYear t) (DayWithinYear t).

(** Day within the year of the first day of month [m] (0 = January). *)
Definition monthStart (L : Z) (m : Z) : Z :=
  match m with
  | 0 => 0
  | 1 => 31
  | 2 => 59 + L
  | 3 => 90 + L
  | 4 => 120 + L
  | 5 => 151 + L
  | 6 => 181 + L
  | 7 => 212 + L
  | 8 => 243 + L
  | 9 => 273 + L
  | 10 => 304 + L
  | _ => 334 + L
  end.

Definition DateFromTime (t : Z) : Z :=
  DayWithinYear t + 1 - monthStart (InLeapYear t) (MonthFromTime t).

Definition WeekDay (t : Z) : Z := (Day t + 4) mod 7.

(** [MakeDay]: month overflow is carried into the year, the date is
    counted from the first of the month and may be any integer. *)
Definition MakeDay (year month date : Z) : Z :=
  let ym := year + month / 12 in
  let mn := month mod 12 in
  DayFromYear ym + monthStart (leapDay ym) mn + date - 1.

Definition MakeTime (hour min sec ms : Z) : Z :=
  hour * 3600000 + min * 60000 + sec * 1000 + ms.

Definition MakeDate (day time : Z) : Z := day * msPerDay + time.

(** Length of month [m] (0 = January), the calendar table. *)
Definition monthLength (L m : Z) : Z :=
  match m with
  | 1 => 28 + L
  | 3 | 5 | 8 | 10 => 30
  | _ => 31
  end.

Definition DaysInMonth (y m : Z) : Z := monthLength (leapDay y) m.

End ES.

(** ** Strings: number printing, padding, the ISO date forms *)

Module Str.

Definition digitChar (n : Z) : ascii := ascii_of_N (Z.to_N (48 + n)).

Definition digitVal (c : ascii) : option Z :=
  let n := Z.of_N (N_of_ascii c) in
  if (48 <=? n) && (n <=? 57) then Some (n - 48) else None.

(** Decimal digits of a non-negative integer, most significant first.
    Twenty-one rounds cover every integer that [Number.prototype.toString]
    prints without an exponent. *)
Fixpoint digitsFrom (fuel : nat) (n : Z) (acc : string) : string :=
  match fuel with
  | O => acc
  | S fuel' =>
      let acc' := String (digitChar (n mod 10)) acc in
      if n / 10 =? 0 then acc' else digitsFrom fuel' (n / 10) acc'
  end.

(** [String(n)] and template interpolation of an integer-valued Number. *)
Definition NumberToString (n : Z) : string :=
  if n <? 0 then String "-"%char (digitsFrom 21 (- n) EmptyString)
  else digitsFrom 21 n EmptyString.

Fixpoint repeatChar (n : nat) (c : ascii) : string :=
  match n with
  | O => EmptyString
  | S n' => String c (repeatChar n' c)
  end.

(** [s.padStart(len, c)] for a one-character filler. *)
Definition padStart (len : nat) (c : ascii) (s : string) : string :=
  String.append (repeatChar (len - String.length s) c) s.

(** Two and four digit fields as they appear in a well-formed key. *)
Definition fmt2 (n : Z) : string :=
  String (digitChar (n / 10)) (String (digitChar (n mod 10)) EmptyString).

Definition fmt4 (n : Z) : string :=
  String (digitChar (n / 1000)) (String (digitChar (n / 100 mod 10))
    (String (digitChar (n / 10 mod 10)) (String (digitChar (n mod 10)) EmptyString))).

(** The [YYYY-MM-DD] form of a civil date; [m] is the month number 1..12. *)
Definition isoDate (y m d : Z) : string :=
  String.append (fmt4 y) (String "-"%char (String.append (fmt2 m) (String "-"%char (fmt2 d)))).

Definition num2 (a b : ascii) : option Z :=
  match digitVal a, digitVal b with
  | Some x, Some y => Some (10 * x + y)
  | _, _ => None
  end.

Definition num3 (a b c : ascii) : option Z :=
  match digitVal a, num2 b c with
  | Some x, Some y => Some (100 * x + y)
  | _, _ => None
  end.

Definition num4 (a b c d : ascii) : option Z :=
  match num2 a b, num2 c d with
  | Some x, Some y => Some (100 * x + y)
  | _, _ => None
  end.

Definition isDash (c : ascii) : bool := Ascii.eqb c "-"%char.
Definition isColon (c : ascii) : bool := Ascii.eqb c ":"%char.

(** The date part of the ECMAScript date-time string format: a day
    number.  A month outside 1..12 or a day beyond the end of the month
    makes the string invalid. *)
Definition parseYMD (y0 y1 y2 y3 s1 m0 m1 s2 d0 d1 : ascii) : option Z :=
  match num4 y0 y1 y2 y3, num2 m0 m1, num2 d0 d1 with
  | Some y, Some m, Some d =>
      if isDash s1 && isDash s2 && (1 <=? m) && (m <=? 12)
         && (1 <=? d) && (d <=? ES.DaysInMonth y (m - 1))
      then Some (ES.MakeDay y (m - 1) d)
      else None
  | _, _, _ => None
  end.

Definition parseHMS (h0 h1 c1 n0 n1 c2 s0 s1 dot f0 f1 f2 z : ascii) : option Z :=
  match num2 h0 h1, num2 n0 n1, num2 s0 s1, num3 f0 f1 f2 with
  | Some h, Some n, Some s, Some f =>
      if isColon c1 && isColon c2 && Ascii.eqb dot "."%char && Ascii.eqb z "Z"%char
         && (h <=? 23) && (n <=? 59) && (s <=? 59)
      then Some (ES.MakeTime h n s f)
      else None
  | _, _, _, _ => None
  end.

(** The two forms of the ECMAScript date-time string format that the
    application itself writes: the date-only form [YYYY-MM-DD] (a key;
    UTC midnight) and the form of [toISOString],
    [YYYY-MM-DDTHH:mm:ss.sssZ].  [None]: the string is in neither form. *)
Definition parseISO (s : string) : option Z :=
  match list_ascii_of_string s with
  | [y0; y1; y2; y3; s1; m0; m1; s2; d0; d1] =>
      match parseYMD y0 y1 y2 y3 s1 m0 m1 s2 d0 d1 with
      | Some day => Some (ES.MakeDate day 0)
      | None => None
      end
  | [y0; y1; y2; y3; s1; m0; m1; s2; d0; d1; T; h0; h1; c1; n0; n1; c2; e0; e1; dot; f0; f1; f2; z] =>
      match parseYMD y0 y1 y2 y3 s1 m0 m1 s2 d0 d1,
            parseHMS h0 h1 c1 n0 n1 c2 e0 e1 dot f0 f1 f2 z with
      | Some day, Some time =>
          if Ascii.eqb T "T"%char then Some (ES.MakeDate day time) else None
      | _, _ => None
      end
  | _ => None
  end.

(** [Date.parse]: a string in one of the two forms above has the value
    that the format gives it; every other string (the remaining forms of
    the format, and whatever else an engine reads by its own rules) is
    left to the engine, [other].  [None] is the time value NaN. *)
Definition DateParse (other : string -> option Z) (s : string) : option Z :=
  match parseISO s with
  | Some t => Some t
  | None => other s
  end.

(** [Date.prototype.toISOString] for years 0..9999 (the four-digit form). *)
Definition toISOString (t : Z) : string :=
  let tw := ES.TimeWithinDay t in
  String.concat EmptyString
    [ isoDate (ES.YearFromTime t) (ES.MonthFromTime t + 1) (ES.DateFromTime t);
      String "T"%char EmptyString;
      fmt2 (tw / 3600000);
      String ":"%char EmptyString;
      fmt2 (tw / 60000 mod 60);
      String ":"%char EmptyString;
      fmt2 (tw / 1000 mod 60);
      String "."%char EmptyString;
      String (digitChar (tw mod 1000 / 100)) (fmt2 (tw mod 100));
      String "Z"%char EmptyString ].

(** The default order of [Array.prototype.sort]: strings compared code
    unit by code unit. *)
Definition sort_le (a b : string) : Prop := String.leb a b = true.

Global Instance sort_le_dec (a b : string) : Decision (sort_le a b) :=
  decide (String.leb a b = true).

Definition sort (l : list string) : list string := merge_sort sort_le l.

End Str.

(** ** Numbers with a fractional part: IEEE 754 binary64 *)

Module Num.

Definition prec : Z := 53.
Definition emax : Z := 1024.

(** An integer as a Number (exact below 2^53, rounded to nearest above). *)
Definition ofZ (n : Z) : spec_float := binary_normalize prec emax n 0 false.

Definition div (x y : spec_float) : spec_float := SFdiv prec emax x y.
Definition mul (x y : spec_float) : spec_float := SFmul prec emax x y.

(** [n] is the integer nearest to ten times [m * 2^e], the larger one on
    a tie: step "let n be an integer for which n / 10^f - x is as close to
    zero as possible; if there are two such n, pick the larger" of
    [Number.prototype.toFixed] at [f = 1]. *)
Definition tenthsOf (m : positive) (e : Z) : Z :=
  if 0 <=? e then 10 * Z.pos m * 2 ^ e
  else (20 * Z.pos m + 2 ^ (- e)) / 2 ^ (- e + 1).

Definition fixed1 (n : Z) : string :=
  String.append (Str.NumberToString (n / 10))
    (String "."%char (String (Str.digitChar (n mod 10)) EmptyString)).

(** [x.toFixed(1)]; values of magnitude 1e21 and more, which print in
    exponent form, are not distinguished. *)
Definition toFixed1 (x : spec_float) : string :=
  match x with
  | S754_nan => "NaN"%string
  | S754_infinity s => if s then "-Infinity"%string else "Infinity"%string
  | S754_zero _ => "0.0"%string
  | S754_finite s m e =>
      if s then String "-"%char (fixed1 (tenthsOf m e)) else fixed1 (tenthsOf m e)
  end.

End Num.

(** ** The data model of the application *)

(** A habit as [addHabit] builds it.  [selectedDays] is present only on
    habits saved from the form, [completions] may be missing on stored
    data (the source guards every read of it). *)
Record Habit := mkHabit {
  h_id : string;
  h_name : string;
  h_description : string;
  h_frequency : string;
  h_selectedDays : option (list Z);
  h_difficulty : string;
  h_createdAt : string;
  h_completions : option (gmap string bool);
  h_currentStreak : Z;
  h_longestStreak : Z
}.

(** The form data of [HabitModal], the argument of [addHabit] and of the
    edit path of [updateHabit]. *)
Record HabitForm := mkForm {
  f_name : string;
  f_description : string;
  f_frequency : string;
  f_selectedDays : list Z;
  f_difficulty : string
}.

(** The [updates] object of [updateHabit]: the fields it carries. *)
Record HabitUpdates := mkUpdates {
  u_name : option string;
  u_description : option string;
  u_frequency : option string;
  u_selectedDays : option (list Z);
  u_difficulty : option string;
  u_completions : option (gmap string bool);
  u_currentStreak : option Z;
  u_longestStreak : option Z
}.

Record User := mkUser {
  user_id : string;
  user_name : string;
  habits : list Habit;
  moods : gmap string Z;
  reflections : gmap string string
}.

(** The result of [calculateStreaks]. *)
Record Streaks := mkStreaks { currentStreak : Z; longestStreak : Z }.

(** The result of [getHabitStats]; [completionRate] is the string that
    [toFixed(1)] returns. *)
Record HabitStats := mkStats {
  totalCompletions : Z;
  completionRate : string;
  stats_currentStreak : Z;
  stats_longestStreak : Z
}.

(** One element of [getMonthlyData]. *)
Record DayEntry := mkDay { day : Z; completed : Z; date : string }.

(** One element of [getYearlyData]. *)
Record MonthEntry := mkMonth {
  month : string;
  month_completionRate : spec_float;
  month_completions : Z
}.

(** An argument of [new Date(...)]: a string to parse or a [Date] to copy. *)
Inductive DateArg :=
| OfString (s : string)
| OfDate (t : Z).

(** JavaScript truthiness of [obj[key]] for a dictionary of booleans. *)
Definition truthy (v : option bool) : bool :=
  match v with Some b => b | None => false end.

(** [Object.keys(obj)] *)
Definition ObjectKeys {V} (obj : gmap string V) : list string :=
  (map_to_list obj).*1.

(** [x === 1] and [x <= 7] on a Number that may be NaN ([None]); every
    comparison with NaN is false. *)
Definition num_eq (x : option Z) (n : Z) : bool :=
  match x with Some v => v =? n | None => false end.
Definition num_le (x : option Z) (n : Z) : bool :=
  match x with Some v => v <=? n | None => false end.

(** The machine that runs the program.  [LocalTZA t true] is the offset
    of local time (milliseconds east of UTC) in force at the instant [t];
    [LocalTZA t false] is the offset by which the local time [t] is read:
    at a local time that a change of the clock skips or repeats, the
    offset before the change (ECMA-262, "LocalTZA").  [parseOther] is
    [Date.parse] of the engine on the strings that [Str.parseISO] does
    not read. *)
Record Host := mkHost {
  LocalTZA : Z -> bool -> Z;
  parseOther : string -> option Z
}.

(** ** The functions of [src/App.jsx] *)

Section Engine.

Variable host : Host.

(** *** [Date] methods in local time *)

Definition LocalTime (t : Z) : Z := t + LocalTZA host t true.
Definition UTC (t : Z) : Z := t - LocalTZA host t false.

Definition getFullYear (t : Z) : Z := ES.YearFromTime (LocalTime t).
Definition getMonth (t : Z) : Z := ES.MonthFromTime (LocalTime t).
Definition getDate (t : Z) : Z := ES.DateFromTime (LocalTime t).
Definition getDay (t : Z) : Z := ES.WeekDay (LocalTime t).

(** [d.setHours(0, 0, 0, 0)] *)
Definition setHours0 (t : Z) : Z :=
  UTC (ES.MakeDate (ES.Day (LocalTime t)) (ES.MakeTime 0 0 0 0)).

(** [d.setDate(dt)] *)
Definition setDate (t dt : Z) : Z :=
  let lt := LocalTime t in
  UTC (ES.MakeDate (ES.MakeDay (ES.YearFromTime lt) (ES.MonthFromTime lt) dt)
                   (ES.TimeWithinDay lt)).

(** [new Date(year, month, date)]: local midnight; years 0..99 mean
    1900..1999. *)
Definition newDateYMD (year month date : Z) : Z :=
  let yr := if (0 <=? year) && (year <=? 99) then 1900 + year else year in
  UTC (ES.MakeDate (ES.MakeDay yr month date) 0).

(** [new Date(x)] for a string or a [Date]; [None] is an invalid date. *)
Definition newDate (a : DateArg) : option Z :=
  match a with
  | OfString s => Str.DateParse (parseOther host) s
  | OfDate t => Some t
  end.

(** *** Utilities *)

Definition getDateKey (date : Z) : string :=
  let d := date in
  String.concat EmptyString
    [ Str.NumberToString (getFullYear d);
      String "-"%char EmptyString;
      Str.padStart 2 "0"%char (Str.NumberToString (getMonth d + 1));
      String "-"%char EmptyString;
      Str.padStart 2 "0"%char (Str.NumberToString (getDate d)) ].

(** The floor of the quotient is that of the integer quotient: for two
    dates less than 2^26 days apart the binary64 quotient has the same
    floor as the exact one. *)
Definition getDaysDifference (date1 date2 : DateArg) : option Z :=
  match newDate date1, newDate date2 with
  | Some d1, Some d2 =>
      let d1 := setHours0 d1 in
      let d2 := setHours0 d2 in
      Some ((d1 - d2) / (1000 * 60 * 60 * 24))
  | _, _ => None
  end.

(** *** [calculateStreaks] *)

(** The [while (true)] loop of the current streak.  [fuel] bounds the
    number of rounds of the model; [None] means it ran out. *)
Fixpoint currentWalk (fuel : nat) (completions : gmap string bool)
    (checkDate : Z) (currentStreak : Z) : option Z :=
  match fuel with
  | O => None
  | S fuel' =>
      let key := getDateKey checkDate in
      if truthy (completions !! key) then
        let currentStreak := currentStreak + 1 in
        let checkDate := setDate checkDate (getDate checkDate - 1) in
        if currentStreak >? 365 then Some currentStreak
        else currentWalk fuel' completions checkDate currentStreak
      else Some currentStreak
  end.

(** The test of the inner loop on two neighbouring sorted keys. *)
Definition gapContinues (habit : Habit) (later earlier : string) : bool :=
  let diff := getDaysDifference (OfString later) (OfString earlier) in
  num_eq diff 1 || (String.eqb (h_frequency habit) "weekly" && num_le diff 7).

(** The inner [for (j = i + 1; j < sortedDates.length; j++)]; [n] counts
    the rounds that remain, [sortedDates.length - j]. *)
Fixpoint extendRun (habit : Habit) (sortedDates : list string)
    (n : nat) (j : nat) (tempStreak : Z) : Z :=
  match n with
  | O => tempStreak
  | S n' =>
      match sortedDates !! j, sortedDates !! (j - 1)%nat with
      | Some dj, Some dj1 =>
          if gapContinues habit dj dj1
          then extendRun habit sortedDates n' (S j) (tempStreak + 1)
          else tempStreak
      | _, _ => tempStreak
      end
  end.

(** The outer [for (i = 0; i < sortedDates.length; i++)]; [n] counts the
    rounds that remain, [sortedDates.length - i]. *)
Fixpoint scanRuns (habit : Habit) (sortedDates : list string)
    (n : nat) (i : nat) (longestStreak : Z) : Z :=
  match n with
  | O => longestStreak
  | S n' =>
      let tempStreak :=
        extendRun habit sortedDates (length sortedDates - (i + 1)) (i + 1) 1 in
      scanRuns habit sortedDates n' (S i) (Z.max longestStreak tempStreak)
  end.

(** [now] is the reading of the clock that [new Date()] would return. *)
Definition calculateStreaks (fuel : nat) (now : Z) (habit : Habit)
    (completions : gmap string bool) (referenceDate : option Z) : option Streaks :=
  let dates := rev (Str.sort (ObjectKeys completions)) in
  if (length dates =? 0)%nat then Some (mkStreaks 0 0)
  else
    let checkDate := match referenceDate with Some d => d | None => now end in
    match currentWalk fuel completions checkDate 0 with
    | None => None
    | Some currentStreak =>
        let sortedDates := Str.sort (ObjectKeys completions) in
        let longestStreak := scanRuns habit sortedDates (length sortedDates) 0 0 in
        Some (mkStreaks currentStreak (Z.max longestStreak currentStreak))
    end.

(** *** State updates *)

Definition applyUpdates (h : Habit) (u : HabitUpdates) : Habit :=
  {| h_id := h_id h;
     h_name := default (h_name h) (u_name u);
     h_description := default (h_description h) (u_description u);
     h_frequency := default (h_frequency h) (u_frequency u);
     h_selectedDays :=
       match u_selectedDays u with Some l => Some l | None => h_selectedDays h end;
     h_difficulty := default (h_difficulty h) (u_difficulty u);
     h_createdAt := h_createdAt h;
     h_completions :=
       match u_completions u with Some c => Some c | None => h_completions h end;
     h_currentStreak := default (h_currentStreak h) (u_currentStreak u);
     h_longestStreak := default (h_longestStreak h) (u_longestStreak u) |}.

Definition updateHabit (currentUser : User) (habitId : string)
    (updates : HabitUpdates) : User :=
  {| user_id := user_id currentUser;
     user_name := user_name currentUser;
     habits := map (fun h => if String.eqb (h_id h) habitId
                             then applyUpdates h updates else h)
                   (habits currentUser);
     moods := moods currentUser;
     reflections := reflections currentUser |}.

(** [newId] is the value of [generateId()], [now] that of [new Date()]. *)
Definition addHabit (newId : string) (now : Z) (currentUser : User)
    (habitData : HabitForm) : User :=
  let newHabit :=
    {| h_id := newId;
       h_name := f_name habitData;
       h_description := f_description habitData;
       h_frequency := f_frequency habitData;
       h_selectedDays := Some (f_selectedDays habitData);
       h_difficulty := f_difficulty habitData;
       h_createdAt := Str.toISOString now;
       h_completions := Some ∅;
       h_currentStreak := 0;
       h_longestStreak := 0 |} in
  {| user_id := user_id currentUser;
     user_name := user_name currentUser;
     habits := habits currentUser ++ [newHabit];
     moods := moods currentUser;
     reflections := reflections currentUser |}.

Definition deleteHabit (currentUser : User) (habitId : string) : User :=
  {| user_id := user_id currentUser;
     user_name := user_name currentUser;
     habits := filter (fun h => h_id h ≠ habitId) (habits currentUser);
     moods := moods currentUser;
     reflections := reflections currentUser |}.

(** The edit path: [onSave={(data) => updateHabit(editingHabit.id, data)}]. *)
Definition formUpdates (data : HabitForm) : HabitUpdates :=
  {| u_name := Some (f_name data);
     u_description := Some (f_description data);
     u_frequency := Some (f_frequency data);
     u_selectedDays := Some (f_selectedDays data);
     u_difficulty := Some (f_difficulty data);
     u_completions := None;
     u_currentStreak := None;
     u_longestStreak := None |}.

(** The body of [toggleHabitCompletion] between the copy of the map and
    the call of [calculateStreaks]. *)
Definition toggleCompletion (completions : gmap string bool) (dateKey : string)
    : gmap string bool :=
  if truthy (completions !! dateKey) then delete dateKey completions
  else <[dateKey := true]> completions.

(** [Array.prototype.find] *)
Definition findHabit (habitId : string) (l : list Habit) : option Habit :=
  List.find (fun h => String.eqb (h_id h) habitId) l.

(** [None] is the run of [calculateStreaks] out of fuel. *)
Definition toggleHabitCompletion (fuel : nat) (now : Z) (currentUser : User)
    (habitId : string) (date : Z) : option User :=
  let dateKey := getDateKey date in
  match findHabit habitId (habits currentUser) with
  | None => Some currentUser
  | Some habit =>
      let completions :=
        toggleCompletion (default ∅ (h_completions habit)) dateKey in
      match calculateStreaks fuel now habit completions (Some date) with
      | None => None
      | Some s =>
          Some (updateHabit currentUser habitId
                  {| u_name := None; u_description := None; u_frequency := None;
                     u_selectedDays := None; u_difficulty := None;
                     u_completions := Some completions;
                     u_currentStreak := Some (currentStreak s);
                     u_longestStreak := Some (longestStreak s) |})
      end
  end.

(** *** Statistics *)

Definition getHabitStats (now : Z) (habit : Habit) : HabitStats :=
  let completions := ObjectKeys (default ∅ (h_completions habit)) in
  let totalDays :=
    match newDate (OfString (h_createdAt habit)) with
    | Some created => getDaysDifference (OfDate now) (OfDate created)
    | None => None
    end in
  let completionRate :=
    match totalDays with
    | Some days =>
        if days >? 0
        then Num.mul (Num.div (Num.ofZ (Z.of_nat (length completions)))
                              (Num.ofZ days))
                     (Num.ofZ 100)
        else Num.ofZ 0
    | None => Num.ofZ 0
    end in
  {| totalCompletions := Z.of_nat (length completions);
     completionRate := Num.toFixed1 completionRate;
     stats_currentStreak := h_currentStreak habit;
     stats_longestStreak := h_longestStreak habit |}.

Definition monthEntry (habit : Habit) (month year day : Z) : DayEntry :=
  let date := newDateYMD year month day in
  let dateKey := getDateKey date in
  {| day := day;
     completed :=
       match h_completions habit with
       | Some c => if truthy (c !! dateKey) then 1 else 0
       | None => 0
       end;
     date := dateKey |}.

(** The [for (day = 1; day <= daysInMonth; day++)] loop; [n] counts the
    rounds that remain. *)
Fixpoint monthLoop (habit : Habit) (month year : Z) (n : nat) (day : Z)
    (data : list DayEntry) : list DayEntry :=
  match n with
  | O => data
  | S n' =>
      monthLoop habit month year n' (day + 1)
                (data ++ [monthEntry habit month year day])
  end.

Definition getMonthlyData (habit : Habit) (month year : Z) : list DayEntry :=
  let daysInMonth := getDate (newDateYMD year (month + 1) 0) in
  monthLoop habit month year (Z.to_nat daysInMonth) 1 [].

(** [toLocaleDateString('en-US', { month: 'short' })] *)
Definition monthShort (m : Z) : string :=
  match m with
  | 0 => "Jan" | 1 => "Feb" | 2 => "Mar" | 3 => "Apr" | 4 => "May" | 5 => "Jun"
  | 6 => "Jul" | 7 => "Aug" | 8 => "Sep" | 9 => "Oct" | 10 => "Nov" | _ => "Dec"
  end%string.

Definition yearEntry (habit : Habit) (year month : Z) : MonthEntry :=
  let monthData := getMonthlyData habit month year in
  let completions :=
    Z.of_nat (length (List.filter (fun d => negb (completed d =? 0)) monthData)) in
  let total := Z.of_nat (length monthData) in
  {| month := monthShort (getMonth (newDateYMD year month 1));
     month_completionRate :=
       if total >? 0
       then Num.mul (Num.div (Num.ofZ completions) (Num.ofZ total)) (Num.ofZ 100)
       else Num.ofZ 0;
     month_completions := completions |}.

(** The [for (month = 0; month < 12; month++)] loop. *)
Fixpoint yearLoop (habit : Habit) (year : Z) (n : nat) (month : Z)
    (data : list MonthEntry) : list MonthEntry :=
  match n with
  | O => data
  | S n' => yearLoop habit year n' (month + 1) (data ++ [yearEntry habit year month])
  end.

Definition getYearlyData (habit : Habit) (year : Z) : list MonthEntry :=
  yearLoop habit year 12 0 [].

(** *** The [todayHabits] filter of the dashboard *)

(** [arr?.includes(x)] as a condition: a missing array is [undefined],
    which is falsy. *)
Definition includes (arr : option (list Z)) (x : Z) : bool :=
  match arr with
  | Some l => existsb (Z.eqb x) l
  | None => false
  end.

Definition todayHabitsFilter (selectedDate : Z) (habit : Habit) : bool :=
  if String.eqb (h_frequency habit) "daily" then true
  else if String.eqb (h_frequency habit) "weekly" then
    let day := getDay selectedDate in
    includes (h_selectedDays habit) day
  else true.

Definition todayHabits (user : User) (selectedDate : Z) : list Habit :=
  List.filter (todayHabitsFilter selectedDate) (habits user).

End Engine.

(** ** Well-formed data and the words of the specification *)

(** A date key: the date-only form [YYYY-MM-DD] of a real calendar day. *)
Definition isDateKey (k : string) : bool :=
  match list_ascii_of_string k with
  | [y0; y1; y2; y3; s1; m0; m1; s2; d0; d1] =>
      match Str.parseYMD y0 y1 y2 y3 s1 m0 m1 s2 d0 d1 with
      | Some _ => true
      | None => false
      end
  | _ => false
  end.

(** A civil date that a key can hold; [m] is the month number 1..12. *)
Definition validYMD (y m d : Z) : Prop :=
  0 <= y <= 9999 /\ 1 <= m <= 12 /\ 1 <= d <= ES.DaysInMonth y (m - 1).

(** The day number that a key denotes (0 for a string that is no key). *)
Definition keyDay (k : string) : Z :=
  match Str.parseISO k with
  | Some t => ES.Day t
  | None => 0
  end.

(** A well-formed completion map: every key is a date key and every
    stored marker is [true]. *)
Definition wf_completions (c : gmap string bool) : Prop :=
  map_Forall (fun k v => isDateKey k = true /\ v = true) c.

(** The ascending list of the dates of a completion map. *)
Definition sortedKeys (c : gmap string bool) : list string :=
  Str.sort (ObjectKeys c).

(** The number of completed entries of a monthly series. *)
Definition completedDays (data : list DayEntry) : Z :=
  Z.of_nat (length (filter (fun e => completed e = 1) data)).

(** The specification's continuation rule on two neighbouring dates:
    the gap is exactly one day, or the habit is weekly and the gap is at
    most seven days. *)
Definition spec_gapOk (weekly : bool) (later earlier : string) : bool :=
  let gap := keyDay later - keyDay earlier in
  (gap =? 1) || (weekly && (gap <=? 7)).

(** Length of the run that starts at [first] and is extended through
    [rest] while the rule holds. *)
Fixpoint spec_runFrom (weekly : bool) (first : string) (rest : list string) : Z :=
  match rest with
  | [] => 1
  | next :: rest' =>
      if spec_gapOk weekly next first
      then 1 + spec_runFrom weekly next rest'
      else 1
  end.

(** The maximum of the run lengths over all starting positions. *)
Fixpoint spec_longestRun (weekly : bool) (sorted : list string) : Z :=
  match sorted with
  | [] => 0
  | first :: rest =>
      Z.max (spec_runFrom weekly first rest) (spec_longestRun weekly rest)
  end.

Definition isWeekly (habit : Habit) : bool :=
  String.eqb (h_frequency habit) "weekly".

(** The same search for any test [ok] of two neighbours: what the two
    loops compute with the test of the code. *)
Fixpoint runFrom (ok : string -> string -> bool) (first : string) (rest : list string) : Z :=
  match rest with
  | [] => 1
  | next :: rest' => if ok next first then 1 + runFrom ok next rest' else 1
  end.

Fixpoint longestRun (ok : string -> string -> bool) (sorted : list string) : Z :=
  match sorted with
  | [] => 0
  | first :: rest => Z.max (runFrom ok first rest) (longestRun ok rest)
  end.

(** Days [a], [a+1], ..., [a+n-1] all occur among the keys of [l]. *)
Definition daysPresent (l : list string) (a n : Z) : Prop :=
  forall i, 0 <= i < n -> exists k, k ∈ l /\ keyDay k = a + i.

(** The number [YYYYMMDD] of a civil date. *)
Definition ymdNumber (y m d : Z) : Z := y * 10000 + m * 100 + d.

(** A year that [new Date(year, ...)] takes as it is (0..99 mean 19xx). *)
Definition plainYear (year : Z) : Prop := year < 0 \/ 99 < year.

(** The cached streak fields of a habit are consistent. *)
Definition streaksOk (h : Habit) : Prop :=
  0 <= h_currentStreak h /\ 0 <= h_longestStreak h
  /\ h_currentStreak h <= h_longestStreak h.

Definition userOk (u : User) : Prop := Forall streaksOk (habits u).

(** The commands of the application that replace the habit list. *)
Inductive step (host : Host) : User -> User -> Prop :=
| step_add newId now u data :
    step host u (addHabit newId now u data)
| step_edit u habitId data :
    step host u (updateHabit u habitId (formUpdates data))
| step_delete u habitId :
    step host u (deleteHabit u habitId)
| step_toggle fuel now u habitId date u' :
    toggleHabitCompletion host fuel now u habitId date = Some u' ->
    step host u u'.

(** A machine whose zone has the same offset at all times and whose
    engine reads the two ISO forms only. *)
Definition fixedHost (tz : Z) : Host := mkHost (fun _ _ => tz) (fun _ => None).

(** The zone of the host has the offset [tz] at all times. *)
Definition fixedOffset (host : Host) (tz : Z) : Prop :=
  forall t b, LocalTZA host t b = tz.

(** Reading a local time and showing the instant again stays on the same
    calendar day.  (A time that a change of the clock skips is shown
    later by the length of the skip: zones that set their clocks forward
    by an hour during the night satisfy this, a zone that drops a whole
    calendar day does not.) *)
Definition zoneOk (host : Host) : Prop :=
  forall t, ES.Day (LocalTime host (UTC host t)) = ES.Day t.

(** The offsets of the zone are less than a day. *)
Definition offsetsBounded (host : Host) : Prop :=
  forall t b, - ES.msPerDay < LocalTZA host t b < ES.msPerDay.

(** The number of whole periods of 24 hours from local midnight of the
    day [D2] to local midnight of the day [D1]: the difference of the day
    numbers when both midnights are read with the same offset, and one
    less when the offset of the later one is larger (by less than a day),
    as after the clock was set forward. *)
Definition midnightGap (host : Host) (D1 D2 : Z) : Z :=
  D1 - D2
  + (LocalTZA host (D2 * ES.msPerDay) false - LocalTZA host (D1 * ES.msPerDay) false)
    / ES.msPerDay.

(** The key of the calendar day with the day number [D]. *)
Definition dayKey (D : Z) : string := getDateKey (fixedHost 0) (D * ES.msPerDay).

(** ** Concrete data for the examples *)

(** UTC+05:30, without changes of the clock. *)
Definition IST : Host := fixedHost 19800000.

(** America/New_York as it is in 2024: UTC-5, and UTC-4 from 10 March
    07:00 UTC to 3 November 06:00 UTC.  The clock goes from 02:00 to 03:00
    on 10 March and from 02:00 back to 01:00 on 3 November. *)
Definition newYork : Host :=
  mkHost
    (fun t isUTC =>
       let from := 19792 * ES.msPerDay + 7 * 3600000 in
       let to := 20030 * ES.msPerDay + 6 * 3600000 in
       if isUTC
       then if (from <=? t) && (t <? to) then -4 * 3600000 else -5 * 3600000
       else if (from - 4 * 3600000 <=? t) && (t <? to - 4 * 3600000)
            then -4 * 3600000 else -5 * 3600000)
    (fun _ => None).

Definition dailyHabit : Habit :=
  {| h_id := "h1"; h_name := "Read"; h_description := "ten pages";
     h_frequency := "daily"; h_selectedDays := Some [];
     h_difficulty := "medium"; h_createdAt := "2023-12-26T10:00:00.000Z";
     h_completions := None; h_currentStreak := 0; h_longestStreak := 0 |}.

(** The map whose keys are the dates of the given day numbers. *)
Definition keysOfDays (days : list Z) : gmap string bool :=
  list_to_map ((fun d => (dayKey d, true)) <$> days).

(** 2024-01-01 to 2024-01-05, without the third. *)
Definition fourDays : gmap string bool := keysOfDays [19723; 19724; 19726; 19727].

(** Noon UTC of 2024-01-05. *)
Definition jan5 : Z := 1704456000000.

Definition readerHabit : Habit :=
  {| h_id := "h1"; h_name := "Read"; h_description := "ten pages";
     h_frequency := "daily"; h_selectedDays := Some [];
     h_difficulty := "medium"; h_createdAt := "2023-12-26T10:00:00.000Z";
     h_completions := Some (keysOfDays [19723; 19724; 19725; 19726; 19727]);
     h_currentStreak := 5; h_longestStreak := 5 |}.

(** The 367 days that end on 2024-02-13. *)
Definition longRun : gmap string bool := keysOfDays (seqZ 19400 367).

(** 368 days from 2022-01-08 and, after a gap, the 367 days of [longRun]. *)
Definition twoRuns : gmap string bool :=
  keysOfDays (seqZ 19000 368 ++ seqZ 19400 367).

(** Midnight UTC of 2024-02-13. *)
Definition feb13 : Z := 19766 * ES.msPerDay.

(** 2024-03-10 to 2024-03-12, the days around the change of the clock in
    New York. *)
Definition marchDays : gmap string bool := keysOfDays [19792; 19793; 19794].

(** 15:00 UTC of 2024-03-05, of 2024-03-12, of 2024-03-15 and of
    2024-03-20. *)
Definition mar5 : Z := 19787 * ES.msPerDay + 15 * 3600000.
Definition mar12 : Z := 19794 * ES.msPerDay + 15 * 3600000.
Definition mar15 : Z := 19797 * ES.msPerDay + 15 * 3600000.
Definition mar20 : Z := 19802 * ES.msPerDay + 15 * 3600000.

(** The day count of [getDailyQuote]: the local day within the year
    counted from 1, corrected by the difference between the offset of
    local time at the midnight before 1 January and the offset now. *)
Definition spec_dayOfYear (host : Host) (now : Z) : Z :=
  ES.DayWithinYear (LocalTime host now) + 1
  + (ES.TimeWithinDay (LocalTime host now)
     + LocalTZA host (ES.MakeDate (ES.MakeDay (getFullYear host now) 0 0) 0) false
     - LocalTZA host now true) / ES.msPerDay.

(** 2024-07-01 in New York, at 00:30 and at 12:00 local time. *)
Definition july1_early : Z := 19905 * ES.msPerDay + 4 * 3600000 + 1800000.
Definition july1_noon : Z := 19905 * ES.msPerDay + 16 * 3600000.

(** A habit created on 2024-03-05 and completed on the five days from
    2024-03-06 to 2024-03-10. *)
Definition marchHabit : Habit :=
  {| h_id := "h1"; h_name := "Read"; h_description := "ten pages";
     h_frequency := "daily"; h_selectedDays := Some [];
     h_difficulty := "medium"; h_createdAt := "2024-03-05T15:00:00.000Z";
     h_completions := Some (keysOfDays [19788; 19789; 19790; 19791; 19792]);
     h_currentStreak := 0; h_longestStreak := 0 |}.

(** ** The rest of [src/App.jsx]: moods, quotes, calendar, form, accounts *)

(** *** [String.prototype.replace] with a string pattern *)

(** [s] without the prefix [pat], if it starts with it. *)
Fixpoint stripPrefix (pat s : string) : option string :=
  match pat with
  | EmptyString => Some s
  | String p pat' =>
      match s with
      | EmptyString => None
      | String c s' => if Ascii.eqb p c then stripPrefix pat' s' else None
      end
  end.

(** The first occurrence of [pat] in [s]: the text before it and the text
    after it. *)
Fixpoint findFirst (pat s : string) {struct s} : option (string * string) :=
  match stripPrefix pat s with
  | Some rest => Some (EmptyString, rest)
  | None =>
      match s with
      | EmptyString => None
      | String c s' =>
          match findFirst pat s' with
          | Some (before, rest) => Some (String c before, rest)
          | None => None
          end
      end
  end.

(** [GetSubstitution] without captures: [$$] is a dollar sign, [$&] the
    match, [$`] the text before it, [$'] the text after it; any other
    dollar sign stands for itself. *)
Fixpoint GetSubstitution (matched before rest : string) (replacement : string)
    : string :=
  match replacement with
  | EmptyString => EmptyString
  | String c r =>
      if Ascii.eqb c "$" then
        match r with
        | EmptyString => String c EmptyString
        | String c' r' =>
            if Ascii.eqb c' "$" then
              String "$" (GetSubstitution matched before rest r')
            else if Ascii.eqb c' "&" then
              String.append matched (GetSubstitution matched before rest r')
            else if Ascii.eqb c' "`" then
              String.append before (GetSubstitution matched before rest r')
            else if Ascii.eqb c' "'" then
              String.append rest (GetSubstitution matched before rest r')
            else String c (GetSubstitution matched before rest r)
        end
      else String c (GetSubstitution matched before rest r)
  end.

(** [s.replace(pat, replacement)]: the first occurrence only. *)
Definition stringReplace (s pat replacement : string) : string :=
  match findFirst pat s with
  | Some (before, rest) =>
      String.append before
        (String.append (GetSubstitution pat before rest replacement) rest)
  | None => s
  end.

(** *** [HabitModal] *)

Definition toggleDay (formData : HabitForm) (day : Z) : HabitForm :=
  let days :=
    if existsb (Z.eqb day) (f_selectedDays formData)
    then List.filter (fun d => negb (d =? day)) (f_selectedDays formData)
    else f_selectedDays formData ++ [day] in
  {| f_name := f_name formData;
     f_description := f_description formData;
     f_frequency := f_frequency formData;
     f_selectedDays := days;
     f_difficulty := f_difficulty formData |}.

(** *** The quotes *)

Definition motivationalQuotes : list string :=
  [ "Success is the sum of small efforts repeated day in and day out, {name}!";
    "You don't have to be great to start, but you have to start to be great, {name}!";
    "The secret of getting ahead is getting started, {name}.";
    "Every accomplishment starts with the decision to try, {name}!";
    "Small daily improvements over time lead to stunning results, {name}!";
    "Your future is created by what you do today, {name}, not tomorrow.";
    "Don't watch the clock, {name}; do what it does. Keep going!";
    "The only way to do great work is to love what you do, {name}.";
    "Believe you can and you're halfway there, {name}!";
    "Progress, not perfection, {name}. Keep moving forward!" ]%string.

(** [arr[i]] for an integer-valued index; [None] is [undefined]. *)
Definition arrayGet {A} (arr : list A) (i : Z) : option A :=
  if i <? 0 then None else arr !! Z.to_nat i.

(** [h.completions?.[dateKey]] as a condition. *)
Definition hasCompletion (dateKey : string) (h : Habit) : bool :=
  match h_completions h with
  | Some c => truthy (c !! dateKey)
  | None => false
  end.

(** The result of [getDayData] of the calendar. *)
Record DayData := mkDayData {
  completedHabits : Z;
  totalHabits : Z;
  dd_mood : option Z;
  dd_hasReflection : option string
}.

(** One child of the calendar grid: a filler before the first of the
    month, or the cell of a day. *)
Inductive CalendarCell :=
| EmptyCell (i : Z)
| DayCell (day : Z) (data : DayData) (isToday isSelected : bool)
    (completionRate : spec_float).

Section Views.

Variable host : Host.

(** *** Moods and reflections *)

(** As for [addHabit], the result is the argument of [updateCurrentUser]. *)
Definition setMood (currentUser : User) (date : Z) (mood : Z) : User :=
  let dateKey := getDateKey host date in
  {| user_id := user_id currentUser;
     user_name := user_name currentUser;
     habits := habits currentUser;
     moods := <[dateKey := mood]> (moods currentUser);
     reflections := reflections currentUser |}.

Definition setReflection (currentUser : User) (date : Z) (text : string) : User :=
  let dateKey := getDateKey host date in
  {| user_id := user_id currentUser;
     user_name := user_name currentUser;
     habits := habits currentUser;
     moods := moods currentUser;
     reflections := <[dateKey := text]> (reflections currentUser) |}.

(** *** [getDailyQuote] and [getBestHabit] *)

(** [currentUser?.name || 'there'] *)
Definition displayName (currentUser : option User) : string :=
  match currentUser with
  | Some u => if String.eqb (user_name u) EmptyString then "there"%string
              else user_name u
  | None => "there"%string
  end.

(** [now] stands for the three readings of the clock.  [None] is the
    [TypeError] of [undefined.replace].  The quotient is the integer one:
    it stays far below 2^26 in magnitude, where the floor of the binary64
    quotient by 86400000 is the floor of the exact one. *)
Definition getDailyQuote (now : Z) (currentUser : option User) : option string :=
  let dayOfYear :=
    (now - newDateYMD host (getFullYear host now) 0 0) / 86400000 in
  match arrayGet motivationalQuotes
          (Z.rem dayOfYear (Z.of_nat (length motivationalQuotes))) with
  | None => None
  | Some quote => Some (stringReplace quote "{name}" (displayName currentUser))
  end.

Definition getBestHabit (now : Z) (currentUser : option User) : option Habit :=
  match currentUser with
  | None => None
  | Some u =>
      if (length (habits u) =? 0)%nat then None
      else
        fold_left
          (fun best habit =>
             let stats := getHabitStats host now habit in
             let bestStreak :=
               match best with
               | Some b => stats_currentStreak (getHabitStats host now b)
               | None => 0
               end in
             if stats_currentStreak stats >? bestStreak then Some habit else best)
          (habits u) None
  end.

(** *** The dashboard *)

Definition currentMood (user : User) (selectedDate : Z) : option Z :=
  moods user !! getDateKey host selectedDate.

Definition currentReflection (user : User) (selectedDate : Z) : string :=
  match reflections user !! getDateKey host selectedDate with
  | Some text => if String.eqb text EmptyString then EmptyString else text
  | None => EmptyString
  end.

Definition completedToday (user : User) (selectedDate : Z) : Z :=
  Z.of_nat (length (List.filter (hasCompletion (getDateKey host selectedDate))
                                (todayHabits host user selectedDate))).

Definition totalToday (user : User) (selectedDate : Z) : Z :=
  Z.of_nat (length (todayHabits host user selectedDate)).

Definition completionPercentage (user : User) (selectedDate : Z) : spec_float :=
  if totalToday user selectedDate >? 0
  then Num.mul (Num.div (Num.ofZ (completedToday user selectedDate))
                        (Num.ofZ (totalToday user selectedDate)))
               (Num.ofZ 100)
  else Num.ofZ 0.

(** The "Best Streak" card:
    [user.habits.reduce((max, h) => Math.max(max, h.currentStreak || 0), 0)]. *)
Definition bestStreak (user : User) : Z :=
  fold_left (fun max h => Z.max max (h_currentStreak h)) (habits user) 0.

(** *** [CalendarView] *)

Definition firstDay (selectedMonth : Z) : Z :=
  let year := getFullYear host selectedMonth in
  let month := getMonth host selectedMonth in
  getDay host (newDateYMD host year month 1).

Definition daysInMonth (selectedMonth : Z) : Z :=
  let year := getFullYear host selectedMonth in
  let month := getMonth host selectedMonth in
  getDate host (newDateYMD host year (month + 1) 0).

Definition prevMonth (selectedMonth : Z) : Z :=
  let year := getFullYear host selectedMonth in
  let month := getMonth host selectedMonth in
  newDateYMD host year (month - 1) 1.

Definition nextMonth (selectedMonth : Z) : Z :=
  let year := getFullYear host selectedMonth in
  let month := getMonth host selectedMonth in
  newDateYMD host year (month + 1) 1.

Definition getDayData (user : User) (selectedMonth : Z) (day : Z) : DayData :=
  let year := getFullYear host selectedMonth in
  let month := getMonth host selectedMonth in
  let date := newDateYMD host year month day in
  let dateKey := getDateKey host date in
  {| completedHabits :=
       Z.of_nat (length (List.filter (hasCompletion dateKey) (habits user)));
     totalHabits := Z.of_nat (length (habits user));
     dd_mood := moods user !! dateKey;
     dd_hasReflection := reflections user !! dateKey |}.

(** The [for (i = 0; i < firstDay; i++)] loop; [n] counts the rounds that
    remain. *)
Fixpoint emptyLoop (n : nat) (i : Z) (days : list CalendarCell)
    : list CalendarCell :=
  match n with
  | O => days
  | S n' => emptyLoop n' (i + 1) (days ++ [EmptyCell i])
  end.

Definition dayCell (user : User) (selectedMonth selectedDate now : Z) (day : Z)
    : CalendarCell :=
  let year := getFullYear host selectedMonth in
  let month := getMonth host selectedMonth in
  let data := getDayData user selectedMonth day in
  let date := newDateYMD host year month day in
  let isToday := String.eqb (getDateKey host date) (getDateKey host now) in
  let isSelected :=
    String.eqb (getDateKey host date) (getDateKey host selectedDate) in
  let completionRate :=
    if totalHabits data >? 0
    then Num.mul (Num.div (Num.ofZ (completedHabits data)) (Num.ofZ (totalHabits data)))
                 (Num.ofZ 100)
    else Num.ofZ 0 in
  DayCell day data isToday isSelected completionRate.

(** The [for (day = 1; day <= daysInMonth; day++)] loop. *)
Fixpoint dayLoop (user : User) (selectedMonth selectedDate now : Z)
    (n : nat) (day : Z) (days : list CalendarCell) : list CalendarCell :=
  match n with
  | O => days
  | S n' =>
      dayLoop user selectedMonth selectedDate now n' (day + 1)
              (days ++ [dayCell user selectedMonth selectedDate now day])
  end.

Definition renderCalendarDays (user : User) (selectedMonth selectedDate now : Z)
    : list CalendarCell :=
  let days := emptyLoop (Z.to_nat (firstDay selectedMonth)) 0 [] in
  dayLoop user selectedMonth selectedDate now
          (Z.to_nat (daysInMonth selectedMonth)) 1 days.

End Views.

(** *** Accounts and the session *)

(** A user object of [appData.users]: the fields of [User] that the habit
    commands read, and the credentials next to them. *)
Record Account := mkAccount {
  acc_email : string;
  acc_password : string;
  acc_createdAt : string;
  acc_user : User
}.

(** The stored object: [{ users, currentUser, theme }]. *)
Record AppData := mkAppData {
  users : list Account;
  data_currentUser : option string;
  data_theme : string
}.

(** The state of the [HabitTracker] component that the commands write. *)
Record AppState := mkAppState {
  st_appData : AppData;
  st_currentUser : option Account;
  st_theme : string;
  st_currentView : string
}.

(** [StorageManager.loadData] when nothing is stored. *)
Definition freshData : AppData :=
  {| users := []; data_currentUser := None; data_theme := "dark" |}.

(** [n.toString(16)] of a non-negative integer; fourteen rounds cover
    every integer below 2^53. *)
Definition hexChar (n : Z) : ascii :=
  if n <? 10 then Str.digitChar n else ascii_of_N (Z.to_N (87 + n)).

Fixpoint hexFrom (fuel : nat) (n : Z) (acc : string) : string :=
  match fuel with
  | O => acc
  | S fuel' =>
      let acc' := String (hexChar (n mod 16)) acc in
      if n / 16 =? 0 then acc' else hexFrom fuel' (n / 16) acc'
  end.

Definition toString16 (n : Z) : string :=
  if n <? 0 then String "-"%char (hexFrom 14 (- n) EmptyString)
  else hexFrom 14 n EmptyString.

(** [Array.from(new Uint8Array(hash)).map(b => ...).join('')] *)
Definition hexOfBytes (hash : list Byte.byte) : string :=
  String.concat EmptyString
    (map (fun b => Str.padStart 2 "0"%char (toString16 (Z.of_N (Byte.to_N b)))) hash).

Section Accounts.

(** The SHA-256 digest of the UTF-8 encoding of a string, as
    [crypto.subtle.digest] returns it. *)
Variable digest : string -> list Byte.byte.

Definition hashPassword (password : string) : string :=
  hexOfBytes (digest password).

(** [newId] is the value of [generateId()], [now] that of [new Date()]. *)
Definition signUp (newId : string) (now : Z) (st : AppState)
    (name email password : string) : bool * AppState :=
  let hashedPassword := hashPassword password in
  let newUser :=
    {| acc_email := email;
       acc_password := hashedPassword;
       acc_createdAt := Str.toISOString now;
       acc_user := {| user_id := newId; user_name := name; habits := [];
                      moods := ∅; reflections := ∅ |} |} in
  let updatedData :=
    {| users := users (st_appData st) ++ [newUser];
       data_currentUser := Some (user_id (acc_user newUser));
       data_theme := data_theme (st_appData st) |} in
  (true, {| st_appData := updatedData;
            st_currentUser := Some newUser;
            st_theme := st_theme st;
            st_currentView := st_currentView st |}).

Definition signIn (st : AppState) (email password : string) : bool * AppState :=
  let hashedPassword := hashPassword password in
  match List.find (fun u => String.eqb (acc_email u) email
                            && String.eqb (acc_password u) hashedPassword)
                  (users (st_appData st)) with
  | Some user =>
      (true, {| st_appData :=
                  {| users := users (st_appData st);
                     data_currentUser := Some (user_id (acc_user user));
                     data_theme := data_theme (st_appData st) |};
                st_currentUser := Some user;
                st_theme := st_theme st;
                st_currentView := st_currentView st |})
  | None => (false, st)
  end.

(** The form of [AuthScreen] as in [src/unnamed/part_000] (the variant of
    [src/App.jsx] defers the call of [signUp] by a timer): the error
    message it shows (empty for none) and the state after the call. *)
Definition handleSubmit (isSignUp : bool) (newId : string) (now : Z)
    (st : AppState) (name email password : string) : string * AppState :=
  if isSignUp then
    if String.eqb name EmptyString || String.eqb email EmptyString
       || String.eqb password EmptyString
    then ("All fields are required"%string, st)
    else (EmptyString, snd (signUp newId now st name email password))
  else
    let (success, st') := signIn st email password in
    if success then (EmptyString, st')
    else ("Invalid email or password"%string, st').

End Accounts.

Definition signOut (st : AppState) : AppState :=
  {| st_appData :=
       {| users := users (st_appData st);
          data_currentUser := None;
          data_theme := data_theme (st_appData st) |};
     st_currentUser := None;
     st_theme := st_theme st;
     st_currentView := "dashboard" |}.

Definition toggleTheme (st : AppState) : AppState :=
  let newTheme :=
    if String.eqb (st_theme st) "dark" then "light"%string else "dark"%string in
  {| st_appData :=
       {| users := users (st_appData st);
          data_currentUser := data_currentUser (st_appData st);
          data_theme := newTheme |};
     st_currentUser := st_currentUser st;
     st_theme := newTheme;
     st_currentView := st_currentView st |}.

Definition updateCurrentUser (st : AppState) (updatedUser : Account) : AppState :=
  {| st_appData :=
       {| users :=
            map (fun u => if String.eqb (user_id (acc_user u))
                                        (user_id (acc_user updatedUser))
                          then updatedUser else u)
                (users (st_appData st));
          data_currentUser := data_currentUser (st_appData st);
          data_theme := data_theme (st_appData st) |};
     st_currentUser := Some updatedUser;
     st_theme := st_theme st;
     st_currentView := st_currentView st |}.

(** [{ ...currentUser, habits, moods, reflections }]: the copy of the
    account that a habit, mood or reflection command hands to
    [updateCurrentUser]. *)
Definition withUser (currentUser : Account) (u : User) : Account :=
  {| acc_email := acc_email currentUser;
     acc_password := acc_password currentUser;
     acc_createdAt := acc_createdAt currentUser;
     acc_user := u |}.

(** A command of the signed-in user, from its effect on the [User].
    Without a signed-in user the application shows the sign-in form and
    no command is reachable. *)
Definition runCommand (f : User -> User) (st : AppState) : AppState :=
  match st_currentUser st with
  | Some currentUser =>
      updateCurrentUser st (withUser currentUser (f (acc_user currentUser)))
  | None => st
  end.

(** ** Further well-formedness *)

(** Every completion map of the user is well formed. *)
Definition completionsOk (u : User) : Prop :=
  Forall (fun h => wf_completions (default ∅ (h_completions h))) (habits u).

(** No two habits share an id. *)
Definition uniqueIds (u : User) : Prop := NoDup (h_id <$> habits u).

(** The session and the stored data agree: the signed-in account is the
    stored account of the stored id. *)
Definition sessionOk (st : AppState) : Prop :=
  match st_currentUser st with
  | Some a =>
      data_currentUser (st_appData st) = Some (user_id (acc_user a))
      /\ a ∈ users (st_appData st)
  | None => True
  end.
(** The [updates] object of [toggleHabitCompletion]. *)
Definition streakUpdates (completions : gmap string bool) (s : Streaks)
    : HabitUpdates :=
  {| u_name := None; u_description := None; u_frequency := None;
     u_selectedDays := None; u_difficulty := None;
     u_completions := Some completions;
     u_currentStreak := Some (currentStreak s);
     u_longestStreak := Some (longestStreak s) |}.

(** ** Further concrete data *)

Definition reader : User :=
  {| user_id := "u1"; user_name := "Ada"; habits := [readerHabit];
     moods := ∅; reflections := ∅ |}.

(** [reader] after the completion of 2024-01-05 is taken back. *)
Definition readerToggled : User :=
  updateHabit reader "h1"
    (streakUpdates (keysOfDays [19723; 19724; 19725; 19726]) (mkStreaks 0 4)).

(** The stored account of [reader], and the state in which it is signed
    in. *)
Definition readerAccount : Account :=
  {| acc_email := "ada@example.org"; acc_password := "00ff";
     acc_createdAt := "2023-12-26T10:00:00.000Z"; acc_user := reader |}.

Definition signedIn : AppState :=
  {| st_appData := {| users := [readerAccount]; data_currentUser := Some "u1"%string;
                      data_theme := "dark" |};
     st_currentUser := Some readerAccount;
     st_theme := "dark"; st_currentView := "dashboard" |}.

(** * Proofs *)

(** ** The calendar: years, months and days of a day number *)

Module ESFacts.
Import ES.

Ltac zdiv := Z.to_euclidean_division_equations; lia.

Lemma DayFromYear_succ y : DayFromYear (y + 1) = DayFromYear y + DaysInYear y.
Proof.
  unfold DayFromYear, DaysInYear, isLeap.
  repeat match goal with |- context [ (?a =? ?b) ] => destruct (Z.eqb_spec a b) end;
    cbn [negb]; zdiv.
Qed.

Lemma DaysInYear_bounds y : 365 <= DaysInYear y <= 366.
Proof. unfold DaysInYear. destruct (isLeap y); lia. Qed.

Lemma DayFromYear_mono y1 y2 : y1 <= y2 -> DayFromYear y1 <= DayFromYear y2.
Proof. unfold DayFromYear. intros. zdiv. Qed.

Lemma YearFromDay_spec d :
  DayFromYear (YearFromDay d) <= d < DayFromYear (YearFromDay d + 1).
Proof.
  unfold YearFromDay.
  set (y0 := 1970 + d * 400 / 146097).
  assert (H1 : DayFromYear (y0 - 1) <= d) by (unfold DayFromYear, y0; zdiv).
  assert (H2 : d < DayFromYear (y0 + 2)) by (unfold DayFromYear, y0; zdiv).
  destruct (Z.ltb_spec d (DayFromYear y0)).
  - replace (y0 - 1 + 1) with y0 by lia. lia.
  - destruct (Z.leb_spec (DayFromYear (y0 + 1)) d).
    + replace (y0 + 1 + 1) with (y0 + 2) by lia. lia.
    + lia.
Qed.

Lemma YearFromDay_unique d y :
  DayFromYear y <= d < DayFromYear (y + 1) -> YearFromDay d = y.
Proof.
  intros H. pose proof (YearFromDay_spec d) as S.
  destruct (Z.lt_trichotomy (YearFromDay d) y) as [L | [E | G]]; [ | exact E | ].
  - pose proof (DayFromYear_mono (YearFromDay d + 1) y ltac:(lia)). lia.
  - pose proof (DayFromYear_mono (y + 1) (YearFromDay d) ltac:(lia)). lia.
Qed.

Lemma YearFromDay_mono d1 d2 : d1 <= d2 -> YearFromDay d1 <= YearFromDay d2.
Proof.
  intros H. pose proof (YearFromDay_spec d1). pose proof (YearFromDay_spec d2).
  destruct (Z.le_gt_cases (YearFromDay d1) (YearFromDay d2)) as [L | G]; [exact L | ].
  pose proof (DayFromYear_mono (YearFromDay d2 + 1) (YearFromDay d1) ltac:(lia)). lia.
Qed.

Lemma leapDay_01 y : 0 <= leapDay y <= 1.
Proof. unfold leapDay. destruct (isLeap y); lia. Qed.

Lemma DaysInYear_leapDay y : DaysInYear y = 365 + leapDay y.
Proof. unfold DaysInYear, leapDay. destruct (isLeap y); lia. Qed.

Lemma DayWithinYear_bounds t :
  0 <= DayWithinYear t < 365 + InLeapYear t.
Proof.
  unfold DayWithinYear, InLeapYear, YearFromTime.
  pose proof (YearFromDay_spec (Day t)) as S.
  rewrite DayFromYear_succ, DaysInYear_leapDay in S. lia.
Qed.

Lemma InLeapYear_01 t : 0 <= InLeapYear t <= 1.
Proof. apply leapDay_01. Qed.

(** Case analysis on a month index that the context keeps in 0..11. *)
Ltac enum_month m :=
  destruct m as [ | m | m];
  [ | do 4 (try (destruct m as [m | m | ]; try lia)) | lia ].

Ltac ltb_cases :=
  repeat match goal with
         | |- context [ (?a <? ?b) ] => destruct (Z.ltb_spec a b)
         end.

Lemma monthOfYearDay_bounds L d : 0 <= monthOfYearDay L d <= 11.
Proof. unfold monthOfYearDay. ltb_cases; lia. Qed.

Lemma monthOfYearDay_spec L d :
  0 <= L <= 1 -> 0 <= d < 365 + L ->
  monthStart L (monthOfYearDay L d) <= d
    < monthStart L (monthOfYearDay L d) + monthLength L (monthOfYearDay L d).
Proof.
  intros HL Hd. unfold monthOfYearDay. ltb_cases; cbn [monthStart monthLength]; lia.
Qed.

Lemma monthOfYearDay_start L m k :
  0 <= L <= 1 -> 0 <= m <= 11 -> 0 <= k < monthLength L m ->
  monthOfYearDay L (monthStart L m + k) = m.
Proof.
  intros HL Hm Hk. unfold monthOfYearDay.
  enum_month m; cbn [monthStart monthLength] in *; ltb_cases; lia.
Qed.

Lemma monthStart_year_end L m :
  0 <= L <= 1 -> 0 <= m <= 11 -> 0 <= monthStart L m /\ monthStart L m + monthLength L m <= 365 + L.
Proof.
  intros HL Hm. enum_month m; cbn [monthStart monthLength]; lia.
Qed.

Lemma MonthFromTime_bounds t : 0 <= MonthFromTime t <= 11.
Proof. apply monthOfYearDay_bounds. Qed.

Lemma DateFromTime_bounds t :
  1 <= DateFromTime t <= DaysInMonth (YearFromTime t) (MonthFromTime t).
Proof.
  pose proof (DayWithinYear_bounds t) as B.
  pose proof (InLeapYear_01 t) as HL.
  pose proof (monthOfYearDay_spec (InLeapYear t) (DayWithinYear t) HL B) as S.
  unfold DateFromTime, DaysInMonth, MonthFromTime in *. unfold InLeapYear in *. lia.
Qed.

Lemma MakeDay_plain y m d : 0 <= m <= 11 ->
  MakeDay y m d = DayFromYear y + monthStart (leapDay y) m + d - 1.
Proof.
  intros Hm. unfold MakeDay.
  replace (m / 12) with 0 by zdiv. replace (m mod 12) with m by zdiv.
  rewrite Z.add_0_r. reflexivity.
Qed.

(** Civil date to day number and back. *)
Lemma MakeDay_civil t :
  MakeDay (YearFromTime t) (MonthFromTime t) (DateFromTime t) = Day t.
Proof.
  rewrite MakeDay_plain by apply MonthFromTime_bounds.
  unfold DateFromTime, DayWithinYear, InLeapYear. lia.
Qed.

Lemma MakeDay_date y m d k : MakeDay y m (d + k) = MakeDay y m d + k.
Proof. unfold MakeDay. lia. Qed.

Lemma Day_MakeDate d tw : 0 <= tw < msPerDay -> Day (MakeDate d tw) = d.
Proof. unfold Day, MakeDate, msPerDay. intros. zdiv. Qed.

Lemma TimeWithinDay_MakeDate d tw : 0 <= tw < msPerDay -> TimeWithinDay (MakeDate d tw) = tw.
Proof. unfold TimeWithinDay, MakeDate, msPerDay. intros. zdiv. Qed.

Lemma MakeDate_Day t : MakeDate (Day t) (TimeWithinDay t) = t.
Proof. unfold TimeWithinDay, MakeDate, Day, msPerDay. zdiv. Qed.

Lemma TimeWithinDay_bounds t : 0 <= TimeWithinDay t < msPerDay.
Proof. unfold TimeWithinDay, msPerDay. zdiv. Qed.

Section Civil.
Variables y m d : Z.
Hypothesis Hm : 0 <= m <= 11.
Hypothesis Hd : 1 <= d <= DaysInMonth y m.

Lemma MakeDay_in_year :
  DayFromYear y <= MakeDay y m d < DayFromYear (y + 1).
Proof.
  rewrite MakeDay_plain, DayFromYear_succ, DaysInYear_leapDay by assumption.
  unfold DaysInMonth in Hd.
  pose proof (monthStart_year_end (leapDay y) m (leapDay_01 y) Hm). lia.
Qed.

Lemma YearFromDay_MakeDay : YearFromDay (MakeDay y m d) = y.
Proof. apply YearFromDay_unique, MakeDay_in_year. Qed.

Variable t : Z.
Hypothesis Ht : Day t = MakeDay y m d.

Lemma civil_year : YearFromTime t = y.
Proof. unfold YearFromTime. rewrite Ht. apply YearFromDay_MakeDay. Qed.

Lemma civil_dwy : DayWithinYear t = monthStart (leapDay y) m + (d - 1).
Proof.
  unfold DayWithinYear. rewrite civil_year, Ht, MakeDay_plain by assumption. lia.
Qed.

Lemma civil_month : MonthFromTime t = m.
Proof.
  unfold MonthFromTime, InLeapYear. rewrite civil_dwy, civil_year.
  unfold DaysInMonth in Hd. pose proof (leapDay_01 y).
  apply monthOfYearDay_start; lia.
Qed.

Lemma civil_date : DateFromTime t = d.
Proof.
  unfold DateFromTime, InLeapYear. rewrite civil_month, civil_dwy, civil_year. lia.
Qed.
End Civil.

Lemma monthLength_bounds L m : 0 <= L <= 1 -> 28 <= monthLength L m <= 31.
Proof.
  intros. unfold monthLength.
  destruct m as [ | p | p]; try lia.
  do 4 (destruct p as [p | p | ]; try lia).
Qed.

End ESFacts.

(** ** Digits, printing and parsing of keys *)

Module StrFacts.
Import ES Str ESFacts.

Lemma forallb_seqZ (P : Z -> bool) lo n :
  forallb P (seqZ lo n) = true -> forall z, lo <= z < lo + n -> P z = true.
Proof.
  intros H z Hz. rewrite forallb_forall in H. apply H.
  apply list_elem_of_In, elem_of_seqZ. lia.
Qed.

(** Case analysis on an integer that a bound in the context keeps
    below 16. *)
Ltac enum_small n :=
  destruct n as [ | n | n];
  [ | do 4 (try (destruct n as [n | n | ]; try lia)) | lia ].

Lemma digitVal_digitChar n : 0 <= n <= 9 -> digitVal (digitChar n) = Some n.
Proof. intros H. enum_small n; reflexivity. Qed.

Lemma digitVal_inv c n : digitVal c = Some n -> 0 <= n <= 9 /\ c = digitChar n.
Proof.
  unfold digitVal. intros H.
  destruct (Z.leb_spec 48 (Z.of_N (N_of_ascii c))); cbn [andb] in H; [ | discriminate].
  destruct (Z.leb_spec (Z.of_N (N_of_ascii c)) 57); [ | discriminate].
  injection H as <-. split; [lia | ].
  unfold digitChar.
  replace (48 + (Z.of_N (N_of_ascii c) - 48)) with (Z.of_N (N_of_ascii c)) by lia.
  rewrite N2Z.id. symmetry. apply ascii_N_embedding.
Qed.

Lemma digitChar_compare a b : 0 <= a <= 9 -> 0 <= b <= 9 ->
  Ascii.compare (digitChar a) (digitChar b) = (a ?= b).
Proof. intros Ha Hb. enum_small a; enum_small b; reflexivity. Qed.

Lemma digitChar_not_dash n : 0 <= n <= 9 -> isDash (digitChar n) = false.
Proof. intros H. enum_small n; reflexivity. Qed.

Lemma digitsFrom_step f n acc : n / 10 <> 0 ->
  digitsFrom (S f) n acc = digitsFrom f (n / 10) (String (digitChar (n mod 10)) acc).
Proof.
  intros H. cbn [digitsFrom]. destruct (Z.eqb_spec (n / 10) 0); [contradiction | reflexivity].
Qed.

Lemma digitsFrom_last f n acc : n / 10 = 0 ->
  digitsFrom (S f) n acc = String (digitChar (n mod 10)) acc.
Proof. intros H. cbn [digitsFrom]. now rewrite H. Qed.

Lemma NumberToString_nonneg n : 0 <= n -> NumberToString n = digitsFrom 21 n EmptyString.
Proof. intros H. unfold NumberToString. destruct (Z.ltb_spec n 0); [lia | reflexivity]. Qed.

Lemma NumberToString_1digit n : 0 <= n <= 9 ->
  NumberToString n = String (digitChar n) EmptyString.
Proof.
  intros H. rewrite NumberToString_nonneg by lia.
  rewrite digitsFrom_last by zdiv. do 2 f_equal. zdiv.
Qed.

Lemma NumberToString_2digits n : 10 <= n <= 99 -> NumberToString n = fmt2 n.
Proof.
  intros H. rewrite NumberToString_nonneg by lia.
  rewrite digitsFrom_step by zdiv. rewrite digitsFrom_last by zdiv.
  unfold fmt2. do 2 f_equal. zdiv.
Qed.

Lemma NumberToString_3digits n : 100 <= n <= 999 ->
  NumberToString n
  = String (digitChar (n / 100)) (fmt2 (n mod 100)).
Proof.
  intros H. rewrite NumberToString_nonneg by lia.
  rewrite 2 digitsFrom_step by zdiv. rewrite digitsFrom_last by zdiv.
  unfold fmt2.
  replace (n / 10 / 10 mod 10) with (n / 100) by zdiv.
  replace (n / 10 mod 10) with (n mod 100 / 10) by zdiv.
  replace (n mod 100 mod 10) with (n mod 10) by zdiv.
  reflexivity.
Qed.

Lemma NumberToString_fmt4 y : 1000 <= y <= 9999 -> NumberToString y = fmt4 y.
Proof.
  intros H. rewrite NumberToString_nonneg by lia.
  rewrite 3 digitsFrom_step by zdiv. rewrite digitsFrom_last by zdiv.
  unfold fmt4.
  replace (y / 10 / 10 / 10 mod 10) with (y / 1000) by zdiv.
  replace (y / 10 / 10 mod 10) with (y / 100 mod 10) by zdiv.
  reflexivity.
Qed.

Lemma padStart_fmt2 n : 0 <= n <= 99 ->
  padStart 2 "0"%char (NumberToString n) = fmt2 n.
Proof.
  intros H. destruct (Z.le_gt_cases n 9) as [L | G].
  - rewrite NumberToString_1digit by lia. unfold fmt2.
    replace (n / 10) with 0 by zdiv. replace (n mod 10) with n by zdiv. reflexivity.
  - rewrite NumberToString_2digits by lia. reflexivity.
Qed.

Lemma DaysInMonth_bounds y m : 28 <= DaysInMonth y m <= 31.
Proof. unfold DaysInMonth. apply monthLength_bounds, leapDay_01. Qed.

Lemma num2_fmt n : 0 <= n <= 99 ->
  num2 (digitChar (n / 10)) (digitChar (n mod 10)) = Some n.
Proof.
  intros H. unfold num2.
  rewrite !digitVal_digitChar by zdiv. f_equal. zdiv.
Qed.

Lemma num4_fmt n : 0 <= n <= 9999 ->
  num4 (digitChar (n / 1000)) (digitChar (n / 100 mod 10))
       (digitChar (n / 10 mod 10)) (digitChar (n mod 10)) = Some n.
Proof.
  intros H. unfold num4, num2.
  rewrite !digitVal_digitChar by zdiv. f_equal. zdiv.
Qed.

Lemma parseISO_isoDate y m d : validYMD y m d ->
  parseISO (isoDate y m d) = Some (MakeDate (MakeDay y (m - 1) d) 0).
Proof.
  intros (Hy & Hm & Hd). pose proof (DaysInMonth_bounds y (m - 1)).
  unfold parseISO, isoDate, fmt4, fmt2. cbv [String.append list_ascii_of_string].
  unfold parseYMD. rewrite num4_fmt, !num2_fmt by lia.
  change (isDash "-"%char) with true. cbn [andb].
  destruct (Z.leb_spec 1 m); [ | lia]. destruct (Z.leb_spec m 12); [ | lia].
  destruct (Z.leb_spec 1 d); [ | lia].
  destruct (Z.leb_spec d (DaysInMonth y (m - 1))); [ | lia].
  reflexivity.
Qed.


Lemma num2_inv a b n : num2 a b = Some n ->
  0 <= n <= 99 /\ fmt2 n = String a (String b EmptyString).
Proof.
  unfold num2. intros H.
  destruct (digitVal a) as [x | ] eqn:Ea; [ | discriminate].
  destruct (digitVal b) as [y | ] eqn:Eb; [ | discriminate].
  injection H as <-.
  apply digitVal_inv in Ea as [Hx ->]. apply digitVal_inv in Eb as [Hy ->].
  split; [lia | ]. unfold fmt2.
  replace ((10 * x + y) / 10) with x by zdiv.
  replace ((10 * x + y) mod 10) with y by zdiv. reflexivity.
Qed.

Lemma num4_inv a b c d n : num4 a b c d = Some n ->
  0 <= n <= 9999 /\
  fmt4 n = String a (String b (String c (String d EmptyString))).
Proof.
  unfold num4. intros H.
  destruct (num2 a b) as [x | ] eqn:Ea; [ | discriminate].
  destruct (num2 c d) as [y | ] eqn:Eb; [ | discriminate].
  injection H as <-.
  apply num2_inv in Ea as [Hx Ex]. apply num2_inv in Eb as [Hy Ey].
  split; [lia | ]. unfold fmt2 in Ex, Ey. unfold fmt4.
  injection Ex as <- <-. injection Ey as <- <-.
  replace ((100 * x + y) / 1000) with (x / 10) by zdiv.
  replace ((100 * x + y) / 100 mod 10) with (x mod 10) by zdiv.
  replace ((100 * x + y) / 10 mod 10) with (y / 10) by zdiv.
  replace ((100 * x + y) mod 10) with (y mod 10) by zdiv.
  reflexivity.
Qed.

Lemma isDash_inv c : isDash c = true -> c = "-"%char.
Proof. apply Ascii.eqb_eq. Qed.

Lemma isDateKey_inv k : isDateKey k = true ->
  exists y m d, validYMD y m d /\ k = isoDate y m d.
Proof.
  unfold isDateKey. intros H.
  rewrite <- (string_of_list_ascii_of_string k).
  destruct (list_ascii_of_string k)
    as [ | y0 [ | y1 [ | y2 [ | y3 [ | s1 [ | m0 [ | m1 [ | s2 [ | d0 [ | d1 [ | ? ?]]]]]]]]]]];
    try discriminate H.
  unfold parseYMD in H.
  destruct (num4 y0 y1 y2 y3) as [y | ] eqn:Ey; [ | discriminate].
  destruct (num2 m0 m1) as [m | ] eqn:Em; [ | discriminate].
  destruct (num2 d0 d1) as [d | ] eqn:Ed; [ | discriminate].
  destruct (isDash s1) eqn:E1; [ | discriminate].
  destruct (isDash s2) eqn:E2; [ | discriminate].
  cbn [andb] in H.
  destruct (Z.leb_spec 1 m); [ | discriminate].
  destruct (Z.leb_spec m 12); [ | discriminate].
  destruct (Z.leb_spec 1 d); [ | discriminate].
  destruct (Z.leb_spec d (DaysInMonth y (m - 1))); [ | discriminate].
  apply num4_inv in Ey as [Hy Ey]. apply num2_inv in Em as [Hm Em].
  apply num2_inv in Ed as [Hd Ed].
  apply isDash_inv in E1 as ->. apply isDash_inv in E2 as ->.
  exists y, m, d. split; [repeat split; lia | ].
  unfold isoDate. rewrite Ey, Em, Ed. reflexivity.
Qed.

Lemma isDateKey_isoDate y m d : validYMD y m d -> isDateKey (isoDate y m d) = true.
Proof.
  intros (Hy & Hm & Hd). pose proof (DaysInMonth_bounds y (m - 1)).
  unfold isDateKey, isoDate, fmt4, fmt2. cbv [String.append list_ascii_of_string].
  unfold parseYMD. rewrite num4_fmt, !num2_fmt by lia.
  change (isDash "-"%char) with true. cbn [andb].
  destruct (Z.leb_spec 1 m); [ | lia]. destruct (Z.leb_spec m 12); [ | lia].
  destruct (Z.leb_spec 1 d); [ | lia].
  destruct (Z.leb_spec d (DaysInMonth y (m - 1))); [ | lia].
  reflexivity.
Qed.

Lemma keyDay_isoDate y m d : validYMD y m d ->
  keyDay (isoDate y m d) = MakeDay y (m - 1) d.
Proof.
  intros V. unfold keyDay. rewrite (parseISO_isoDate _ _ _ V).
  apply Day_MakeDate. unfold msPerDay. lia.
Qed.

(** The code-unit order of two keys is the order of the numbers
    [YYYYMMDD]. *)
Lemma compare_cons_digit a b s t : 0 <= a <= 9 -> 0 <= b <= 9 ->
  String.compare (String (digitChar a) s) (String (digitChar b) t)
  = match a ?= b with Eq => String.compare s t | c => c end.
Proof.
  intros Ha Hb. cbn [String.compare]. rewrite digitChar_compare by assumption.
  reflexivity.
Qed.

Lemma compare_cons_same c s t :
  String.compare (String c s) (String c t) = String.compare s t.
Proof.
  cbn [String.compare].
  replace (Ascii.compare c c) with Eq; [reflexivity | ].
  symmetry. unfold Ascii.compare. apply N.compare_refl.
Qed.

Lemma isoDate_compare y1 m1 d1 y2 m2 d2 :
  0 <= y1 <= 9999 -> 0 <= m1 <= 99 -> 0 <= d1 <= 99 ->
  0 <= y2 <= 9999 -> 0 <= m2 <= 99 -> 0 <= d2 <= 99 ->
  String.compare (isoDate y1 m1 d1) (isoDate y2 m2 d2)
  = (ymdNumber y1 m1 d1 ?= ymdNumber y2 m2 d2).
Proof.
  intros Hy1 Hm1 Hd1 Hy2 Hm2 Hd2.
  unfold isoDate, fmt4, fmt2. cbv [String.append].
  rewrite 4 compare_cons_digit by zdiv. 
  rewrite compare_cons_same.
  rewrite 2 compare_cons_digit by zdiv.
  rewrite compare_cons_same.
  rewrite 2 compare_cons_digit by zdiv.
  cbn [String.compare]. unfold ymdNumber.
  symmetry.
  repeat match goal with
         | |- context [ match (?a ?= ?b) with _ => _ end ] =>
             destruct (Z.compare_spec a b)
         end;
    first [ apply Z.compare_eq_iff | apply Z.compare_lt_iff | apply Z.compare_gt_iff ];
    zdiv.
Qed.

End StrFacts.

(** ** The order of keys is the order of days *)

Module KeyFacts.
Import ES Str ESFacts StrFacts.

Lemma monthStart_mono L m m' :
  0 <= L <= 1 -> 0 <= m -> m < m' -> m' <= 11 ->
  monthStart L m + monthLength L m <= monthStart L m'.
Proof.
  intros HL H0 Hlt H11.
  enum_month m; enum_month m'; try lia; cbn [monthStart monthLength]; lia.
Qed.

Lemma MakeDay_lt y1 m1 d1 y2 m2 d2 :
  validYMD y1 m1 d1 -> validYMD y2 m2 d2 ->
  ymdNumber y1 m1 d1 < ymdNumber y2 m2 d2 ->
  MakeDay y1 (m1 - 1) d1 < MakeDay y2 (m2 - 1) d2.
Proof.
  intros (Hy1 & Hm1 & Hd1) (Hy2 & Hm2 & Hd2) Hlt.
  pose proof (DaysInMonth_bounds y1 (m1 - 1)).
  pose proof (DaysInMonth_bounds y2 (m2 - 1)).
  unfold ymdNumber in Hlt.
  assert (C : y1 < y2 \/ (y1 = y2 /\ m1 < m2) \/ (y1 = y2 /\ m1 = m2 /\ d1 < d2)) by lia.
  destruct C as [C | [[-> C] | (-> & -> & C)]].
  - pose proof (MakeDay_in_year y1 (m1 - 1) d1 ltac:(lia) Hd1).
    pose proof (MakeDay_in_year y2 (m2 - 1) d2 ltac:(lia) Hd2).
    pose proof (DayFromYear_mono (y1 + 1) y2 ltac:(lia)). lia.
  - rewrite !MakeDay_plain by lia.
    unfold DaysInMonth in Hd1.
    pose proof (monthStart_mono (leapDay y2) (m1 - 1) (m2 - 1)
                  (leapDay_01 y2) ltac:(lia) ltac:(lia) ltac:(lia)).
    lia.
  - rewrite !MakeDay_plain by lia. lia.
Qed.

Lemma ymdNumber_inj y1 m1 d1 y2 m2 d2 :
  validYMD y1 m1 d1 -> validYMD y2 m2 d2 ->
  ymdNumber y1 m1 d1 = ymdNumber y2 m2 d2 -> y1 = y2 /\ m1 = m2 /\ d1 = d2.
Proof.
  intros (Hy1 & Hm1 & Hd1) (Hy2 & Hm2 & Hd2).
  pose proof (DaysInMonth_bounds y1 (m1 - 1)).
  pose proof (DaysInMonth_bounds y2 (m2 - 1)).
  unfold ymdNumber. lia.
Qed.

(** On date keys the order of [sort()] is the order of the calendar. *)
Lemma key_compare k1 k2 :
  isDateKey k1 = true -> isDateKey k2 = true ->
  String.compare k1 k2 = (keyDay k1 ?= keyDay k2).
Proof.
  intros H1 H2.
  apply isDateKey_inv in H1 as (y1 & m1 & d1 & V1 & ->).
  apply isDateKey_inv in H2 as (y2 & m2 & d2 & V2 & ->).
  rewrite !keyDay_isoDate by assumption.
  pose proof (DaysInMonth_bounds y1 (m1 - 1)).
  pose proof (DaysInMonth_bounds y2 (m2 - 1)).
  pose proof V1 as (Hy1 & Hm1 & Hd1). pose proof V2 as (Hy2 & Hm2 & Hd2).
  rewrite isoDate_compare by lia.
  destruct (Z.compare_spec (ymdNumber y1 m1 d1) (ymdNumber y2 m2 d2)) as [E | L | G].
  - apply ymdNumber_inj in E as (-> & -> & ->); [ | assumption | assumption].
    symmetry. apply Z.compare_refl.
  - symmetry. apply Z.compare_lt_iff. now apply MakeDay_lt.
  - symmetry. apply Z.compare_gt_iff. now apply MakeDay_lt.
Qed.

Lemma keyDay_inj k1 k2 :
  isDateKey k1 = true -> isDateKey k2 = true -> keyDay k1 = keyDay k2 -> k1 = k2.
Proof.
  intros H1 H2 E. apply String.compare_eq_iff.
  rewrite key_compare by assumption. rewrite E. apply Z.compare_refl.
Qed.

Lemma parseISO_key k : isDateKey k = true ->
  Str.parseISO k = Some (MakeDate (keyDay k) 0).
Proof.
  intros H. apply isDateKey_inv in H as (y & m & d & V & ->).
  rewrite keyDay_isoDate by assumption. now apply parseISO_isoDate.
Qed.

(** A key is read by the format, whatever else the engine accepts. *)
Lemma DateParse_key other k : isDateKey k = true ->
  Str.DateParse other k = Some (MakeDate (keyDay k) 0).
Proof. intros H. unfold Str.DateParse. now rewrite parseISO_key. Qed.

End KeyFacts.

(** ** [Date] methods, [getDateKey] and [getDaysDifference] *)

Section DateMethods.
Import ES Str ESFacts StrFacts KeyFacts.
Variable host : Host.

(** With an offset that never changes, local time is a shift of UTC. *)
Lemma LocalTime_fixed tz t : fixedOffset host tz -> LocalTime host t = t + tz.
Proof. intros F. unfold LocalTime. now rewrite F. Qed.

Lemma UTC_fixed tz t : fixedOffset host tz -> UTC host t = t - tz.
Proof. intros F. unfold UTC. now rewrite F. Qed.

Lemma zoneOk_fixed tz : fixedOffset host tz -> zoneOk host.
Proof.
  intros F t. rewrite (LocalTime_fixed tz), (UTC_fixed tz) by assumption.
  f_equal. lia.
Qed.

Lemma midnightGap_fixed tz D1 D2 : fixedOffset host tz -> midnightGap host D1 D2 = D1 - D2.
Proof.
  intros F. unfold midnightGap. rewrite !F. rewrite Z.sub_diag.
  change (0 / msPerDay) with 0. lia.
Qed.

Lemma midnightGap_same D : midnightGap host D D = 0.
Proof.
  unfold midnightGap. rewrite !Z.sub_diag. change (0 / msPerDay) with 0. lia.
Qed.

Lemma Day_midnight_local D : zoneOk host ->
  Day (LocalTime host (UTC host (D * msPerDay))) = D.
Proof.
  intros Z1. rewrite Z1. unfold Day, msPerDay. zdiv.
Qed.

Lemma setHours0_eq t :
  setHours0 host t = UTC host (Day (LocalTime host t) * msPerDay).
Proof. unfold setHours0, MakeDate, MakeTime. f_equal. lia. Qed.

Lemma setDate_prev t :
  setDate host t (getDate host t - 1) = UTC host (LocalTime host t - msPerDay).
Proof.
  unfold setDate, getDate. cbv zeta. f_equal.
  replace (DateFromTime (LocalTime host t) - 1) with (DateFromTime (LocalTime host t) + -1) by lia.
  rewrite MakeDay_date, MakeDay_civil.
  pose proof (MakeDate_Day (LocalTime host t)) as E.
  unfold MakeDate in *. lia.
Qed.

Lemma Day_shift t k : Day (t + k * msPerDay) = Day t + k.
Proof. unfold Day, msPerDay. zdiv. Qed.

(** [setDate(getDate() - 1)] leads to the calendar day before. *)
Lemma Day_setDate_prev t : zoneOk host ->
  Day (LocalTime host (setDate host t (getDate host t - 1))) = Day (LocalTime host t) - 1.
Proof.
  intros Z1. rewrite setDate_prev, Z1.
  replace (LocalTime host t - msPerDay) with (LocalTime host t + -1 * msPerDay) by lia.
  rewrite Day_shift. lia.
Qed.

(** The difference of two instants that [setHours(0, 0, 0, 0)] has put
    on local midnight. *)
Lemma midnights_quotient D1 D2 :
  (UTC host (D1 * msPerDay) - UTC host (D2 * msPerDay)) / (1000 * 60 * 60 * 24)
  = midnightGap host D1 D2.
Proof.
  unfold UTC, midnightGap. change (1000 * 60 * 60 * 24) with msPerDay.
  set (o1 := LocalTZA host (D1 * msPerDay) false).
  set (o2 := LocalTZA host (D2 * msPerDay) false).
  unfold msPerDay. zdiv.
Qed.

Lemma getDaysDifference_local a b :
  getDaysDifference host (OfDate a) (OfDate b)
  = Some (midnightGap host (Day (LocalTime host a)) (Day (LocalTime host b))).
Proof.
  unfold getDaysDifference, newDate. rewrite !setHours0_eq. f_equal.
  apply midnights_quotient.
Qed.

(** Two keys are read as UTC midnights and then put on local midnight. *)
Lemma getDaysDifference_keys k1 k2 :
  isDateKey k1 = true -> isDateKey k2 = true ->
  getDaysDifference host (OfString k1) (OfString k2)
  = Some (midnightGap host (Day (LocalTime host (keyDay k1 * msPerDay)))
                           (Day (LocalTime host (keyDay k2 * msPerDay)))).
Proof.
  intros H1 H2. unfold getDaysDifference, newDate.
  rewrite !DateParse_key by assumption.
  rewrite !setHours0_eq. f_equal.
  unfold MakeDate. rewrite !Z.add_0_r. apply midnights_quotient.
Qed.

Lemma getDaysDifference_keys_fixed tz k1 k2 :
  fixedOffset host tz -> isDateKey k1 = true -> isDateKey k2 = true ->
  getDaysDifference host (OfString k1) (OfString k2) = Some (keyDay k1 - keyDay k2).
Proof.
  intros F H1 H2. rewrite getDaysDifference_keys by assumption.
  rewrite (midnightGap_fixed tz), !(LocalTime_fixed tz) by assumption. f_equal.
  rewrite !(Z.add_comm _ tz), !Day_shift. lia.
Qed.

(** The civil fields, and with them the key, are computed from the local
    day number alone. *)
Lemma civil_fields_Day host' t t' :
  Day (LocalTime host t) = Day (LocalTime host' t') ->
  getFullYear host t = getFullYear host' t' /\ getMonth host t = getMonth host' t'
  /\ getDate host t = getDate host' t' /\ getDay host t = getDay host' t'.
Proof.
  intros E.
  unfold getFullYear, getMonth, getDate, getDay, WeekDay, DateFromTime, MonthFromTime,
    InLeapYear, DayWithinYear, YearFromTime.
  rewrite E. repeat split.
Qed.

Lemma getDateKey_Day host' t t' :
  Day (LocalTime host t) = Day (LocalTime host' t') ->
  getDateKey host t = getDateKey host' t'.
Proof.
  intros E. destruct (civil_fields_Day host' t t' E) as (Ey & Em & Ed & _).
  unfold getDateKey. cbv zeta. rewrite Ey, Em, Ed. reflexivity.
Qed.

Lemma Day_LocalTime_dayKey D : Day (LocalTime (fixedHost 0) (D * msPerDay)) = D.
Proof. unfold LocalTime, fixedHost. cbn [LocalTZA]. unfold Day, msPerDay. zdiv. Qed.

(** The key of a date is the key of its local calendar day. *)
Lemma getDateKey_dayKey t : getDateKey host t = dayKey (Day (LocalTime host t)).
Proof. unfold dayKey. apply getDateKey_Day. now rewrite Day_LocalTime_dayKey. Qed.

Lemma newDateYMD_plain year m d : plainYear year ->
  newDateYMD host year m d = UTC host (MakeDate (MakeDay year m d) 0).
Proof.
  intros Hy. unfold newDateYMD.
  destruct (Z.leb_spec 0 year); destruct (Z.leb_spec year 99); cbn [andb];
    try reflexivity. unfold plainYear in Hy. lia.
Qed.

Lemma Day_midnight D : Day (MakeDate D 0) = D.
Proof. apply Day_MakeDate. unfold msPerDay. lia. Qed.

(** [new Date(year, month, day)] lies on the local day it names. *)
Lemma Day_newDateYMD year m d : zoneOk host -> plainYear year ->
  Day (LocalTime host (newDateYMD host year m d)) = MakeDay year m d.
Proof.
  intros Z1 Hy. rewrite newDateYMD_plain by assumption.
  rewrite (Z1 (MakeDate (MakeDay year m d) 0)). apply Day_midnight.
Qed.

(** The key of a date in the years 1000..9999. *)
Lemma getDateKey_isoDate t :
  1000 <= getFullYear host t <= 9999 ->
  getDateKey host t = isoDate (getFullYear host t) (getMonth host t + 1) (getDate host t).
Proof.
  intros Hy. unfold getDateKey.
  pose proof (MonthFromTime_bounds (LocalTime host t)).
  pose proof (DateFromTime_bounds (LocalTime host t)).
  pose proof (DaysInMonth_bounds (YearFromTime (LocalTime host t)) (MonthFromTime (LocalTime host t))).
  rewrite NumberToString_fmt4 by assumption.
  rewrite !padStart_fmt2 by (unfold getMonth, getDate; lia).
  reflexivity.
Qed.

Lemma civil_valid t : 0 <= YearFromTime t <= 9999 ->
  validYMD (YearFromTime t) (MonthFromTime t + 1) (DateFromTime t).
Proof.
  intros Hy. pose proof (MonthFromTime_bounds t). pose proof (DateFromTime_bounds t).
  unfold validYMD. replace (MonthFromTime t + 1 - 1) with (MonthFromTime t) by lia. lia.
Qed.

Lemma getDateKey_isDateKey t :
  1000 <= getFullYear host t <= 9999 -> isDateKey (getDateKey host t) = true.
Proof.
  intros Hy. rewrite getDateKey_isoDate by assumption.
  apply isDateKey_isoDate, civil_valid. unfold getFullYear in Hy. lia.
Qed.

Lemma keyDay_getDateKey t :
  1000 <= getFullYear host t <= 9999 -> keyDay (getDateKey host t) = Day (LocalTime host t).
Proof.
  intros Hy. rewrite getDateKey_isoDate by assumption.
  unfold getFullYear, getMonth, getDate in *.
  rewrite keyDay_isoDate by (apply civil_valid; lia).
  replace (MonthFromTime (LocalTime host t) + 1 - 1) with (MonthFromTime (LocalTime host t)) by lia.
  apply MakeDay_civil.
Qed.

End DateMethods.

(** ** The [toISOString] form *)

Module IsoFacts.
Import ES Str ESFacts StrFacts KeyFacts.

Lemma parseYMD_fmt y m d : validYMD y m d ->
  parseYMD (digitChar (y / 1000)) (digitChar (y / 100 mod 10))
           (digitChar (y / 10 mod 10)) (digitChar (y mod 10)) "-"%char
           (digitChar (m / 10)) (digitChar (m mod 10)) "-"%char
           (digitChar (d / 10)) (digitChar (d mod 10))
  = Some (MakeDay y (m - 1) d).
Proof.
  intros (Hy & Hm & Hd). pose proof (DaysInMonth_bounds y (m - 1)).
  unfold parseYMD. rewrite num4_fmt, !num2_fmt by lia.
  change (isDash "-"%char) with true. cbn [andb].
  destruct (Z.leb_spec 1 m); [ | lia]. destruct (Z.leb_spec m 12); [ | lia].
  destruct (Z.leb_spec 1 d); [ | lia].
  destruct (Z.leb_spec d (DaysInMonth y (m - 1))); [ | lia].
  reflexivity.
Qed.

Lemma parseHMS_fmt tw : 0 <= tw < msPerDay ->
  parseHMS (digitChar (tw / 3600000 / 10)) (digitChar ((tw / 3600000) mod 10)) ":"%char
           (digitChar (tw / 60000 mod 60 / 10)) (digitChar ((tw / 60000 mod 60) mod 10)) ":"%char
           (digitChar (tw / 1000 mod 60 / 10)) (digitChar ((tw / 1000 mod 60) mod 10)) "."%char
           (digitChar (tw mod 1000 / 100))
           (digitChar (tw mod 100 / 10)) (digitChar ((tw mod 100) mod 10)) "Z"%char
  = Some tw.
Proof.
  unfold msPerDay. intros H. unfold parseHMS, num3.
  rewrite !num2_fmt by zdiv. rewrite digitVal_digitChar by zdiv.
  change (isColon ":"%char) with true.
  change (Ascii.eqb "."%char "."%char) with true.
  change (Ascii.eqb "Z"%char "Z"%char) with true. cbn [andb].
  destruct (Z.leb_spec (tw / 3600000) 23); [ | zdiv].
  destruct (Z.leb_spec (tw / 60000 mod 60) 59); [ | zdiv].
  destruct (Z.leb_spec (tw / 1000 mod 60) 59); [ | zdiv].
  cbn [andb]. f_equal. unfold MakeTime. zdiv.
Qed.

(** What [addHabit] stores in [createdAt] parses back to the instant. *)
Lemma parseISO_toISOString t : 0 <= YearFromTime t <= 9999 ->
  parseISO (toISOString t) = Some t.
Proof.
  intros Hy. pose proof (civil_valid t Hy) as V.
  pose proof (TimeWithinDay_bounds t) as B.
  unfold parseISO, toISOString, isoDate, fmt4, fmt2.
  cbv [String.concat String.append list_ascii_of_string].
  rewrite (parseYMD_fmt _ _ _ V), (parseHMS_fmt _ B).
  change (Ascii.eqb "T"%char "T"%char) with true. cbv iota. f_equal.
  replace (MonthFromTime t + 1 - 1) with (MonthFromTime t) by lia.
  rewrite MakeDay_civil. apply MakeDate_Day.
Qed.

Lemma DateParse_toISOString other t : 0 <= YearFromTime t <= 9999 ->
  DateParse other (toISOString t) = Some t.
Proof. intros Hy. unfold DateParse. now rewrite parseISO_toISOString. Qed.

(** The [createdAt] of a habit that [addHabit] made parses back to the
    instant of its creation. *)
Lemma addHabit_createdAt other newId now u data h :
  0 <= YearFromTime now <= 9999 ->
  h ∈ habits (addHabit newId now u data) -> h ∉ habits u ->
  DateParse other (h_createdAt h) = Some now.
Proof.
  intros Hy Hin Hnot. unfold addHabit in Hin. cbn [habits] in Hin.
  apply elem_of_app in Hin as [Hin | Hin]; [contradiction | ].
  apply list_elem_of_singleton in Hin as ->. cbn [h_createdAt].
  now apply DateParse_toISOString.
Qed.

End IsoFacts.

(** ** The walk of the current streak *)

Section CurrentWalk.
Import ES Str ESFacts StrFacts KeyFacts.
Variable host : Host.

Lemma truthy_wf (c : gmap string bool) k :
  wf_completions c -> truthy (c !! k) = true <-> c !! k = Some true.
Proof.
  intros W. destruct (c !! k) as [b | ] eqn:E; cbn.
  - destruct (W k b E) as [_ ->]. tauto.
  - split; discriminate.
Qed.

Lemma truthy_wf_false (c : gmap string bool) k :
  wf_completions c -> truthy (c !! k) = false <-> c !! k = None.
Proof.
  intros W. destruct (c !! k) as [b | ] eqn:E; cbn.
  - destruct (W k b E) as [_ ->]. split; discriminate.
  - tauto.
Qed.

Lemma currentWalk_ge (c : gmap string bool) fuel : forall checkDate cs r,
  currentWalk host fuel c checkDate cs = Some r -> cs <= r.
Proof.
  induction fuel as [ | fuel IH]; intros checkDate cs r H; [discriminate | ].
  cbn [currentWalk] in H.
  destruct (truthy (c !! getDateKey host checkDate)).
  - destruct (cs + 1 >? 365).
    + injection H as <-. lia.
    + apply IH in H. lia.
  - injection H as <-. lia.
Qed.

(** The loop of the current streak stops, in any zone, once it has
    counted 366 days. *)
Lemma currentWalk_total (c : gmap string bool) fuel : forall checkDate cs,
  0 <= cs <= 365 -> (Z.to_nat (366 - cs) <= fuel)%nat ->
  exists r, currentWalk host fuel c checkDate cs = Some r /\ cs <= r <= 366.
Proof.
  induction fuel as [ | fuel IH]; intros checkDate cs Hcs Hfuel; [lia | ].
  cbn [currentWalk].
  destruct (truthy (c !! getDateKey host checkDate)) eqn:E.
  - destruct (Z.gtb_spec (cs + 1) 365) as [G | G].
    + exists (cs + 1). split; [reflexivity | lia].
    + destruct (IH (setDate host checkDate (getDate host checkDate - 1)) (cs + 1)
                  ltac:(lia) ltac:(lia)) as (r & Hr & Hb).
      exists r. split; [exact Hr | lia].
  - exists cs. split; [reflexivity | lia].
Qed.

(** What it has counted: the present days behind the local day of
    [checkDate], one calendar day at a time. *)
Lemma currentWalk_spec (c : gmap string bool) fuel : zoneOk host -> forall checkDate cs r,
  currentWalk host fuel c checkDate cs = Some r ->
  (forall i, 0 <= i < r - cs ->
     truthy (c !! dayKey (Day (LocalTime host checkDate) - i)) = true)
  /\ (r < 366 ->
        truthy (c !! dayKey (Day (LocalTime host checkDate) - (r - cs))) = false).
Proof.
  intros Z1. induction fuel as [ | fuel IH]; intros checkDate cs r H; [discriminate | ].
  cbn [currentWalk] in H. rewrite getDateKey_dayKey in H.
  destruct (truthy (c !! dayKey (Day (LocalTime host checkDate)))) eqn:E.
  - destruct (Z.gtb_spec (cs + 1) 365) as [G | G].
    + injection H as <-. split; [ | lia].
      intros i Hi. replace i with 0 by lia. now rewrite Z.sub_0_r.
    + pose proof (currentWalk_ge c fuel _ _ _ H) as Ge.
      apply IH in H as (Hpre & Hstop). rewrite Day_setDate_prev in Hpre, Hstop by assumption.
      split.
      * intros i Hi. destruct (Z.eq_dec i 0) as [-> | Hn].
        -- now rewrite Z.sub_0_r.
        -- specialize (Hpre (i - 1) ltac:(lia)).
           replace (Day (LocalTime host checkDate) - 1 - (i - 1))
             with (Day (LocalTime host checkDate) - i) in Hpre by lia.
           exact Hpre.
      * intros Hlt. specialize (Hstop Hlt).
        replace (Day (LocalTime host checkDate) - 1 - (r - (cs + 1)))
          with (Day (LocalTime host checkDate) - (r - cs)) in Hstop by lia.
        exact Hstop.
  - injection H as <-. split; [intros; lia | ].
    intros _. now rewrite Z.sub_diag, Z.sub_0_r.
Qed.

Lemma ObjectKeys_empty {V} : ObjectKeys (∅ : gmap string V) = [].
Proof. unfold ObjectKeys. now rewrite map_to_list_empty. Qed.

Lemma ObjectKeys_nil {V} (c : gmap string V) : ObjectKeys c = [] -> c = ∅.
Proof.
  unfold ObjectKeys. intros H. apply map_to_list_empty_iff.
  destruct (map_to_list c); [reflexivity | discriminate].
Qed.

Lemma sort_length l : length (Str.sort l) = length l.
Proof. unfold Str.sort. now rewrite merge_sort_Permutation. Qed.

Lemma calculateStreaks_empty fuel now habit ref :
  calculateStreaks host fuel now habit ∅ ref = Some (mkStreaks 0 0).
Proof.
  unfold calculateStreaks. rewrite (@ObjectKeys_empty bool). reflexivity.
Qed.

(** The shape of the result on any map, given fuel for the walk. *)
Lemma calculateStreaks_unfold fuel now habit (c : gmap string bool) referenceDate :
  (366 <= fuel)%nat ->
  exists cur, currentWalk host fuel c (default now referenceDate) 0 = Some cur
    /\ calculateStreaks host fuel now habit c referenceDate
       = Some (if decide (c = ∅) then mkStreaks 0 0
               else mkStreaks cur
                      (Z.max (scanRuns host habit (sortedKeys c) (length (sortedKeys c)) 0 0) cur)).
Proof.
  intros Hf.
  destruct (currentWalk_total c fuel (default now referenceDate) 0 ltac:(lia) ltac:(lia))
    as (cur & Hc & _).
  exists cur. split; [exact Hc | ].
  unfold calculateStreaks. fold (sortedKeys c).
  assert (L : length (rev (sortedKeys c)) = length (ObjectKeys c))
    by (unfold sortedKeys; now rewrite length_rev, sort_length).
  destruct (decide (c = ∅)) as [-> | Hne].
  - rewrite L, (@ObjectKeys_empty bool). reflexivity.
  - destruct (Nat.eqb_spec (length (rev (sortedKeys c))) 0) as [Z0 | _].
    + rewrite L in Z0. destruct (ObjectKeys c) eqn:E; [ | discriminate].
      apply ObjectKeys_nil in E. contradiction.
    + change (match referenceDate with Some d => d | None => now end)
        with (default now referenceDate).
      rewrite Hc. reflexivity.
Qed.

End CurrentWalk.

(** ** [sort()] on strings *)

Module SortFacts.
Import Str.

Global Instance sort_le_total : Total sort_le.
Proof. intros a b. unfold sort_le. apply String.leb_total. Qed.

Global Instance sort_le_antisym : AntiSymm (=) sort_le.
Proof. intros a b. unfold sort_le. apply String.leb_antisym. Qed.

Lemma ascii_compare_trans a b c :
  Ascii.compare a b <> Gt -> Ascii.compare b c <> Gt -> Ascii.compare a c <> Gt.
Proof.
  unfold Ascii.compare. rewrite !N.compare_gt_iff. lia.
Qed.

Lemma compare_le_trans : forall a b c,
  String.compare a b <> Gt -> String.compare b c <> Gt -> String.compare a c <> Gt.
Proof.
  induction a as [ | x a IH]; intros [ | y b] [ | z c]; cbn [String.compare];
    try congruence.
  unfold Ascii.compare.
  destruct (N.compare_spec (N_of_ascii x) (N_of_ascii y)) as [E1 | L1 | G1];
    destruct (N.compare_spec (N_of_ascii y) (N_of_ascii z)) as [E2 | L2 | G2];
    destruct (N.compare_spec (N_of_ascii x) (N_of_ascii z)) as [E3 | L3 | G3];
    try congruence; try lia; intros; eauto.
Qed.

Global Instance sort_le_trans : Transitive sort_le.
Proof.
  intros a b c. unfold sort_le, String.leb. intros H1 H2.
  pose proof (compare_le_trans a b c) as T.
  destruct (String.compare a b); try discriminate;
    destruct (String.compare b c); try discriminate;
    destruct (String.compare a c); try reflexivity;
    exfalso; apply T; congruence.
Qed.

Lemma sort_Sorted l : Sorted sort_le (sort l).
Proof. apply Sorted_merge_sort. apply _. Qed.

Lemma sort_Permutation l : sort l ≡ₚ l.
Proof. apply merge_sort_Permutation. Qed.

(** [sort] is the only ascending arrangement of its argument: the model
    does not depend on the sorting algorithm of the engine. *)
Lemma sort_unique l l' : Sorted sort_le l' -> l' ≡ₚ l -> l' = sort l.
Proof.
  intros S P. apply (Sorted_unique sort_le); [exact S | apply sort_Sorted | ].
  now rewrite P, sort_Permutation.
Qed.

End SortFacts.

(** ** The sorted keys of a completion map *)

Section KeysOfMap.
Import SortFacts.
Variable c : gmap string bool.

Lemma elem_of_ObjectKeys k : k ∈ ObjectKeys c <-> is_Some (c !! k).
Proof.
  unfold ObjectKeys. rewrite list_elem_of_fmap. split.
  - intros ([k' v] & -> & H). apply elem_of_map_to_list in H. now exists v.
  - intros [v H]. exists (k, v). split; [reflexivity | ]. now apply elem_of_map_to_list.
Qed.

Lemma NoDup_ObjectKeys : NoDup (ObjectKeys c).
Proof. apply NoDup_fst_map_to_list. Qed.

Lemma elem_of_sortedKeys k : k ∈ sortedKeys c <-> is_Some (c !! k).
Proof. unfold sortedKeys. now rewrite sort_Permutation, elem_of_ObjectKeys. Qed.

Lemma NoDup_sortedKeys : NoDup (sortedKeys c).
Proof. unfold sortedKeys. rewrite sort_Permutation. apply NoDup_ObjectKeys. Qed.

Lemma sortedKeys_isDateKey :
  wf_completions c -> Forall (fun k => isDateKey k = true) (sortedKeys c).
Proof.
  intros W. apply Forall_forall. intros k Hk.
  apply elem_of_sortedKeys in Hk as [v Hv]. now destruct (W k v Hv).
Qed.

End KeysOfMap.

Section Chronological.
Import SortFacts KeyFacts.

(** A sorted list of distinct date keys is in strict calendar order. *)
Lemma sorted_keys_days (l : list string) :
  Forall (fun k => isDateKey k = true) l -> NoDup l -> Sorted Str.sort_le l ->
  StronglySorted Z.lt (keyDay <$> l).
Proof.
  intros F N S. apply Sorted_StronglySorted; [apply _ | ].
  induction S as [ | a l S IH H]; [constructor | ].
  apply Forall_cons in F as [Fa F]. apply NoDup_cons in N as [Na N].
  cbn [fmap list_fmap]. constructor; [now apply IH | ].
  destruct H as [ | b l H]; [constructor | ].
  cbn [fmap list_fmap]. constructor.
  apply Forall_cons in F as [Fb _].
  assert (Hab : a <> b) by (intros ->; apply Na; left).
  unfold Str.sort_le, String.leb in H.
  pose proof (key_compare a b Fa Fb) as E.
  destruct (Z.compare_spec (keyDay a) (keyDay b)) as [Eq | Lt | Gt].
  - exfalso. apply Hab. now apply keyDay_inj.
  - exact Lt.
  - rewrite E in H. discriminate.
Qed.

Lemma sortedKeys_chronological (c : gmap string bool) :
  wf_completions c -> StronglySorted Z.lt (keyDay <$> sortedKeys c).
Proof.
  intros W. apply sorted_keys_days.
  - now apply sortedKeys_isDateKey.
  - apply NoDup_sortedKeys.
  - apply sort_Sorted.
Qed.

End Chronological.

(** ** The two loops of the longest streak *)

Section Loops.
Import ES Str ESFacts StrFacts KeyFacts SortFacts.
Variable host : Host.
Variable habit : Habit.
Variable sortedDates : list string.

(** In any zone the two loops are the run search with the test of the
    code. *)
Lemma extendRun_run n : forall j tempStreak prev,
  n = (length sortedDates - j)%nat -> (1 <= j)%nat ->
  sortedDates !! (j - 1)%nat = Some prev ->
  extendRun host habit sortedDates n j tempStreak
  = tempStreak + runFrom (gapContinues host habit) prev (drop j sortedDates) - 1.
Proof.
  induction n as [ | n IH]; intros j temp prev Hn Hj Hprev.
  - rewrite drop_ge by lia. cbn. lia.
  - cbn [extendRun].
    destruct (lookup_lt_is_Some_2 sortedDates j ltac:(lia)) as [dj Hdj].
    rewrite Hdj, Hprev.
    rewrite (drop_S _ _ _ Hdj). cbn [runFrom].
    destruct (gapContinues host habit dj prev); [ | lia].
    rewrite (IH (S j) (temp + 1) dj); [lia | lia | lia | ].
    replace (S j - 1)%nat with j by lia. exact Hdj.
Qed.

Lemma scanRuns_run n : forall i longest,
  0 <= longest -> n = (length sortedDates - i)%nat ->
  scanRuns host habit sortedDates n i longest
  = Z.max longest (longestRun (gapContinues host habit) (drop i sortedDates)).
Proof.
  induction n as [ | n IH]; intros i longest H0 Hn.
  - rewrite drop_ge by lia. cbn [scanRuns longestRun]. lia.
  - cbn [scanRuns].
    destruct (lookup_lt_is_Some_2 sortedDates i ltac:(lia)) as [di Hdi].
    rewrite (drop_S _ _ _ Hdi). cbn [longestRun].
    rewrite (extendRun_run _ (i + 1)%nat 1 di); [ | lia | lia | ].
    + rewrite IH by lia. replace (i + 1)%nat with (S i) by lia. lia.
    + replace (i + 1 - 1)%nat with i by lia. exact Hdi.
Qed.

End Loops.

Section RunsBy.

Lemma runFrom_pos ok x r : 1 <= runFrom ok x r.
Proof.
  revert x. induction r as [ | y r IH]; intros x; cbn; [lia | ].
  destruct (ok y x); [ | lia]. specialize (IH y). lia.
Qed.

Lemma runFrom_le ok x r : runFrom ok x r <= 1 + Z.of_nat (length r).
Proof.
  revert x. induction r as [ | y r IH]; intros x; cbn [runFrom length]; [lia | ].
  destruct (ok y x); [ | lia]. specialize (IH y). lia.
Qed.

Lemma longestRun_nonneg ok l : 0 <= longestRun ok l.
Proof. induction l as [ | x l IH]; cbn; lia. Qed.

Lemma longestRun_le ok l : longestRun ok l <= Z.of_nat (length l).
Proof.
  induction l as [ | x l IH]; cbn [longestRun length]; [lia | ].
  pose proof (runFrom_le ok x l). lia.
Qed.

(** Two tests that agree on the keys of the list find the same runs. *)
Lemma runFrom_ext ok ok' r : forall x,
  (forall a b, a ∈ x :: r -> b ∈ x :: r -> ok a b = ok' a b) ->
  runFrom ok x r = runFrom ok' x r.
Proof.
  induction r as [ | y r IH]; intros x H; [reflexivity | ].
  cbn [runFrom]. rewrite (H y x) by (rewrite !elem_of_cons; auto).
  rewrite (IH y); [reflexivity | ].
  intros a b Ha Hb. apply H; now right.
Qed.

Lemma longestRun_ext ok ok' l :
  (forall a b, a ∈ l -> b ∈ l -> ok a b = ok' a b) ->
  longestRun ok l = longestRun ok' l.
Proof.
  induction l as [ | x l IH]; intros H; [reflexivity | ].
  cbn [longestRun]. rewrite (runFrom_ext ok ok' l x H).
  rewrite IH; [reflexivity | ]. intros a b Ha Hb. apply H; now right.
Qed.

(** A test that accepts more finds runs at least as long. *)
Lemma runFrom_mono (ok ok' : string -> string -> bool) r : forall x,
  (forall a b, ok a b = true -> ok' a b = true) ->
  runFrom ok x r <= runFrom ok' x r.
Proof.
  induction r as [ | y r IH]; intros x H; [reflexivity | ].
  cbn [runFrom]. destruct (ok y x) eqn:E.
  - rewrite (H _ _ E). specialize (IH y H). lia.
  - pose proof (runFrom_pos ok' y r). destruct (ok' y x); lia.
Qed.

Lemma longestRun_mono (ok ok' : string -> string -> bool) l :
  (forall a b, ok a b = true -> ok' a b = true) ->
  longestRun ok l <= longestRun ok' l.
Proof.
  intros H. induction l as [ | x l IH]; [reflexivity | ].
  cbn [longestRun]. pose proof (runFrom_mono ok ok' l x H). lia.
Qed.

Lemma runFrom_spec weekly r : forall x,
  runFrom (spec_gapOk weekly) x r = spec_runFrom weekly x r.
Proof.
  induction r as [ | y r IH]; intros x; [reflexivity | ].
  cbn [runFrom spec_runFrom]. now rewrite IH.
Qed.

Lemma longestRun_spec weekly l :
  longestRun (spec_gapOk weekly) l = spec_longestRun weekly l.
Proof.
  induction l as [ | x l IH]; [reflexivity | ].
  cbn [longestRun spec_longestRun]. now rewrite runFrom_spec, IH.
Qed.

End RunsBy.

(** In a zone of constant offset the test of the code is the rule of the
    specification, and the loops find the runs of calendar days. *)
Section LoopsFixed.
Import ES Str ESFacts StrFacts KeyFacts SortFacts.
Variable host : Host.
Variable tz : Z.
Hypothesis fixed : fixedOffset host tz.
Variable habit : Habit.
Variable sortedDates : list string.
Hypothesis keys_ok : Forall (fun k => isDateKey k = true) sortedDates.

Lemma gapContinues_spec a b :
  isDateKey a = true -> isDateKey b = true ->
  gapContinues host habit a b = spec_gapOk (isWeekly habit) a b.
Proof.
  intros Ha Hb. unfold gapContinues, spec_gapOk, isWeekly.
  rewrite (getDaysDifference_keys_fixed host tz) by assumption. reflexivity.
Qed.

Lemma scanRuns_spec :
  scanRuns host habit sortedDates (length sortedDates) 0 0
  = spec_longestRun (isWeekly habit) sortedDates.
Proof.
  rewrite scanRuns_run by lia. rewrite drop_0, <- longestRun_spec.
  pose proof (longestRun_nonneg (gapContinues host habit) sortedDates).
  rewrite Z.max_r by assumption.
  apply longestRun_ext. intros a b Ha Hb.
  rewrite Forall_forall in keys_ok. apply gapContinues_spec; auto.
Qed.

End LoopsFixed.


(** ** Runs of consecutive days *)

Section Runs.
Variable weekly : bool.

Lemma spec_runFrom_pos x r : 1 <= spec_runFrom weekly x r.
Proof.
  revert x. induction r as [ | y r IH]; intros x; cbn; [lia | ].
  destruct (spec_gapOk weekly y x); [ | lia]. specialize (IH y). lia.
Qed.

Lemma spec_runFrom_le x r : spec_runFrom weekly x r <= 1 + Z.of_nat (length r).
Proof.
  revert x. induction r as [ | y r IH]; intros x; cbn [spec_runFrom length]; [lia | ].
  destruct (spec_gapOk weekly y x); [ | lia]. specialize (IH y). lia.
Qed.

Lemma spec_longestRun_nonneg l : 0 <= spec_longestRun weekly l.
Proof. induction l as [ | x l IH]; cbn; lia. Qed.

Lemma spec_longestRun_le l : spec_longestRun weekly l <= Z.of_nat (length l).
Proof.
  induction l as [ | x l IH]; cbn [spec_longestRun length]; [lia | ].
  pose proof (spec_runFrom_le x l). lia.
Qed.


Lemma StronglySorted_days_inv x r :
  StronglySorted Z.lt (keyDay <$> (x :: r)) ->
  StronglySorted Z.lt (keyDay <$> r) /\ forall k, k ∈ r -> keyDay x < keyDay k.
Proof.
  cbn [fmap list_fmap]. intros H. apply StronglySorted_inv in H as [S F].
  split; [exact S | ]. intros k Hk. rewrite Forall_forall in F. apply F.
  apply list_elem_of_fmap. now exists k.
Qed.

Lemma spec_runFrom_ge r : forall x a n,
  keyDay x = a -> StronglySorted Z.lt (keyDay <$> (x :: r)) ->
  1 <= n -> daysPresent (x :: r) a n -> n <= spec_runFrom weekly x r.
Proof.
  induction r as [ | y r IH]; intros x a n Hx S Hn P.
  - cbn. destruct (Z.eq_dec n 1) as [-> | Hne]; [lia | ].
    destruct (P 1 ltac:(lia)) as (k & Hk & Dk).
    apply list_elem_of_singleton in Hk as ->. lia.
  - destruct (Z.eq_dec n 1) as [-> | Hne]; [apply spec_runFrom_pos | ].
    apply StronglySorted_days_inv in S as [S Hmin].
    pose proof S as S'. apply StronglySorted_days_inv in S' as [_ Hmin'].
    assert (Hy : keyDay y = a + 1).
    { destruct (P 1 ltac:(lia)) as (k & Hk & Dk).
      apply elem_of_cons in Hk as [-> | Hk]; [lia | ].
      specialize (Hmin y ltac:(left)).
      apply elem_of_cons in Hk as [-> | Hk]; [exact Dk | ].
      specialize (Hmin' k Hk). lia. }
    cbn [spec_runFrom]. unfold spec_gapOk.
    replace (keyDay y - keyDay x) with 1 by lia. cbn [Z.eqb Pos.eqb orb].
    assert (n - 1 <= spec_runFrom weekly y r); [ | lia].
    apply (IH y (a + 1) (n - 1)); [exact Hy | exact S | lia | ].
    intros i Hi. destruct (P (i + 1) ltac:(lia)) as (k & Hk & Dk).
    exists k. split; [ | lia].
    apply elem_of_cons in Hk as [-> | Hk]; [lia | exact Hk].
Qed.

Lemma spec_longestRun_ge l : forall a n,
  StronglySorted Z.lt (keyDay <$> l) -> 1 <= n -> daysPresent l a n ->
  n <= spec_longestRun weekly l.
Proof.
  induction l as [ | x l IH]; intros a n S Hn P.
  - destruct (P 0 ltac:(lia)) as (k & Hk & _). now apply elem_of_nil in Hk.
  - cbn [spec_longestRun].
    destruct (Z.eq_dec (keyDay x) a) as [Hx | Hx].
    + pose proof (spec_runFrom_ge l x a n Hx S Hn P). lia.
    + apply StronglySorted_days_inv in S as [S Hmin].
      assert (n <= spec_longestRun weekly l); [ | lia].
      apply (IH a n S Hn).
      assert (Ha : keyDay x < a).
      { destruct (P 0 ltac:(lia)) as (k & Hk & Dk).
        apply elem_of_cons in Hk as [-> | Hk]; [lia | ].
        specialize (Hmin k Hk). lia. }
      intros i Hi. destruct (P i Hi) as (k & Hk & Dk).
      exists k. split; [ | exact Dk].
      apply elem_of_cons in Hk as [-> | Hk]; [lia | exact Hk].
Qed.

End Runs.

(** ** Which dates have a key of the date-only form *)

Module RangeFacts.
Import ES Str ESFacts StrFacts KeyFacts.

Lemma string_length_append s1 s2 :
  String.length (String.append s1 s2) = (String.length s1 + String.length s2)%nat.
Proof.
  induction s1 as [ | c s1 IH]; [reflexivity | ].
  cbv [String.append]. fold String.append. cbn [String.length]. now rewrite IH.
Qed.

Lemma digitsFrom_length f : forall n acc,
  (S (String.length acc) <= String.length (digitsFrom (S f) n acc))%nat.
Proof.
  induction f as [ | f IH]; intros n acc.
  - cbn [digitsFrom]. destruct (n / 10 =? 0); cbn [String.length]; lia.
  - change (digitsFrom (S (S f)) n acc)
      with (if n / 10 =? 0 then String (digitChar (n mod 10)) acc
            else digitsFrom (S f) (n / 10) (String (digitChar (n mod 10)) acc)).
    destruct (n / 10 =? 0); [cbn [String.length]; lia | ].
    specialize (IH (n / 10) (String (digitChar (n mod 10)) acc)).
    cbn [String.length] in IH. lia.
Qed.

Lemma NumberToString_long y : 10000 <= y -> (5 <= String.length (NumberToString y))%nat.
Proof.
  intros H. unfold NumberToString.
  destruct (Z.ltb_spec y 0); [lia | ].
  change 21%nat with (S (S (S (S 17)))).
  rewrite 4 digitsFrom_step by zdiv.
  etransitivity; [ | apply digitsFrom_length]. cbn [String.length]. lia.
Qed.

Lemma NumberToString_short y : 0 <= y <= 999 -> (String.length (NumberToString y) <= 3)%nat.
Proof.
  intros H. destruct (Z.le_gt_cases y 9); [ | destruct (Z.le_gt_cases y 99)].
  - rewrite NumberToString_1digit by lia. cbn. lia.
  - rewrite NumberToString_2digits by lia. cbn. lia.
  - rewrite NumberToString_3digits by lia. cbn. lia.
Qed.

Lemma NumberToString_neg y : y < 0 ->
  exists s, NumberToString y = String "-"%char s.
Proof.
  intros H. unfold NumberToString. destruct (Z.ltb_spec y 0); [eauto | lia].
Qed.

Lemma isDateKey_shape k : isDateKey k = true ->
  String.length k = 10%nat /\ exists c s, k = String c s /\ isDash c = false.
Proof.
  intros H. apply isDateKey_inv in H as (y & m & d & (Hy & _) & ->).
  split; [reflexivity | ].
  eexists _, _. split; [reflexivity | ]. apply digitChar_not_dash. zdiv.
Qed.

End RangeFacts.

Section KeyRange.
Import ES Str ESFacts StrFacts KeyFacts RangeFacts.
Variable host : Host.

Lemma getDateKey_shape t :
  getDateKey host t
  = String.append (NumberToString (getFullYear host t))
      (String "-"%char (String.append (fmt2 (getMonth host t + 1))
         (String "-"%char (fmt2 (getDate host t))))).
Proof.
  unfold getDateKey.
  pose proof (MonthFromTime_bounds (LocalTime host t)).
  pose proof (DateFromTime_bounds (LocalTime host t)).
  pose proof (DaysInMonth_bounds (YearFromTime (LocalTime host t)) (MonthFromTime (LocalTime host t))).
  rewrite !padStart_fmt2 by (unfold getMonth, getDate; lia).
  reflexivity.
Qed.

(** Only a date in the years 1000..9999 has a key of the date-only form. *)
Lemma getDateKey_range t :
  isDateKey (getDateKey host t) = true -> 1000 <= getFullYear host t <= 9999.
Proof.
  intros H. apply isDateKey_shape in H as (Hlen & c & s & Hk & Hc).
  rewrite getDateKey_shape in Hlen, Hk.
  rewrite string_length_append in Hlen. cbn [String.length] in Hlen.
  rewrite string_length_append in Hlen. cbn [String.length fmt2] in Hlen.
  destruct (Z.lt_ge_cases (getFullYear host t) 0) as [Neg | Pos].
  - destruct (NumberToString_neg _ Neg) as (s' & E). rewrite E in Hk.
    cbv [String.append] in Hk. injection Hk as <- _. discriminate Hc.
  - destruct (Z.le_gt_cases (getFullYear host t) 999) as [Short | Long].
    + pose proof (NumberToString_short (getFullYear host t) ltac:(lia)). lia.
    + destruct (Z.le_gt_cases 10000 (getFullYear host t)) as [Big | Ok]; [ | lia].
      pose proof (NumberToString_long _ Big). lia.
Qed.

Lemma keyDay_present_key (c : gmap string bool) t :
  wf_completions c -> is_Some (c !! getDateKey host t) ->
  keyDay (getDateKey host t) = Day (LocalTime host t).
Proof.
  intros W [v Hv]. destruct (W _ _ Hv) as [Hk _].
  apply keyDay_getDateKey, getDateKey_range, Hk.
Qed.

End KeyRange.

(** ** [calculateStreaks] *)

Section Streaks.
Import ES Str ESFacts StrFacts KeyFacts SortFacts RangeFacts.
Variable host : Host.

(** In a zone of constant offset, [i] days of 24 hours before a date
    is [i] calendar days before it. *)
Lemma LocalDay_back tz ref i :
  fixedOffset host tz ->
  Day (LocalTime host (ref - i * msPerDay)) = Day (LocalTime host ref) - i.
Proof.
  intros F. rewrite !(LocalTime_fixed host tz) by assumption.
  replace (ref - i * msPerDay + tz) with (ref + tz + (- i) * msPerDay) by lia.
  rewrite Day_shift. lia.
Qed.

(** The full result of [calculateStreaks] on a well-formed map: the
    current streak counts the calendar days, back from the local day of
    the reference date, whose keys are present; the longest streak is
    found with the test of the code. *)
Lemma calculateStreaks_spec fuel now habit (c : gmap string bool) referenceDate :
  zoneOk host -> wf_completions c -> (366 <= fuel)%nat ->
  exists cur,
    calculateStreaks host fuel now habit c referenceDate
    = Some (mkStreaks cur
              (Z.max (longestRun (gapContinues host habit) (sortedKeys c)) cur))
    /\ 0 <= cur <= 366
    /\ (forall i, 0 <= i < cur ->
          c !! dayKey (Day (LocalTime host (default now referenceDate)) - i) = Some true)
    /\ (cur < 366 ->
          c !! dayKey (Day (LocalTime host (default now referenceDate)) - cur) = None).
Proof.
  intros Z1 W Hf.
  destruct (calculateStreaks_unfold host fuel now habit c referenceDate Hf) as (cur & Hw & Hc).
  destruct (currentWalk_total host c fuel (default now referenceDate) 0 ltac:(lia) ltac:(lia))
    as (r & Hr & Hb).
  rewrite Hw in Hr. injection Hr as <-.
  destruct (currentWalk_spec host c fuel Z1 _ _ _ Hw) as (Hpre & Hstop).
  destruct (decide (c = ∅)) as [-> | Hne].
  - assert (cur = 0) as ->.
    { destruct (Z.eq_dec cur 0) as [E | N]; [exact E | ].
      specialize (Hpre 0 ltac:(lia)). rewrite lookup_empty in Hpre. discriminate. }
    exists 0. split.
    + rewrite Hc. unfold sortedKeys. rewrite (@ObjectKeys_empty bool). reflexivity.
    + split; [lia | ]. split; [intros; lia | intros; apply lookup_empty].
  - exists cur. split.
    + rewrite Hc. do 3 f_equal.
      rewrite (scanRuns_run host habit (sortedKeys c)) by lia.
      rewrite drop_0.
      pose proof (longestRun_nonneg (gapContinues host habit) (sortedKeys c)). lia.
    + split; [lia | ]. split.
      * intros i Hi. apply truthy_wf; [exact W | ]. apply Hpre. lia.
      * intros Hlt. apply truthy_wf_false; [exact W | ].
        specialize (Hstop Hlt). now rewrite Z.sub_0_r in Hstop.
Qed.

(** In any zone the longest streak is the larger of the current streak
    and the longest run that the test of the code finds. *)
Lemma calculateStreaks_longest fuel now habit (c : gmap string bool) referenceDate s :
  calculateStreaks host fuel now habit c referenceDate = Some s ->
  longestStreak s
  = Z.max (longestRun (gapContinues host habit) (sortedKeys c)) (currentStreak s).
Proof.
  intros H. unfold calculateStreaks in H. fold (sortedKeys c) in H.
  destruct (length (rev (sortedKeys c)) =? 0)%nat eqn:E.
  - injection H as <-. cbn [longestStreak currentStreak].
    apply Nat.eqb_eq in E. rewrite length_rev in E.
    destruct (sortedKeys c); [reflexivity | discriminate].
  - destruct (currentWalk host fuel c _ 0) as [cur | ]; [ | discriminate].
    injection H as <-. cbn [longestStreak currentStreak].
    rewrite (scanRuns_run host habit (sortedKeys c)) by lia. rewrite drop_0.
    pose proof (longestRun_nonneg (gapContinues host habit) (sortedKeys c)). lia.
Qed.

(** In a zone of constant offset the longest streak is the longest run
    of the specification's rule. *)
Lemma calculateStreaks_longest_fixed tz fuel now habit (c : gmap string bool) referenceDate s :
  fixedOffset host tz -> wf_completions c ->
  calculateStreaks host fuel now habit c referenceDate = Some s ->
  longestStreak s
  = Z.max (spec_longestRun (isWeekly habit) (sortedKeys c)) (currentStreak s).
Proof.
  intros F W H. unfold calculateStreaks in H. fold (sortedKeys c) in H.
  destruct (length (rev (sortedKeys c)) =? 0)%nat eqn:E.
  - injection H as <-. cbn [longestStreak currentStreak].
    apply Nat.eqb_eq in E. rewrite length_rev in E.
    destruct (sortedKeys c); [reflexivity | discriminate].
  - destruct (currentWalk host fuel c _ 0) as [cur | ]; [ | discriminate].
    injection H as <-. cbn [longestStreak currentStreak].
    now rewrite (scanRuns_spec host tz F habit (sortedKeys c) (sortedKeys_isDateKey c W)).
Qed.

(** C1. For every habit (whatever its frequency and selected weekdays),
    every well-formed completion map and every reference date,
    [calculateStreaks] returns, and its [currentStreak] is the number of
    consecutive calendar days, counted backward one day at a time from the
    local day of the reference date, whose keys are present: every one of
    the first [currentStreak] days is present, the count never exceeds
    366, and below 366 the next day is missing.  The key of a date is the
    key of its local calendar day, and where the offset of local time is
    constant, going back [i] days of 24 hours reaches the same day. *)
Theorem C1_current_streak_walk fuel now habit (c : gmap string bool) referenceDate :
  zoneOk host -> wf_completions c -> (366 <= fuel)%nat ->
  exists s,
    calculateStreaks host fuel now habit c referenceDate = Some s
    /\ 0 <= currentStreak s <= 366
    /\ (forall i, 0 <= i < currentStreak s ->
          c !! dayKey (Day (LocalTime host (default now referenceDate)) - i) = Some true)
    /\ (currentStreak s < 366 ->
          c !! dayKey (Day (LocalTime host (default now referenceDate)) - currentStreak s)
          = None)
    /\ (forall t, getDateKey host t = dayKey (Day (LocalTime host t)))
    /\ (forall tz, fixedOffset host tz -> forall i,
          Day (LocalTime host (default now referenceDate - i * msPerDay))
          = Day (LocalTime host (default now referenceDate)) - i).
Proof.
  intros Z1 W Hf.
  destruct (calculateStreaks_spec fuel now habit c referenceDate Z1 W Hf)
    as (cur & Hc & Hb & Hpre & Hstop).
  eexists. split; [exact Hc | ]. cbn [currentStreak].
  split; [exact Hb | ]. split; [exact Hpre | ]. split; [exact Hstop | ].
  split; [apply getDateKey_dayKey | ].
  intros tz F i. now apply (LocalDay_back tz).
Qed.

(** C3. On the empty completion map [calculateStreaks] returns
    [currentStreak = 0] and [longestStreak = 0], for every frequency and
    every reference date (and without entering the walk). *)
Theorem C3_empty_map fuel now habit referenceDate :
  calculateStreaks host fuel now habit ∅ referenceDate = Some (mkStreaks 0 0).
Proof. apply calculateStreaks_empty. Qed.

End Streaks.

(** ** The cached streaks, toggling and the dashboard filter *)

Section Invariants.
Import ES Str ESFacts StrFacts KeyFacts SortFacts RangeFacts.
Variable host : Host.

(** Whatever the map, a result of [calculateStreaks] is consistent. *)
Lemma calculateStreaks_ok fuel now habit (c : gmap string bool) referenceDate s :
  calculateStreaks host fuel now habit c referenceDate = Some s ->
  0 <= currentStreak s /\ 0 <= longestStreak s /\ currentStreak s <= longestStreak s.
Proof.
  unfold calculateStreaks. intros H.
  destruct (length (rev (sort (ObjectKeys c))) =? 0)%nat.
  - injection H as <-. cbn. lia.
  - destruct (currentWalk host fuel c _ 0) as [cur | ] eqn:E; [ | discriminate].
    injection H as <-. apply currentWalk_ge in E. cbn. lia.
Qed.

Lemma calculateStreaks_total fuel now habit (c : gmap string bool) referenceDate :
  (366 <= fuel)%nat ->
  exists s, calculateStreaks host fuel now habit c referenceDate = Some s.
Proof.
  intros Hf.
  destruct (calculateStreaks_unfold host fuel now habit c referenceDate Hf) as (cur & _ & H).
  eauto.
Qed.

Lemma userOk_updateHabit u habitId updates :
  userOk u ->
  (forall h, h ∈ habits u -> streaksOk h -> streaksOk (applyUpdates h updates)) ->
  userOk (updateHabit u habitId updates).
Proof.
  unfold userOk, updateHabit. cbn [habits]. intros Hu Hup.
  rewrite Forall_forall in Hu. apply Forall_forall. intros h' Hin.
  apply list_elem_of_In, in_map_iff in Hin as (h & <- & Hin).
  apply list_elem_of_In in Hin.
  destruct (String.eqb (h_id h) habitId); auto.
Qed.

Lemma step_preserves u u' : userOk u -> step host u u' -> userOk u'.
Proof.
  intros Hu St. destruct St as [newId now u data | u habitId data | u habitId
                               | fuel now u habitId date u' Ht].
  - unfold userOk, addHabit. cbn [habits]. apply Forall_app. split; [exact Hu | ].
    constructor; [ | constructor]. unfold streaksOk. cbn. lia.
  - apply userOk_updateHabit; [exact Hu | ]. intros h _ Hh. exact Hh.
  - unfold userOk, deleteHabit. cbn [habits]. unfold userOk in Hu.
    rewrite Forall_forall in Hu. apply Forall_forall. intros h Hin.
    apply list_elem_of_filter in Hin as [_ Hin]. auto.
  - unfold toggleHabitCompletion in Ht.
    destruct (findHabit habitId (habits u)) as [habit | ]; [ | now injection Ht as <-].
    destruct (calculateStreaks host fuel now habit _ (Some date)) as [s | ] eqn:Es;
      [ | discriminate].
    injection Ht as <-. apply calculateStreaks_ok in Es.
    apply userOk_updateHabit; [exact Hu | ]. intros h _ _.
    unfold streaksOk, applyUpdates. cbn. exact Es.
Qed.

Lemma toggleHabitCompletion_total fuel now u habitId date :
  (366 <= fuel)%nat ->
  exists u', toggleHabitCompletion host fuel now u habitId date = Some u'.
Proof.
  intros Hf. unfold toggleHabitCompletion.
  destruct (findHabit habitId (habits u)) as [habit | ]; [ | eauto].
  destruct (calculateStreaks_total fuel now habit
              (toggleCompletion (default ∅ (h_completions habit)) (getDateKey host date))
              (Some date) Hf) as [s ->].
  eauto.
Qed.

(** C4. For every habit, every completion map and every reference date
    [calculateStreaks] returns a pair with [currentStreak >= 0],
    [longestStreak >= 0] and [longestStreak >= currentStreak]; hence every
    command of the application keeps these three facts true of the cached
    fields of every habit: creation sets both to 0, a toggle (which always
    completes) stores the pair of [calculateStreaks], and editing and
    deleting do not write them. *)
Theorem C4_streak_invariant fuel now habit (c : gmap string bool) referenceDate :
  (366 <= fuel)%nat ->
  (exists s, calculateStreaks host fuel now habit c referenceDate = Some s
     /\ 0 <= currentStreak s /\ 0 <= longestStreak s
     /\ currentStreak s <= longestStreak s)
  /\ (forall u u', userOk u -> step host u u' -> userOk u')
  /\ (forall u habitId date,
        exists u', toggleHabitCompletion host fuel now u habitId date = Some u'
                   /\ step host u u')
  /\ (forall newId u data h,
        h ∈ habits (addHabit newId now u data) -> h ∉ habits u ->
        h_currentStreak h = 0 /\ h_longestStreak h = 0).
Proof.
  intros Hf. split; [ | split; [ | split]].
  - destruct (calculateStreaks_total fuel now habit c referenceDate Hf) as [s Hs].
    exists s. split; [exact Hs | ]. now apply calculateStreaks_ok in Hs.
  - apply step_preserves.
  - intros u habitId date.
    destruct (toggleHabitCompletion_total fuel now u habitId date Hf) as [u' Hu'].
    exists u'. split; [exact Hu' | ]. econstructor; exact Hu'.
  - intros newId u data h Hin Hnot. unfold addHabit in Hin. cbn [habits] in Hin.
    apply elem_of_app in Hin as [Hin | Hin]; [contradiction | ].
    apply list_elem_of_singleton in Hin as ->. cbn. auto.
Qed.

(** One toggle flips the presence of its key and nothing else. *)
Lemma toggleCompletion_flip (c : gmap string bool) k :
  wf_completions c ->
  (c !! k = None -> toggleCompletion c k !! k = Some true)
  /\ (is_Some (c !! k) -> toggleCompletion c k !! k = None)
  /\ (forall k', k' <> k -> toggleCompletion c k !! k' = c !! k').
Proof.
  intros W. unfold toggleCompletion.
  destruct (c !! k) as [b | ] eqn:E; cbn [truthy].
  - destruct (W k b E) as [_ ->].
    split; [discriminate | ]. split; [intros _; apply lookup_delete_eq | ].
    intros k' Hk. now apply lookup_delete_ne.
  - split; [intros _; apply lookup_insert_eq | ].
    split; [intros [? ?]; discriminate | ].
    intros k' Hk. now apply lookup_insert_ne.
Qed.

(** C5. On a well-formed completion map a toggle flips exactly the
    presence of the key of its date (inserted with [true] if absent,
    removed if present, every other key untouched), and toggling the same
    date twice gives the original map back. *)
Theorem C5_toggle_twice (c : gmap string bool) (date : Z) :
  wf_completions c ->
  let k := getDateKey host date in
  toggleCompletion (toggleCompletion c k) k = c
  /\ (c !! k = None -> toggleCompletion c k !! k = Some true)
  /\ (is_Some (c !! k) -> toggleCompletion c k !! k = None)
  /\ (forall k', k' <> k -> toggleCompletion c k !! k' = c !! k').
Proof.
  intros W k. split; [ | now apply toggleCompletion_flip].
  unfold toggleCompletion.
  destruct (c !! k) as [b | ] eqn:E; cbn [truthy].
  - destruct (W k b E) as [_ ->].
    rewrite lookup_delete_eq. cbn [truthy].
    rewrite insert_delete_eq. now apply insert_id.
  - rewrite lookup_insert_eq. cbn [truthy].
    rewrite delete_insert_eq. now apply delete_id.
Qed.

Lemma WeekDay_bounds t : 0 <= WeekDay t <= 6.
Proof. unfold WeekDay. zdiv. Qed.

Lemma getDay_newDateYMD y m d :
  zoneOk host -> plainYear y ->
  getDay host (newDateYMD host y m d) = (MakeDay y m d + 4) mod 7.
Proof.
  intros Z1 Hy. unfold getDay, WeekDay. now rewrite Day_newDateYMD.
Qed.

Lemma includes_spec arr x :
  includes arr x = true <-> exists l, arr = Some l /\ x ∈ l.
Proof.
  unfold includes. destruct arr as [l | ].
  - rewrite existsb_exists. split.
    + intros (y & Hin & Heq). apply Z.eqb_eq in Heq as <-.
      exists l. split; [reflexivity | now apply list_elem_of_In].
    + intros (l' & [= <-] & Hin). exists x. split; [now apply list_elem_of_In | apply Z.eqb_refl].
  - split; [discriminate | intros (l & [=] & _)].
Qed.

(** C7. The dashboard filter keeps a daily habit on every date; it keeps
    a weekly habit exactly when the weekday index of the date (0 = Sunday
    .. 6 = Saturday) is among its selected days, and drops it when the
    list is empty or missing.  With selected days 1, 3, 5 a weekly habit
    is kept on a Wednesday and dropped on a Saturday (7, 10 and 13 January
    2024 are a Sunday, a Wednesday and a Saturday in every zone that
    satisfies [zoneOk]). *)
Theorem C7_applicability (selectedDate : Z) (habit : Habit) :
  (h_frequency habit = "daily"%string -> todayHabitsFilter host selectedDate habit = true)
  /\ (h_frequency habit = "weekly"%string ->
        (todayHabitsFilter host selectedDate habit = true
         <-> exists l, h_selectedDays habit = Some l /\ getDay host selectedDate ∈ l))
  /\ (h_frequency habit = "weekly"%string ->
        h_selectedDays habit = None \/ h_selectedDays habit = Some [] ->
        todayHabitsFilter host selectedDate habit = false)
  /\ (h_frequency habit = "weekly"%string -> h_selectedDays habit = Some [1; 3; 5] ->
        (getDay host selectedDate = 3 -> todayHabitsFilter host selectedDate habit = true)
        /\ (getDay host selectedDate = 6 -> todayHabitsFilter host selectedDate habit = false))
  /\ 0 <= getDay host selectedDate <= 6
  /\ (zoneOk host ->
        getDay host (newDateYMD host 2024 0 7) = 0
        /\ getDay host (newDateYMD host 2024 0 10) = 3
        /\ getDay host (newDateYMD host 2024 0 13) = 6).
Proof.
  unfold todayHabitsFilter.
  split; [intros ->; reflexivity | ].
  split; [intros ->; cbn [String.eqb Ascii.eqb Bool.eqb]; apply includes_spec | ].
  split.
  { intros -> [-> | ->]; reflexivity. }
  split.
  { intros -> ->. cbn [String.eqb Ascii.eqb Bool.eqb includes]. split; intros ->; reflexivity. }
  split; [apply WeekDay_bounds | ].
  intros Z1. rewrite !getDay_newDateYMD by (try assumption; unfold plainYear; lia).
  repeat split; reflexivity.
Qed.

End Invariants.

(** ** The monthly series *)

Section Series.
Import ES Str ESFacts StrFacts KeyFacts SortFacts RangeFacts.
Variable host : Host.

Lemma monthStart_next L m m' : 0 <= m <= 10 -> m' = m + 1 ->
  monthStart L m' = monthStart L m + monthLength L m.
Proof.
  intros Hm Hm'.
  enum_month m; enum_month m'; try lia; cbn [monthStart monthLength]; lia.
Qed.

Lemma monthStart_succ L m : 0 <= m <= 10 ->
  monthStart L (m + 1) = monthStart L m + monthLength L m.
Proof. intros Hm. now apply monthStart_next. Qed.

(** Day 0 of the next month is the last day of the month. *)
Lemma MakeDay_last y m : 0 <= m <= 11 ->
  MakeDay y (m + 1) 0 = MakeDay y m (DaysInMonth y m).
Proof.
  intros Hm. rewrite (MakeDay_plain y m) by lia. unfold DaysInMonth.
  destruct (Z.eq_dec m 11) as [-> | Hne].
  - unfold MakeDay. change ((11 + 1) / 12) with 1. change ((11 + 1) mod 12) with 0.
    rewrite DayFromYear_succ, DaysInYear_leapDay. cbn [monthStart monthLength].
    pose proof (leapDay_01 y). pose proof (leapDay_01 (y + 1)). lia.
  - rewrite MakeDay_plain by lia. rewrite monthStart_succ by lia. lia.
Qed.

Lemma daysInMonth_getDate year m : zoneOk host -> plainYear year -> 0 <= m <= 11 ->
  getDate host (newDateYMD host year (m + 1) 0) = DaysInMonth year m.
Proof.
  intros Z1 Hy Hm. unfold getDate.
  pose proof (DaysInMonth_bounds year m).
  apply (civil_date year m); [lia | lia | ].
  rewrite Day_newDateYMD by assumption. now apply MakeDay_last.
Qed.

Lemma getDateKey_newDateYMD year m d :
  zoneOk host ->
  1000 <= year <= 9999 -> 0 <= m <= 11 -> 1 <= d <= DaysInMonth year m ->
  getDateKey host (newDateYMD host year m d) = isoDate year (m + 1) d.
Proof.
  intros Z1 Hy Hm Hd.
  assert (P : plainYear year) by (unfold plainYear; lia).
  pose proof (Day_newDateYMD host year m d Z1 P) as D.
  assert (Y : getFullYear host (newDateYMD host year m d) = year).
  { unfold getFullYear. apply (civil_year year m d); [lia | lia | exact D]. }
  rewrite getDateKey_isoDate by (rewrite Y; lia). rewrite Y.
  unfold getMonth, getDate.
  rewrite (civil_month year m d), (civil_date year m d); try lia; try exact D.
  reflexivity.
Qed.

Lemma monthLoop_spec habit m year n : forall d data,
  monthLoop host habit m year n d data
  = data ++ (monthEntry host habit m year <$> seqZ d (Z.of_nat n)).
Proof.
  induction n as [ | n IH]; intros d data.
  - cbn. now rewrite app_nil_r.
  - cbn [monthLoop]. rewrite IH.
    rewrite Nat2Z.inj_succ, (seqZ_cons d) by lia.
    rewrite <- app_assoc. cbn [fmap list_fmap app].
    replace (Z.succ d) with (d + 1) by lia.
    replace (Z.pred (Z.succ (Z.of_nat n))) with (Z.of_nat n) by lia.
    reflexivity.
Qed.

Lemma getMonthlyData_spec habit m year :
  getMonthlyData host habit m year
  = monthEntry host habit m year
      <$> seqZ 1 (getDate host (newDateYMD host year (m + 1) 0)).
Proof.
  unfold getMonthlyData. rewrite monthLoop_spec. cbn [app].
  pose proof (DateFromTime_bounds (LocalTime host (newDateYMD host year (m + 1) 0))).
  unfold getDate. rewrite Z2Nat.id by lia. reflexivity.
Qed.

Lemma monthEntry_completed habit m year d :
  completed (monthEntry host habit m year d) = 0
  \/ completed (monthEntry host habit m year d) = 1.
Proof.
  unfold monthEntry. cbn [completed].
  destruct (h_completions habit) as [c | ]; [ | now left].
  destruct (truthy _); auto.
Qed.

Lemma monthEntry_present habit m year d :
  wf_completions (default ∅ (h_completions habit)) ->
  completed (monthEntry host habit m year d) = 1
  <-> is_Some (default ∅ (h_completions habit) !! date (monthEntry host habit m year d)).
Proof.
  intros W. unfold monthEntry. cbn [completed date].
  destruct (h_completions habit) as [c | ]; cbn [from_option id] in *.
  - destruct (truthy (c !! _)) eqn:E.
    + apply truthy_wf in E; [ | exact W]. rewrite E. split; [eauto | reflexivity].
    + apply truthy_wf_false in E; [ | exact W]. rewrite E.
      split; [discriminate | intros [? [=]]].
  - rewrite lookup_empty. split; [discriminate | intros [? [=]]].
Qed.

(** C8. For every habit with a well-formed completion map, every month
    0..11 and every four-digit year, in every zone that satisfies
    [zoneOk], the monthly series has exactly
    [DaysInMonth year month] entries; their [day] values are 1, 2, .., N in
    this order; each [completed] is 0 or 1, and it is 1 exactly when the
    key of that day ([YYYY-MM-DD] of the year, the month and the day) is
    present in the habit's completions. *)
Theorem C8_monthly_series habit m year :
  zoneOk host -> 0 <= m <= 11 -> 1000 <= year <= 9999 ->
  wf_completions (default ∅ (h_completions habit)) ->
  Z.of_nat (length (getMonthlyData host habit m year)) = DaysInMonth year m
  /\ day <$> getMonthlyData host habit m year = seqZ 1 (DaysInMonth year m)
  /\ Forall (fun e =>
        (completed e = 0 \/ completed e = 1)
        /\ date e = isoDate year (m + 1) (day e)
        /\ (completed e = 1
            <-> is_Some (default ∅ (h_completions habit) !! isoDate year (m + 1) (day e))))
      (getMonthlyData host habit m year).
Proof.
  intros Z1 Hm Hy W.
  assert (P : plainYear year) by (unfold plainYear; lia).
  pose proof (DaysInMonth_bounds year m) as B.
  rewrite getMonthlyData_spec, daysInMonth_getDate by assumption.
  split; [ | split].
  - rewrite length_fmap, length_seqZ. lia.
  - rewrite <- list_fmap_compose. apply list_fmap_id.
  - apply Forall_fmap, Forall_forall. intros d Hd. apply elem_of_seqZ in Hd.
    cbn [compose].
    assert (K : date (monthEntry host habit m year d) = isoDate year (m + 1) d).
    { unfold monthEntry. cbn [date]. apply getDateKey_newDateYMD; [exact Z1 | lia ..]. }
    split; [apply monthEntry_completed | ]. split; [exact K | ].
    change (day (monthEntry host habit m year d)) with d.
    rewrite <- K. now apply monthEntry_present.
Qed.

End Series.

(** ** The yearly series and the completion rate *)

Section Rates.
Import ES Str ESFacts StrFacts KeyFacts SortFacts RangeFacts.
Variable host : Host.

Lemma yearLoop_spec habit year n : forall m data,
  yearLoop host habit year n m data
  = data ++ (yearEntry host habit year <$> seqZ m (Z.of_nat n)).
Proof.
  induction n as [ | n IH]; intros m data.
  - cbn. now rewrite app_nil_r.
  - cbn [yearLoop]. rewrite IH.
    rewrite Nat2Z.inj_succ, (seqZ_cons m) by lia.
    rewrite <- app_assoc. cbn [fmap list_fmap app].
    replace (Z.succ m) with (m + 1) by lia.
    replace (Z.pred (Z.succ (Z.of_nat n))) with (Z.of_nat n) by lia.
    reflexivity.
Qed.

Lemma getYearlyData_spec habit year :
  getYearlyData host habit year = yearEntry host habit year <$> seqZ 0 12.
Proof. unfold getYearlyData. now rewrite yearLoop_spec. Qed.

Lemma getMonthlyData_length habit m year :
  (1 <= length (getMonthlyData host habit m year))%nat.
Proof.
  rewrite getMonthlyData_spec, length_fmap, length_seqZ.
  pose proof (DateFromTime_bounds (LocalTime host (newDateYMD host year (m + 1) 0))).
  unfold getDate. lia.
Qed.

Lemma getMonthlyData_completed habit m year :
  Forall (fun e => completed e = 0 \/ completed e = 1) (getMonthlyData host habit m year).
Proof.
  rewrite getMonthlyData_spec. apply Forall_fmap, Forall_forall.
  intros d _. apply monthEntry_completed.
Qed.

(** Counting the truthy [completed] fields counts the entries equal to 1. *)
Lemma truthy_count (data : list DayEntry) :
  Forall (fun e => completed e = 0 \/ completed e = 1) data ->
  Z.of_nat (length (List.filter (fun d => negb (completed d =? 0)) data))
  = completedDays data.
Proof.
  unfold completedDays. intros F. f_equal.
  induction F as [ | e data He F IH]; [reflexivity | ].
  cbn [List.filter]. rewrite filter_cons.
  destruct He as [-> | ->]; cbn [Z.eqb negb].
  - destruct (decide (0 = 1)); [lia | exact IH].
  - destruct (decide (1 = 1)); [ | lia]. cbn [length]. now rewrite IH.
Qed.

(** C9. For every habit and year the yearly series has exactly 12
    entries, and the entry of each month carries
    [(completedDays / totalDaysInMonth) * 100] in binary64 arithmetic,
    where [completedDays] counts the completed entries of that month's
    monthly series and [totalDaysInMonth], never zero, is its length. *)
Theorem C9_yearly_series habit year :
  length (getYearlyData host habit year) = 12%nat
  /\ forall m, 0 <= m <= 11 ->
       exists e, getYearlyData host habit year !! Z.to_nat m = Some e
         /\ (0 < length (getMonthlyData host habit m year))%nat
         /\ month_completions e = completedDays (getMonthlyData host habit m year)
         /\ month_completionRate e
            = Num.mul
                (Num.div (Num.ofZ (completedDays (getMonthlyData host habit m year)))
                         (Num.ofZ (Z.of_nat (length (getMonthlyData host habit m year)))))
                (Num.ofZ 100).
Proof.
  rewrite getYearlyData_spec. split; [reflexivity | ].
  intros m Hm. exists (yearEntry host habit year m).
  pose proof (getMonthlyData_length habit m year) as L.
  split; [ | split; [lia | ]].
  - rewrite list_lookup_fmap.
    rewrite (lookup_seqZ_lt 0 12 (Z.to_nat m)) by lia.
    cbn [fmap option_fmap option_map]. f_equal. f_equal. lia.
  - unfold yearEntry. cbn [month_completions month_completionRate].
    rewrite truthy_count by apply getMonthlyData_completed.
    split; [reflexivity | ].
    destruct (Z.gtb_spec (Z.of_nat (length (getMonthlyData host habit m year))) 0);
      [reflexivity | lia].
Qed.

(** [toFixed(1)] prints a tenth nearest to the value [m * 2^e]. *)
Lemma tenthsOf_nearest m e : e < 0 ->
  2 * Num.tenthsOf m e * 2 ^ (- e) - 2 ^ (- e) <= 20 * Z.pos m
  < 2 * Num.tenthsOf m e * 2 ^ (- e) + 2 ^ (- e).
Proof.
  intros He. unfold Num.tenthsOf.
  destruct (Z.leb_spec 0 e); [lia | ].
  rewrite Z.pow_add_r by lia. change (2 ^ 1) with 2.
  assert (Hq : 0 < 2 ^ (- e)) by (apply Z.pow_pos_nonneg; lia).
  set (q := 2 ^ (- e)) in *.
  pose proof (Z.div_mod (20 * Z.pos m + q) (q * 2) ltac:(lia)) as D.
  pose proof (Z.mod_pos_bound (20 * Z.pos m + q) (q * 2) ltac:(lia)) as B.
  nia.
Qed.

Lemma ObjectKeys_length {V} (c : gmap string V) : length (ObjectKeys c) = size c.
Proof. unfold ObjectKeys. now rewrite length_fmap, length_map_to_list. Qed.

(** The statistics of a habit whose [createdAt] parses: the rate is the
    [toFixed(1)] print of [totalCompletions / totalDays * 100], where
    [totalDays] is what [getDaysDifference] returns for now and the date
    of creation. *)
Lemma getHabitStats_spec now habit created :
  Str.DateParse (parseOther host) (h_createdAt habit) = Some created ->
  let stats := getHabitStats host now habit in
  let total := Z.of_nat (size (default ∅ (h_completions habit))) in
  let days := midnightGap host (Day (LocalTime host now)) (Day (LocalTime host created)) in
  totalCompletions stats = total
  /\ (days <= 0 -> completionRate stats = "0.0"%string)
  /\ (0 < days ->
        completionRate stats
        = Num.toFixed1 (Num.mul (Num.div (Num.ofZ total) (Num.ofZ days)) (Num.ofZ 100)))
  /\ (total = 5 -> days = 10 -> completionRate stats = "50.0"%string).
Proof.
  intros Hc stats total days.
  assert (R : completionRate stats
              = Num.toFixed1
                  (if days >? 0
                   then Num.mul (Num.div (Num.ofZ total) (Num.ofZ days)) (Num.ofZ 100)
                   else Num.ofZ 0)).
  { unfold stats, getHabitStats. cbn [completionRate newDate].
    rewrite Hc, getDaysDifference_local, ObjectKeys_length. reflexivity. }
  split; [unfold stats, getHabitStats; cbn [totalCompletions];
          now rewrite ObjectKeys_length | ].
  split; [ | split].
  - intros Hd. rewrite R. destruct (Z.gtb_spec days 0); [lia | reflexivity].
  - intros Hd. rewrite R. destruct (Z.gtb_spec days 0); [reflexivity | lia].
  - intros Ht Hd. rewrite R, Ht, Hd. vm_compute. reflexivity.
Qed.

End Rates.

(** C6. The completion rate across a change of the clock.  In New York
    a habit created on 5 March 2024 with five completions is read on
    15 March, ten calendar days later: the two local midnights are ten
    days less one hour apart, [getDaysDifference] returns 9, and the rate
    is [55.6] where the specification gives [50.0].  In every zone the rate is the [toFixed(1)] print (one
    decimal place, a nearest tenth) of [totalCompletions / totalDays * 100]
    evaluated in binary64, [0.0] when [totalDays] is not positive, with
    [totalDays] the floor of the difference of the two local midnights in
    days of 24 hours; where the offset of local time is constant this is
    the difference of the calendar days, and five completions over ten
    days give [50.0]. *)
Theorem C6_completion_rate :
  Str.DateParse (parseOther newYork) (h_createdAt marchHabit) = Some mar5
  /\ ES.Day (LocalTime newYork mar15) - ES.Day (LocalTime newYork mar5) = 10
  /\ getDaysDifference newYork (OfDate mar15) (OfDate mar5) = Some 9
  /\ totalCompletions (getHabitStats newYork mar15 marchHabit) = 5
  /\ completionRate (getHabitStats newYork mar15 marchHabit) = "55.6"%string
  /\ (forall host now habit created,
        Str.DateParse (parseOther host) (h_createdAt habit) = Some created ->
        let stats := getHabitStats host now habit in
        let total := Z.of_nat (size (default ∅ (h_completions habit))) in
        let days :=
          midnightGap host (ES.Day (LocalTime host now)) (ES.Day (LocalTime host created)) in
        getDaysDifference host (OfDate now) (OfDate created) = Some days
        /\ totalCompletions stats = total
        /\ (days <= 0 -> completionRate stats = "0.0"%string)
        /\ (0 < days ->
              completionRate stats
              = Num.toFixed1 (Num.mul (Num.div (Num.ofZ total) (Num.ofZ days)) (Num.ofZ 100)))
        /\ (total = 5 -> days = 10 -> completionRate stats = "50.0"%string))
  /\ (forall host tz D1 D2, fixedOffset host tz -> midnightGap host D1 D2 = D1 - D2)
  /\ (forall m e, e < 0 ->
        2 * Num.tenthsOf m e * 2 ^ (- e) - 2 ^ (- e) <= 20 * Z.pos m
        < 2 * Num.tenthsOf m e * 2 ^ (- e) + 2 ^ (- e))
  /\ (forall m e, 0 <= e -> Num.tenthsOf m e = 10 * Z.pos m * 2 ^ e).
Proof.
  split; [vm_compute; reflexivity | ].
  split; [vm_compute; reflexivity | ].
  split; [vm_compute; reflexivity | ].
  split; [vm_compute; reflexivity | ].
  split; [vm_compute; reflexivity | ].
  split; [ | split; [ | split]].
  - intros host now habit created Hc stats total days.
    split; [apply getDaysDifference_local | ].
    now apply getHabitStats_spec.
  - intros host tz D1 D2 F. now apply (midnightGap_fixed host tz).
  - apply tenthsOf_nearest.
  - intros m e He. unfold Num.tenthsOf. destruct (Z.leb_spec 0 e); [reflexivity | lia].
Qed.

(** ** Runs longer than the cap *)

Section LongRuns.
Import ES Str ESFacts StrFacts KeyFacts SortFacts RangeFacts.
Variable host : Host.

Lemma sortedKeys_length (c : gmap string bool) : length (sortedKeys c) = size c.
Proof. unfold sortedKeys. now rewrite sort_length, ObjectKeys_length. Qed.

Lemma keyDay_dayKey_present (c : gmap string bool) D :
  wf_completions c -> is_Some (c !! dayKey D) -> keyDay (dayKey D) = D.
Proof.
  intros W H. unfold dayKey in *.
  rewrite (keyDay_present_key (fixedHost 0) c) by assumption.
  apply Day_LocalTime_dayKey.
Qed.

(** A run of [n] present days that ends at day [D], seen in the sorted
    keys. *)
Lemma run_daysPresent (c : gmap string bool) D n :
  wf_completions c ->
  (forall i, 0 <= i < n -> c !! dayKey (D - i) = Some true) ->
  daysPresent (sortedKeys c) (D - (n - 1)) n.
Proof.
  intros W P i Hi.
  specialize (P (n - 1 - i) ltac:(lia)).
  exists (dayKey (D - (n - 1 - i))). split.
  - apply elem_of_sortedKeys. eauto.
  - rewrite (keyDay_dayKey_present c) by eauto. lia.
Qed.

(** The days of a run are as many distinct keys of the map. *)
Lemma run_size (c : gmap string bool) D n :
  wf_completions c -> 0 <= n ->
  (forall i, 0 <= i < n -> c !! dayKey (D - i) = Some true) ->
  n <= Z.of_nat (size c).
Proof.
  intros W Hn P.
  set (l := (fun i => dayKey (D - i)) <$> seqZ 0 n).
  assert (In : forall i, i ∈ seqZ 0 n -> is_Some (c !! dayKey (D - i))).
  { intros i Hi. apply elem_of_seqZ in Hi. rewrite P by lia. eauto. }
  assert (ND : NoDup l).
  { apply NoDup_fmap_2_strong; [ | apply NoDup_seqZ].
    intros i j Hi Hj E.
    pose proof (keyDay_dayKey_present c _ W (In i Hi)) as Ki.
    pose proof (keyDay_dayKey_present c _ W (In j Hj)) as Kj.
    rewrite E in Ki. lia. }
  assert (Sub : l ⊆+ sortedKeys c).
  { apply NoDup_submseteq; [exact ND | ].
    intros k Hk. apply list_elem_of_fmap in Hk as (i & -> & Hi).
    apply elem_of_sortedKeys. now apply In. }
  apply submseteq_length in Sub.
  unfold l in Sub. rewrite length_fmap, length_seqZ, sortedKeys_length in Sub. lia.
Qed.

(** C10, as amended.  The cap of 366 bounds only the backward walk: when
    a well-formed map holds the [n > 366] consecutive calendar days that
    end at the local day of the reference date, [calculateStreaks] returns
    [currentStreak = 366] and a [longestStreak] of at least 366; where the
    offset of local time is constant it is at least [n], hence above 366,
    and exactly [n] when the map holds those [n] days and nothing else. *)
Theorem C10_cap_only_on_walk fuel now habit (c : gmap string bool) referenceDate n :
  zoneOk host -> wf_completions c -> (366 <= fuel)%nat -> 366 < n ->
  (forall i, 0 <= i < n ->
     c !! dayKey (Day (LocalTime host (default now referenceDate)) - i) = Some true) ->
  exists s,
    calculateStreaks host fuel now habit c referenceDate = Some s
    /\ currentStreak s = 366
    /\ 366 <= longestStreak s
    /\ (forall tz, fixedOffset host tz ->
          n <= longestStreak s
          /\ 366 < longestStreak s
          /\ (Z.of_nat (size c) = n -> longestStreak s = n)).
Proof.
  intros Z1 W Hf Hn P.
  destruct (calculateStreaks_spec host fuel now habit c referenceDate Z1 W Hf)
    as (cur & Hc & Hb & _ & Hstop).
  assert (cur = 366) as ->.
  { destruct (Z.eq_dec cur 366) as [E | N]; [exact E | ].
    specialize (Hstop ltac:(lia)). rewrite P in Hstop by lia. discriminate. }
  eexists. split; [exact Hc | ]. split; [reflexivity | ].
  split; [cbn [longestStreak]; lia | ].
  intros tz F.
  rewrite (calculateStreaks_longest_fixed host tz _ _ _ _ _ _ F W Hc).
  cbn [currentStreak].
  pose proof (spec_longestRun_ge (isWeekly habit) (sortedKeys c) _ n
                (sortedKeys_chronological c W) ltac:(lia)
                (run_daysPresent c _ n W P)) as G.
  pose proof (spec_longestRun_le (isWeekly habit) (sortedKeys c)) as U.
  rewrite sortedKeys_length in U.
  repeat split; lia.
Qed.

End LongRuns.

(** ** Date keys and day differences *)

Section DateKeys.
Import ES Str ESFacts StrFacts KeyFacts RangeFacts.
Variable host : Host.

Lemma getDateKey_parse t :
  1000 <= getFullYear host t <= 9999 ->
  DateParse (parseOther host) (getDateKey host t) = Some (Day (LocalTime host t) * msPerDay).
Proof.
  intros Hy. rewrite DateParse_key by now apply getDateKey_isDateKey.
  rewrite keyDay_getDateKey by assumption. unfold MakeDate. f_equal. lia.
Qed.

(** X1. The key of a date has the date-only form exactly when its local
    year has four digits (below 1000 the year is printed without padding,
    from 10000 on with five digits, before year 0 with a minus sign).
    In the years 1000..9999 the key is [YYYY-MM-DD] of the local year,
    month number (1..12) and day of the month, and [Date.parse] reads it
    back as midnight UTC of the local day of the date. *)
Theorem X1_date_key_round_trip t :
  (isDateKey (getDateKey host t) = true <-> 1000 <= getFullYear host t <= 9999)
  /\ 1 <= getMonth host t + 1 <= 12
  /\ 1 <= getDate host t <= DaysInMonth (getFullYear host t) (getMonth host t)
  /\ (1000 <= getFullYear host t <= 9999 ->
        getDateKey host t
        = isoDate (getFullYear host t) (getMonth host t + 1) (getDate host t)
        /\ DateParse (parseOther host) (getDateKey host t)
           = Some (Day (LocalTime host t) * msPerDay)).
Proof.
  pose proof (MonthFromTime_bounds (LocalTime host t)).
  pose proof (DateFromTime_bounds (LocalTime host t)).
  split; [split; [apply getDateKey_range | apply getDateKey_isDateKey] | ].
  split; [unfold getMonth; lia | ]. split; [unfold getDate, getFullYear, getMonth; lia | ].
  intros Hy. split; [now apply getDateKey_isoDate | now apply getDateKey_parse].
Qed.

(** X2. Two dates of which one lies in the years 1000..9999 have the same
    key exactly when they fall on the same local calendar day; the time
    of day plays no part. *)
Theorem X2_same_key_same_day t t' :
  1000 <= getFullYear host t <= 9999 ->
  getDateKey host t = getDateKey host t' <-> Day (LocalTime host t) = Day (LocalTime host t').
Proof.
  intros Hy. split; [ | apply getDateKey_Day].
  intros E.
  assert (Hy' : 1000 <= getFullYear host t' <= 9999).
  { apply getDateKey_range. rewrite <- E. now apply getDateKey_isDateKey. }
  rewrite <- (keyDay_getDateKey host t), <- (keyDay_getDateKey host t') by assumption.
  now rewrite E.
Qed.

Lemma midnightGap_bounds D1 D2 :
  offsetsBounded host ->
  D1 - D2 - 2 <= midnightGap host D1 D2 <= D1 - D2 + 1.
Proof.
  intros B. unfold midnightGap.
  pose proof (B (D1 * msPerDay) false). pose proof (B (D2 * msPerDay) false).
  unfold msPerDay in *. zdiv.
Qed.

(** X3. On two [Date]s [getDaysDifference] is the floor, in days of 24
    hours, of the difference of the local midnights of their days: the
    difference of the local day numbers, corrected by the offsets of local
    time at the two midnights.  It is 0 for two instants of the same local
    day and differs from the calendar difference by 2 at most.  An
    argument that the engine does not parse gives NaN.  Where the offset
    of local time is constant it is the difference of the local day
    numbers: 0 exactly on the same local day, of opposite sign when the
    arguments are swapped, adding up over a middle date, and equal to the
    difference of the keys of the two dates (years 1000..9999) read in any
    zone of constant offset.  In New York the keys of 12 and 11 March 2024
    are 0 days apart. *)
Theorem X3_days_difference_of_dates a b :
  getDaysDifference host (OfDate a) (OfDate b)
  = Some (midnightGap host (Day (LocalTime host a)) (Day (LocalTime host b)))
  /\ (Day (LocalTime host a) = Day (LocalTime host b) ->
        getDaysDifference host (OfDate a) (OfDate b) = Some 0)
  /\ (offsetsBounded host ->
        forall x, getDaysDifference host (OfDate a) (OfDate b) = Some x ->
        Day (LocalTime host a) - Day (LocalTime host b) - 2 <= x
        <= Day (LocalTime host a) - Day (LocalTime host b) + 1)
  /\ (forall s other, DateParse (parseOther host) s = None ->
        getDaysDifference host (OfString s) other = None
        /\ getDaysDifference host other (OfString s) = None)
  /\ (forall tz, fixedOffset host tz ->
        getDaysDifference host (OfDate a) (OfDate b)
        = Some (Day (LocalTime host a) - Day (LocalTime host b))
        /\ (getDaysDifference host (OfDate a) (OfDate b) = Some 0
            <-> Day (LocalTime host a) = Day (LocalTime host b))
        /\ (forall x, getDaysDifference host (OfDate a) (OfDate b) = Some x ->
              getDaysDifference host (OfDate b) (OfDate a) = Some (- x))
        /\ (forall c x y, getDaysDifference host (OfDate a) (OfDate b) = Some x ->
              getDaysDifference host (OfDate b) (OfDate c) = Some y ->
              getDaysDifference host (OfDate a) (OfDate c) = Some (x + y))
        /\ (forall host' tz', fixedOffset host' tz' ->
              1000 <= getFullYear host a <= 9999 -> 1000 <= getFullYear host b <= 9999 ->
              getDaysDifference host' (OfString (getDateKey host a))
                (OfString (getDateKey host b))
              = getDaysDifference host (OfDate a) (OfDate b)))
  /\ getDaysDifference newYork (OfString "2024-03-12") (OfString "2024-03-11") = Some 0
  /\ getDaysDifference newYork (OfString "2024-03-11") (OfString "2024-03-10") = Some 1.
Proof.
  rewrite !getDaysDifference_local.
  split; [reflexivity | ]. split; [ | split; [ | split; [ | split; [ | split]]]].
  - intros ->. now rewrite midnightGap_same.
  - intros B x [= <-]. now apply midnightGap_bounds.
  - intros s other Hs. unfold getDaysDifference, newDate. rewrite Hs.
    split; [reflexivity | ].
    now destruct other as [s' | d]; [destruct (DateParse (parseOther host) s') | ].
  - intros tz F. rewrite !(midnightGap_fixed host tz) by assumption.
    split; [reflexivity | ]. split; [ | split; [ | split]].
    + split; [intros [= E]; lia | intros ->; f_equal; lia].
    + intros x [= <-]. f_equal. lia.
    + intros c x y [= <-]. rewrite !getDaysDifference_local.
      rewrite !(midnightGap_fixed host tz) by assumption.
      intros [= <-]. f_equal. lia.
    + intros host' tz' F' H1 H2.
      rewrite (getDaysDifference_keys_fixed host' tz') by
        (try assumption; now apply getDateKey_isDateKey).
      now rewrite !keyDay_getDateKey by assumption.
  - vm_compute. reflexivity.
  - vm_compute. reflexivity.
Qed.

End DateKeys.

(** ** What [calculateStreaks] depends on *)

Section StreakInputs.
Import ES Str ESFacts StrFacts KeyFacts SortFacts RangeFacts.
Variable host : Host.

Lemma gapContinues_weekly h h' a b :
  isWeekly h = isWeekly h' -> gapContinues host h a b = gapContinues host h' a b.
Proof. unfold gapContinues, isWeekly. intros ->. reflexivity. Qed.

Lemma extendRun_weekly h h' l n : forall j temp,
  isWeekly h = isWeekly h' -> extendRun host h l n j temp = extendRun host h' l n j temp.
Proof.
  induction n as [ | n IH]; intros j temp E; [reflexivity | ].
  cbn [extendRun]. destruct (l !! j) as [dj | ]; [ | reflexivity].
  destruct (l !! (j - 1)%nat) as [dj1 | ]; [ | reflexivity].
  rewrite (gapContinues_weekly h h') by assumption.
  destruct (gapContinues host h' dj dj1); [now apply IH | reflexivity].
Qed.

Lemma scanRuns_weekly h h' l n : forall i longest,
  isWeekly h = isWeekly h' -> scanRuns host h l n i longest = scanRuns host h' l n i longest.
Proof.
  induction n as [ | n IH]; intros i longest E; [reflexivity | ].
  cbn [scanRuns]. rewrite (extendRun_weekly h h') by assumption. now apply IH.
Qed.

Lemma calculateStreaks_weekly fuel now h h' (c : gmap string bool) ref :
  isWeekly h = isWeekly h' ->
  calculateStreaks host fuel now h c ref = calculateStreaks host fuel now h' c ref.
Proof.
  intros E. unfold calculateStreaks.
  destruct (length (rev (sort (ObjectKeys c))) =? 0)%nat; [reflexivity | ].
  destruct (currentWalk host fuel c _ 0) as [cur | ]; [ | reflexivity].
  now rewrite (scanRuns_weekly h h').
Qed.

(** X4. Of the habit, [calculateStreaks] reads only whether its frequency
    is the string [weekly]: two habits that agree on this get the same
    streaks from the same map, whatever their selected days, difficulty,
    creation date or cached values. *)
Theorem X4_only_the_weekly_flag fuel now h h' (c : gmap string bool) ref :
  isWeekly h = isWeekly h' ->
  calculateStreaks host fuel now h c ref = calculateStreaks host fuel now h' c ref.
Proof. apply calculateStreaks_weekly. Qed.

Lemma extendRun_ge h l n : forall j temp, temp <= extendRun host h l n j temp.
Proof.
  induction n as [ | n IH]; intros j temp; cbn [extendRun]; [lia | ].
  destruct (l !! j) as [dj | ]; [ | lia].
  destruct (l !! (j - 1)%nat) as [dj1 | ]; [ | lia].
  destruct (gapContinues host h dj dj1); [ | lia].
  specialize (IH (S j) (temp + 1)). lia.
Qed.

Lemma extendRun_mono h h' l n : forall j temp,
  isWeekly h = false -> extendRun host h l n j temp <= extendRun host h' l n j temp.
Proof.
  induction n as [ | n IH]; intros j temp E; cbn [extendRun]; [lia | ].
  destruct (l !! j) as [dj | ]; [ | lia].
  destruct (l !! (j - 1)%nat) as [dj1 | ]; [ | lia].
  destruct (gapContinues host h dj dj1) eqn:G.
  - assert (G' : gapContinues host h' dj dj1 = true).
    { unfold gapContinues, isWeekly in *. rewrite E in G. cbn [andb] in G.
      rewrite orb_false_r in G. now rewrite G. }
    rewrite G'. now apply IH.
  - destruct (gapContinues host h' dj dj1); [ | lia].
    pose proof (extendRun_ge h' l n (S j) (temp + 1)). lia.
Qed.

Lemma scanRuns_mono h h' l n : forall i a b,
  isWeekly h = false -> a <= b -> scanRuns host h l n i a <= scanRuns host h' l n i b.
Proof.
  induction n as [ | n IH]; intros i a b E Hab; cbn [scanRuns]; [lia | ].
  apply IH; [assumption | ].
  pose proof (extendRun_mono h h' l (length l - (i + 1)) (i + 1) 1 E). lia.
Qed.

(** X5. The current streak does not depend on the frequency at all, and a
    habit that is not weekly never gets a longer longest streak than any
    other habit on the same map and reference date: the tolerance of
    seven days can only lengthen runs. *)
Theorem X5_weekly_never_shorter fuel now h h' (c : gmap string bool) ref s :
  isWeekly h = false ->
  calculateStreaks host fuel now h c ref = Some s ->
  exists s', calculateStreaks host fuel now h' c ref = Some s'
    /\ currentStreak s' = currentStreak s
    /\ longestStreak s <= longestStreak s'.
Proof.
  unfold calculateStreaks. intros E H.
  destruct (length (rev (sort (ObjectKeys c))) =? 0)%nat.
  - injection H as <-. eexists. split; [reflexivity | ]. cbn. lia.
  - destruct (currentWalk host fuel c _ 0) as [cur | ]; [ | discriminate].
    injection H as <-. eexists. split; [reflexivity | ].
    cbn [currentStreak longestStreak]. split; [reflexivity | ].
    pose proof (scanRuns_mono h h' (sort (ObjectKeys c))
                  (length (sort (ObjectKeys c))) 0 0 0 E ltac:(lia)). lia.
Qed.

Lemma LocalDay_prev t t' :
  zoneOk host ->
  Day (LocalTime host t) = Day (LocalTime host t') ->
  Day (LocalTime host (setDate host t (getDate host t - 1)))
  = Day (LocalTime host (setDate host t' (getDate host t' - 1))).
Proof.
  intros Z1 E. rewrite !Day_setDate_prev by assumption. now rewrite E.
Qed.

Lemma currentWalk_local_day (c : gmap string bool) fuel : zoneOk host -> forall t t' cs,
  Day (LocalTime host t) = Day (LocalTime host t') ->
  currentWalk host fuel c t cs = currentWalk host fuel c t' cs.
Proof.
  intros Z1. induction fuel as [ | fuel IH]; intros t t' cs E; [reflexivity | ].
  cbn [currentWalk]. rewrite (getDateKey_Day host host t t' E).
  destruct (truthy (c !! getDateKey host t')); [ | reflexivity].
  destruct (cs + 1 >? 365); [reflexivity | ].
  apply IH. now apply LocalDay_prev.
Qed.

(** X6. Of the reference date (or of the clock, when none is given)
    [calculateStreaks] uses the local calendar day only: two instants of
    the same local day give the same result, in every zone that
    satisfies [zoneOk]. *)
Theorem X6_reference_day_only fuel now now' h (c : gmap string bool) ref ref' :
  zoneOk host ->
  Day (LocalTime host (default now ref)) = Day (LocalTime host (default now' ref')) ->
  calculateStreaks host fuel now h c ref = calculateStreaks host fuel now' h c ref'.
Proof.
  intros Z1 E. unfold calculateStreaks.
  destruct (length (rev (sort (ObjectKeys c))) =? 0)%nat; [reflexivity | ].
  replace (match ref with Some d => d | None => now end) with (default now ref)
    by now destruct ref.
  replace (match ref' with Some d => d | None => now' end) with (default now' ref')
    by now destruct ref'.
  now rewrite (currentWalk_local_day c fuel Z1 _ _ 0 E).
Qed.

(** X7. On a well-formed map both streaks are at most the number of
    completions, and the longest streak is the larger of the current
    streak and the longest run that the test of the code finds in the
    sorted keys.  Where the offset of local time is constant the longest
    streak is the longest run of calendar days as such: the final maximum
    with the current streak never changes it, because the days of the walk
    form a run. *)
Theorem X7_streaks_within_completions fuel now h (c : gmap string bool) ref :
  zoneOk host -> wf_completions c -> (366 <= fuel)%nat ->
  exists s, calculateStreaks host fuel now h c ref = Some s
    /\ longestStreak s
       = Z.max (longestRun (gapContinues host h) (sortedKeys c)) (currentStreak s)
    /\ currentStreak s <= longestStreak s <= Z.of_nat (size c)
    /\ (forall tz, fixedOffset host tz ->
          longestStreak s = spec_longestRun (isWeekly h) (sortedKeys c)).
Proof.
  intros Z1 W Hf.
  destruct (calculateStreaks_spec host fuel now h c ref Z1 W Hf)
    as (cur & Hc & Hb & P & _).
  eexists. split; [exact Hc | ]. cbn [currentStreak longestStreak].
  split; [reflexivity | ].
  pose proof (longestRun_le (gapContinues host h) (sortedKeys c)) as U.
  rewrite (sortedKeys_length c) in U.
  pose proof (run_size c _ cur W ltac:(lia) P) as S.
  split; [lia | ].
  intros tz F.
  pose proof (calculateStreaks_longest_fixed host tz _ _ _ _ _ _ F W Hc) as L.
  cbn [currentStreak longestStreak] in L. rewrite L.
  pose proof (spec_longestRun_nonneg (isWeekly h) (sortedKeys c)) as N.
  assert (G : cur <= spec_longestRun (isWeekly h) (sortedKeys c)); [ | lia].
  destruct (Z.eq_dec cur 0) as [-> | Hne]; [exact N | ].
  apply (spec_longestRun_ge (isWeekly h) (sortedKeys c) _ cur
           (sortedKeys_chronological c W) ltac:(lia)
           (run_daysPresent c _ cur W P)).
Qed.

(** The current streak is 0 exactly when the key of the reference date is
    not truthy in the map. *)
Lemma currentStreak_zero fuel now h (c : gmap string bool) ref s :
  calculateStreaks host fuel now h c ref = Some s ->
  currentStreak s = 0 <-> truthy (c !! getDateKey host (default now ref)) = false.
Proof.
  unfold calculateStreaks. intros H.
  destruct (length (rev (sort (ObjectKeys c))) =? 0)%nat eqn:L.
  - apply Nat.eqb_eq in L.
    rewrite length_rev, sort_length, ObjectKeys_length in L.
    apply map_size_empty_iff in L as ->. injection H as <-.
    rewrite lookup_empty. split; reflexivity.
  - replace (match ref with Some d => d | None => now end) with (default now ref) in H
      by now destruct ref.
    destruct fuel as [ | fuel]; [discriminate | ]. cbn [currentWalk] in H.
    destruct (truthy (c !! getDateKey host (default now ref))).
    + split; [ | discriminate]. intros Z0. exfalso.
      destruct (0 + 1 >? 365) eqn:G; [discriminate G | ].
      destruct (currentWalk host fuel c _ (0 + 1)) as [cur | ] eqn:Wk; [ | discriminate].
      injection H as <-. cbn [currentStreak] in Z0.
      apply currentWalk_ge in Wk. lia.
    + injection H as <-. split; reflexivity.
Qed.

(** X8. Whatever the map holds, the current streak is 0 exactly when the
    key of the reference date is not truthy in it, and at least 1
    otherwise. *)
Theorem X8_current_streak_zero fuel now h (c : gmap string bool) ref s :
  calculateStreaks host fuel now h c ref = Some s ->
  (currentStreak s = 0 <-> truthy (c !! getDateKey host (default now ref)) = false)
  /\ (truthy (c !! getDateKey host (default now ref)) = true -> 1 <= currentStreak s).
Proof.
  intros H. pose proof (currentStreak_zero fuel now h c ref s H) as Z0.
  split; [exact Z0 | ]. intros T.
  pose proof (calculateStreaks_ok host fuel now h c ref s H) as (P & _).
  destruct (Z.eq_dec (currentStreak s) 0) as [E | N]; [ | lia].
  apply Z0 in E. rewrite T in E. discriminate E.
Qed.

End StreakInputs.

(** ** The habit commands on the state of the user *)

Section Commands.
Import ES Str ESFacts StrFacts KeyFacts SortFacts RangeFacts IsoFacts.
Variable host : Host.

Lemma findHabit_Some habitId l h :
  findHabit habitId l = Some h -> h ∈ l /\ h_id h = habitId.
Proof.
  unfold findHabit. intros H. apply find_some in H as [Hin He].
  split; [now apply list_elem_of_In | now apply String.eqb_eq].
Qed.

Lemma findHabit_None habitId l :
  findHabit habitId l = None <-> forall h, h ∈ l -> h_id h <> habitId.
Proof.
  unfold findHabit. split.
  - intros H h Hin E. apply list_elem_of_In in Hin.
    pose proof (find_none _ _ H h Hin) as N. cbn in N.
    apply String.eqb_neq in N. contradiction.
  - intros H. induction l as [ | x l IH]; [reflexivity | ]. cbn [find].
    destruct (String.eqb_spec (h_id x) habitId) as [E | N].
    + exfalso. apply (H x); [left | exact E].
    + apply IH. intros h Hin. apply H. now right.
Qed.

Lemma applyUpdates_id h U : h_id (applyUpdates h U) = h_id h.
Proof. reflexivity. Qed.

Lemma findHabit_updateHabit u habitId U h :
  findHabit habitId (habits u) = Some h ->
  findHabit habitId (habits (updateHabit u habitId U)) = Some (applyUpdates h U).
Proof.
  unfold updateHabit, findHabit. cbn [habits].
  induction (habits u) as [ | x l IH]; [discriminate | ].
  cbn [map find].
  destruct (String.eqb (h_id x) habitId) eqn:E.
  - intros [= ->]. rewrite applyUpdates_id, E. reflexivity.
  - rewrite E. exact IH.
Qed.

Lemma updateHabit_twice u habitId U1 U2 U3 :
  (forall h, applyUpdates (applyUpdates h U1) U2 = applyUpdates h U3) ->
  updateHabit (updateHabit u habitId U1) habitId U2 = updateHabit u habitId U3.
Proof.
  intros H. unfold updateHabit. cbn [habits user_id user_name moods reflections].
  f_equal. rewrite map_map. apply map_ext. intros h.
  destruct (String.eqb (h_id h) habitId) eqn:E.
  - rewrite applyUpdates_id, E. apply H.
  - now rewrite E.
Qed.

(** The result of a toggle on a habit that is found. *)
Lemma toggle_found fuel now u habitId date h :
  findHabit habitId (habits u) = Some h -> (366 <= fuel)%nat ->
  exists s,
    calculateStreaks host fuel now h
      (toggleCompletion (default ∅ (h_completions h)) (getDateKey host date)) (Some date)
    = Some s
    /\ toggleHabitCompletion host fuel now u habitId date
       = Some (updateHabit u habitId
                 (streakUpdates
                    (toggleCompletion (default ∅ (h_completions h)) (getDateKey host date)) s)).
Proof.
  intros Hf Hfuel. unfold toggleHabitCompletion. rewrite Hf.
  destruct (calculateStreaks_total host fuel now h
              (toggleCompletion (default ∅ (h_completions h)) (getDateKey host date))
              (Some date) Hfuel) as [s Hs].
  exists s. split; [exact Hs | ]. rewrite Hs. reflexivity.
Qed.

Lemma toggle_shape fuel now u habitId date u' :
  toggleHabitCompletion host fuel now u habitId date = Some u' ->
  u' = u \/ exists c s, u' = updateHabit u habitId (streakUpdates c s).
Proof.
  unfold toggleHabitCompletion. intros H.
  destruct (findHabit habitId (habits u)) as [h | ]; [ | left; now injection H as <-].
  destruct (calculateStreaks host fuel now h _ (Some date)) as [s | ]; [ | discriminate].
  right. injection H as <-. eexists _, s. reflexivity.
Qed.

(** X9. A toggle writes nothing but the completions and the two cached
    streaks of the habits with the given id: the user's name, moods and
    reflections, the order and ids of the habits, every habit of another
    id, and the name, frequency, selected days and creation date of
    every habit stay as they were; when no habit has the id, nothing is
    changed at all. *)
Theorem X9_toggle_touches_one_id fuel now u habitId date u' :
  toggleHabitCompletion host fuel now u habitId date = Some u' ->
  user_id u' = user_id u /\ user_name u' = user_name u
  /\ moods u' = moods u /\ reflections u' = reflections u
  /\ h_id <$> habits u' = h_id <$> habits u
  /\ (forall i h, habits u !! i = Some h -> h_id h <> habitId -> habits u' !! i = Some h)
  /\ (forall i h, habits u !! i = Some h ->
        exists h', habits u' !! i = Some h'
          /\ h_name h' = h_name h /\ h_description h' = h_description h
          /\ h_frequency h' = h_frequency h /\ h_selectedDays h' = h_selectedDays h
          /\ h_difficulty h' = h_difficulty h /\ h_createdAt h' = h_createdAt h)
  /\ ((forall h, h ∈ habits u -> h_id h <> habitId) -> u' = u).
Proof.
  intros H.
  assert (Last : (forall h, h ∈ habits u -> h_id h <> habitId) -> u' = u).
  { intros N. apply findHabit_None in N. unfold toggleHabitCompletion in H.
    rewrite N in H. now injection H as <-. }
  apply toggle_shape in H as [-> | (c & s & ->)].
  - do 5 (split; [reflexivity | ]). split; [intros i h Hi _; exact Hi | ].
    split; [ | exact Last]. intros i h Hi. exists h. repeat split. exact Hi.
  - unfold updateHabit at 1 2 3 4. cbn [user_id user_name moods reflections].
    do 4 (split; [reflexivity | ]). split; [ | split; [ | split; [ | exact Last]]].
    + unfold updateHabit. cbn [habits]. rewrite <- list_fmap_compose.
      apply list_fmap_ext. intros i h _. cbn [compose].
      now destruct (String.eqb (h_id h) habitId).
    + intros i h Hi N. unfold updateHabit. cbn [habits].
      rewrite list_lookup_fmap, Hi. cbn [fmap option_fmap option_map].
      apply String.eqb_neq in N. now rewrite N.
    + intros i h Hi. unfold updateHabit. cbn [habits].
      rewrite list_lookup_fmap, Hi. cbn [fmap option_fmap option_map].
      eexists. split; [reflexivity | ].
      destruct (String.eqb (h_id h) habitId); repeat split.
Qed.

Lemma truthy_toggled (c : gmap string bool) k :
  truthy (toggleCompletion c k !! k) = negb (truthy (c !! k)).
Proof.
  unfold toggleCompletion. destruct (truthy (c !! k)).
  - now rewrite lookup_delete_eq.
  - now rewrite lookup_insert_eq.
Qed.

(** X10. After a toggle the habit that is found under the id stores the
    flipped map together with the streaks that [calculateStreaks] gives
    for this very map, its own frequency and the toggled date: the cache
    is fresh.  Its current streak is 0 when the toggle removed the
    completion of that date and at least 1 when it added it. *)
Theorem X10_toggle_refreshes_cache fuel now u habitId date h :
  findHabit habitId (habits u) = Some h -> (366 <= fuel)%nat ->
  exists u' h',
    toggleHabitCompletion host fuel now u habitId date = Some u'
    /\ findHabit habitId (habits u') = Some h'
    /\ h_completions h'
       = Some (toggleCompletion (default ∅ (h_completions h)) (getDateKey host date))
    /\ calculateStreaks host fuel now h' (default ∅ (h_completions h')) (Some date)
       = Some (mkStreaks (h_currentStreak h') (h_longestStreak h'))
    /\ (hasCompletion (getDateKey host date) h = true -> h_currentStreak h' = 0)
    /\ (hasCompletion (getDateKey host date) h = false -> 1 <= h_currentStreak h').
Proof.
  intros Hf Hfuel.
  destruct (toggle_found fuel now u habitId date h Hf Hfuel) as (s & Hs & Ht).
  eexists _, _. split; [exact Ht | ].
  split; [exact (findHabit_updateHabit u habitId _ h Hf) | ].
  cbn [applyUpdates streakUpdates h_completions h_currentStreak h_longestStreak
       u_completions u_currentStreak u_longestStreak from_option id].
  split; [reflexivity | ]. split.
  - rewrite <- (calculateStreaks_weekly host fuel now h) by reflexivity.
    rewrite Hs. now destruct s.
  - pose proof (currentStreak_zero host fuel now h _ (Some date) s Hs) as Z0.
    cbn [from_option id] in Z0. rewrite truthy_toggled in Z0.
    pose proof (calculateStreaks_ok host fuel now h _ (Some date) s Hs) as (P & _).
    assert (E : hasCompletion (getDateKey host date) h
                = truthy (default ∅ (h_completions h) !! getDateKey host date)).
    { unfold hasCompletion. destruct (h_completions h); [reflexivity | ].
      cbn [from_option]. now rewrite lookup_empty. }
    rewrite E. split.
    + intros T. apply Z0. now rewrite T.
    + intros T. destruct (Z.eq_dec (currentStreak s) 0) as [E0 | N]; [ | lia].
      apply Z0 in E0. rewrite T in E0. discriminate E0.
Qed.

Lemma toggleCompletion_twice (c : gmap string bool) k :
  wf_completions c -> toggleCompletion (toggleCompletion c k) k = c.
Proof.
  intros W. unfold toggleCompletion.
  destruct (c !! k) as [b | ] eqn:E; cbn [truthy].
  - destruct (W k b E) as [_ ->].
    rewrite lookup_delete_eq. cbn [truthy].
    rewrite insert_delete_eq. now apply insert_id.
  - rewrite lookup_insert_eq. cbn [truthy].
    rewrite delete_insert_eq. now apply delete_id.
Qed.

(** X11. Two toggles of the same habit and date, one after the other on
    the state, give the user back with the habit's original completions;
    the cache of the habit then holds the streaks of that map at the
    toggled date (which is not always what it held before), and nothing
    else differs. *)
Theorem X11_toggle_twice_on_state fuel now u habitId date h :
  findHabit habitId (habits u) = Some h ->
  wf_completions (default ∅ (h_completions h)) -> (366 <= fuel)%nat ->
  exists u1 u2 s,
    toggleHabitCompletion host fuel now u habitId date = Some u1
    /\ toggleHabitCompletion host fuel now u1 habitId date = Some u2
    /\ calculateStreaks host fuel now h (default ∅ (h_completions h)) (Some date) = Some s
    /\ u2 = updateHabit u habitId (streakUpdates (default ∅ (h_completions h)) s).
Proof.
  intros Hf W Hfuel.
  destruct (toggle_found fuel now u habitId date h Hf Hfuel) as (s1 & Hs1 & Ht1).
  pose proof (findHabit_updateHabit u habitId
                (streakUpdates (toggleCompletion (default ∅ (h_completions h))
                                  (getDateKey host date)) s1) h Hf) as Hf1.
  destruct (toggle_found fuel now _ habitId date _ Hf1 Hfuel) as (s2 & Hs2 & Ht2).
  cbn [applyUpdates streakUpdates h_completions u_completions from_option id] in Hs2, Ht2.
  rewrite toggleCompletion_twice in Hs2, Ht2 by assumption.
  rewrite (calculateStreaks_weekly host fuel now _ h) in Hs2 by reflexivity.
  eexists _, _, s2. split; [exact Ht1 | ]. split; [exact Ht2 | ].
  split; [exact Hs2 | ].
  apply updateHabit_twice. intros x. reflexivity.
Qed.

Lemma completionsOk_updateHabit u habitId U :
  completionsOk u ->
  (forall c, u_completions U = Some c -> wf_completions c) ->
  completionsOk (updateHabit u habitId U).
Proof.
  unfold completionsOk, updateHabit. cbn [habits]. intros Hu HU.
  rewrite Forall_forall in Hu. apply Forall_forall. intros h' Hin.
  apply list_elem_of_In, in_map_iff in Hin as (h & <- & Hin).
  apply list_elem_of_In in Hin. specialize (Hu h Hin).
  destruct (String.eqb (h_id h) habitId); [ | exact Hu].
  unfold applyUpdates. cbn [h_completions].
  destruct (u_completions U) as [c | ]; [ | exact Hu].
  cbn [from_option id]. now apply HU.
Qed.

Lemma wf_toggleCompletion (c : gmap string bool) k :
  wf_completions c -> isDateKey k = true -> wf_completions (toggleCompletion c k).
Proof.
  intros W Hk. unfold toggleCompletion. destruct (truthy (c !! k)).
  - now apply map_Forall_delete.
  - apply map_Forall_insert_2; [now split | exact W].
Qed.

(** X12. The keys of all completion maps stay date keys under every
    command: adding, editing and deleting habits, setting a mood or a
    reflection, and toggling any date of the years 1000..9999.  A toggle
    that adds a date outside these years stores a key that is no date
    key. *)
Theorem X12_completions_stay_well_formed u :
  completionsOk u ->
  (forall newId now data, completionsOk (addHabit newId now u data))
  /\ (forall habitId data, completionsOk (updateHabit u habitId (formUpdates data)))
  /\ (forall habitId, completionsOk (deleteHabit u habitId))
  /\ (forall date mood, completionsOk (setMood host u date mood))
  /\ (forall date text, completionsOk (setReflection host u date text))
  /\ (forall fuel now habitId date u',
        1000 <= getFullYear host date <= 9999 ->
        toggleHabitCompletion host fuel now u habitId date = Some u' ->
        completionsOk u')
  /\ (forall fuel now habitId date u' h,
        ~ 1000 <= getFullYear host date <= 9999 ->
        findHabit habitId (habits u) = Some h ->
        hasCompletion (getDateKey host date) h = false ->
        toggleHabitCompletion host fuel now u habitId date = Some u' ->
        ~ completionsOk u').
Proof.
  intros Hu. split; [ | split; [ | split; [ | split; [ | split; [ | split]]]]].
  - intros newId now data. unfold completionsOk, addHabit. cbn [habits].
    apply Forall_app. split; [exact Hu | ]. constructor; [ | constructor].
    cbn [h_completions from_option id]. apply map_Forall_empty.
  - intros habitId data. apply completionsOk_updateHabit; [exact Hu | ].
    intros c [=].
  - intros habitId. unfold completionsOk, deleteHabit. cbn [habits].
    unfold completionsOk in Hu. rewrite Forall_forall in Hu. apply Forall_forall.
    intros h Hin. apply list_elem_of_filter in Hin as [_ Hin]. auto.
  - intros date mood. exact Hu.
  - intros date text. exact Hu.
  - intros fuel now habitId date u' Hy Ht. unfold toggleHabitCompletion in Ht.
    destruct (findHabit habitId (habits u)) as [h | ] eqn:Hf; [ | now injection Ht as <-].
    destruct (calculateStreaks host fuel now h _ (Some date)) as [s | ]; [ | discriminate].
    injection Ht as <-. apply completionsOk_updateHabit; [exact Hu | ].
    intros c [= <-]. apply wf_toggleCompletion; [ | now apply getDateKey_isDateKey].
    apply findHabit_Some in Hf as [Hin _].
    unfold completionsOk in Hu. rewrite Forall_forall in Hu. now apply Hu.
  - intros fuel now habitId date u' h Hy Hf Hc Ht Ok.
    unfold toggleHabitCompletion in Ht. rewrite Hf in Ht.
    destruct (calculateStreaks host fuel now h _ (Some date)) as [s | ]; [ | discriminate].
    injection Ht as <-.
    pose proof (findHabit_updateHabit u habitId
                  (streakUpdates (toggleCompletion (default ∅ (h_completions h))
                                    (getDateKey host date)) s) h Hf) as Hf'.
    apply findHabit_Some in Hf' as [Hin _].
    unfold completionsOk in Ok. rewrite Forall_forall in Ok. specialize (Ok _ Hin).
    cbn [applyUpdates h_completions u_completions from_option id] in Ok.
    assert (T : truthy (default ∅ (h_completions h) !! getDateKey host date) = false).
    { unfold hasCompletion in Hc. destruct (h_completions h); [exact Hc | ].
      cbn [from_option]. now rewrite lookup_empty. }
    unfold toggleCompletion in Ok. rewrite T in Ok.
    destruct (Ok (getDateKey host date) true (lookup_insert_eq _ _ _)) as [K _].
    apply Hy. now apply getDateKey_range.
Qed.

(** X13. Adding a habit under an id that no habit has and deleting that
    id again gives the user back; deleting removes every habit of the id
    and keeps the others in their order; deleting an id that no habit
    has changes nothing. *)
Theorem X13_add_then_delete u newId :
  (forall h, h ∈ habits u -> h_id h <> newId) ->
  (forall now data, deleteHabit (addHabit newId now u data) newId = u)
  /\ deleteHabit u newId = u
  /\ (forall habitId h, h ∈ habits (deleteHabit u habitId)
        <-> h ∈ habits u /\ h_id h <> habitId)
  /\ (forall habitId, sublist (habits (deleteHabit u habitId)) (habits u)).
Proof.
  intros Fresh.
  assert (Keep : filter (fun h => h_id h ≠ newId) (habits u) = habits u).
  { induction (habits u) as [ | x l IH]; [reflexivity | ].
    rewrite filter_cons. destruct (decide (h_id x ≠ newId)) as [_ | N].
    - f_equal. apply IH. intros h Hin. apply Fresh. now right.
    - exfalso. apply N, Fresh. left. }
  split; [ | split; [ | split]].
  - intros now data. destruct u as [uid uname hs ms rs].
    unfold deleteHabit, addHabit. cbn [user_id user_name habits moods reflections] in *.
    f_equal. rewrite filter_app, Keep. rewrite filter_cons. cbn [h_id].
    destruct (decide (newId ≠ newId)) as [N | _]; [contradiction | ].
    rewrite filter_nil. apply app_nil_r.
  - destruct u as [uid uname hs ms rs].
    unfold deleteHabit. cbn [user_id user_name habits moods reflections] in *.
    now rewrite Keep.
  - intros habitId h. unfold deleteHabit. cbn [habits].
    rewrite list_elem_of_filter. tauto.
  - intros habitId. unfold deleteHabit. cbn [habits]. apply sublist_filter.
Qed.

Lemma midnightGap_earlier D1 D2 :
  offsetsBounded host -> D1 <= D2 -> midnightGap host D1 D2 <= 0.
Proof.
  intros B Hd. destruct (Z.eq_dec D1 D2) as [-> | Hne].
  - now rewrite midnightGap_same.
  - pose proof (midnightGap_bounds host D1 D2 B). lia.
Qed.

Lemma getHabitStats_new newId now u data now' h :
  0 <= YearFromTime now <= 9999 ->
  midnightGap host (Day (LocalTime host now')) (Day (LocalTime host now)) <= 0 ->
  h ∈ habits (addHabit newId now u data) -> h ∉ habits u ->
  getHabitStats host now' h = mkStats 0 "0.0" 0 0.
Proof.
  intros Hy Hd Hin Hnot. unfold addHabit in Hin. cbn [habits] in Hin.
  apply elem_of_app in Hin as [Hin | Hin]; [contradiction | ].
  apply list_elem_of_singleton in Hin as ->.
  unfold getHabitStats.
  cbn [h_completions h_createdAt h_currentStreak h_longestStreak from_option id newDate].
  rewrite DateParse_toISOString by assumption.
  rewrite getDaysDifference_local, (@ObjectKeys_empty bool).
  cbn [length Z.of_nat].
  destruct (Z.gtb_spec
              (midnightGap host (Day (LocalTime host now')) (Day (LocalTime host now))) 0);
    [lia | ].
  reflexivity.
Qed.

(** X14. A habit just created has, for the rest of the local day of its
    creation, the statistics [0] completions, rate [0.0] and streaks 0,
    and so it has on every earlier local day where the offsets of local
    time are below 24 hours; more generally a habit whose [createdAt] the
    engine does not parse has rate [0.0]. *)
Theorem X14_stats_of_a_new_habit newId now u data now' :
  0 <= YearFromTime now <= 9999 ->
  (Day (LocalTime host now') = Day (LocalTime host now) ->
   forall h, h ∈ habits (addHabit newId now u data) -> h ∉ habits u ->
     getHabitStats host now' h = mkStats 0 "0.0" 0 0)
  /\ (offsetsBounded host -> Day (LocalTime host now') <= Day (LocalTime host now) ->
      forall h, h ∈ habits (addHabit newId now u data) -> h ∉ habits u ->
        getHabitStats host now' h = mkStats 0 "0.0" 0 0)
  /\ (forall h, DateParse (parseOther host) (h_createdAt h) = None ->
        completionRate (getHabitStats host now' h) = "0.0"%string)
  /\ (forall h, totalCompletions (getHabitStats host now' h)
                = Z.of_nat (size (default ∅ (h_completions h)))
                /\ stats_currentStreak (getHabitStats host now' h) = h_currentStreak h
                /\ stats_longestStreak (getHabitStats host now' h) = h_longestStreak h).
Proof.
  intros Hy. split; [ | split; [ | split]].
  - intros E h Hin Hnot. apply (getHabitStats_new newId now u data); try assumption.
    rewrite E, midnightGap_same. lia.
  - intros B Hd h Hin Hnot. apply (getHabitStats_new newId now u data); try assumption.
    now apply midnightGap_earlier.
  - intros h Hp. unfold getHabitStats. cbn [completionRate newDate]. rewrite Hp.
    reflexivity.
  - intros h. unfold getHabitStats.
    cbn [totalCompletions stats_currentStreak stats_longestStreak].
    now rewrite ObjectKeys_length.
Qed.

End Commands.

(** ** Moods, reflections and the counts of the dashboard *)

Section Dashboard.
Import ES Str ESFacts StrFacts KeyFacts SortFacts RangeFacts.
Variable host : Host.

(** X15. A mood set on a date is what the dashboard reads on every
    instant of the same local day; the moods of the days with another key
    and all habits and reflections are untouched, and a second mood set
    on the same day replaces the first.  The same holds of reflections. *)
Theorem X15_mood_and_reflection_round_trip u date :
  (forall mood d', Day (LocalTime host d') = Day (LocalTime host date) ->
     currentMood host (setMood host u date mood) d' = Some mood)
  /\ (forall mood d', getDateKey host d' <> getDateKey host date ->
        currentMood host (setMood host u date mood) d' = currentMood host u d')
  /\ (forall mood mood' d', Day (LocalTime host d') = Day (LocalTime host date) ->
        setMood host (setMood host u date mood) d' mood' = setMood host u date mood')
  /\ (forall mood, habits (setMood host u date mood) = habits u
                   /\ reflections (setMood host u date mood) = reflections u)
  /\ (forall text d', Day (LocalTime host d') = Day (LocalTime host date) ->
        currentReflection host (setReflection host u date text) d' = text)
  /\ (forall text d', getDateKey host d' <> getDateKey host date ->
        currentReflection host (setReflection host u date text) d'
        = currentReflection host u d')
  /\ (forall text, habits (setReflection host u date text) = habits u
                   /\ moods (setReflection host u date text) = moods u).
Proof.
  split; [ | split; [ | split; [ | split; [ | split; [ | split]]]]].
  - intros mood d' E. unfold currentMood, setMood. cbn [moods].
    rewrite (getDateKey_Day host host d' date E). apply lookup_insert_eq.
  - intros mood d' N. unfold currentMood, setMood. cbn [moods].
    now apply lookup_insert_ne.
  - intros mood mood' d' E. unfold setMood.
    cbn [user_id user_name habits moods reflections].
    rewrite (getDateKey_Day host host d' date E). f_equal. apply insert_insert_eq.
  - intros mood. split; reflexivity.
  - intros text d' E. unfold currentReflection, setReflection. cbn [reflections].
    rewrite (getDateKey_Day host host d' date E), lookup_insert_eq.
    now destruct (String.eqb_spec text EmptyString) as [-> | _].
  - intros text d' N. unfold currentReflection, setReflection. cbn [reflections].
    now rewrite lookup_insert_ne.
  - intros text. split; reflexivity.
Qed.

Lemma getDateKey_of_fields t :
  zoneOk host ->
  1000 <= getFullYear host t <= 9999 ->
  getDateKey host (newDateYMD host (getFullYear host t) (getMonth host t) (getDate host t))
  = getDateKey host t.
Proof.
  intros Z1 Hy.
  pose proof (MonthFromTime_bounds (LocalTime host t)).
  pose proof (DateFromTime_bounds (LocalTime host t)).
  rewrite getDateKey_newDateYMD
    by (try assumption; unfold getFullYear, getMonth, getDate in *; lia).
  symmetry. now apply getDateKey_isoDate.
Qed.

(** X16. In the calendar of the month of a date (years 1000..9999; a
    zone that satisfies [zoneOk]), the cell of the
    date's day of the month reads the data under the date's own key: it shows the mood and the reflection set on that date and
    counts the habits completed on it; its total is the number of
    habits, which bounds the count. *)
Theorem X16_calendar_cell_of_a_date u date :
  zoneOk host ->
  1000 <= getFullYear host date <= 9999 ->
  (forall mood, dd_mood (getDayData host (setMood host u date mood) date (getDate host date))
                = Some mood)
  /\ (forall text,
        dd_hasReflection (getDayData host (setReflection host u date text) date
                            (getDate host date)) = Some text)
  /\ dd_mood (getDayData host u date (getDate host date)) = currentMood host u date
  /\ completedHabits (getDayData host u date (getDate host date))
     = Z.of_nat (length (List.filter (hasCompletion (getDateKey host date)) (habits u)))
  /\ (forall day, 0 <= completedHabits (getDayData host u date day)
                  <= totalHabits (getDayData host u date day))
  /\ (forall day, totalHabits (getDayData host u date day) = Z.of_nat (length (habits u))).
Proof.
  intros Z1 Hy. pose proof (getDateKey_of_fields date Z1 Hy) as K.
  unfold getDayData. cbn [dd_mood dd_hasReflection completedHabits totalHabits].
  rewrite K. unfold setMood, setReflection, currentMood. cbn [moods reflections].
  split; [intros mood; apply lookup_insert_eq | ].
  split; [intros text; apply lookup_insert_eq | ].
  split; [reflexivity | ]. split; [reflexivity | ].
  split; [ | reflexivity].
  intros day. pose proof (filter_length (hasCompletion
    (getDateKey host (newDateYMD host (getFullYear host date) (getMonth host date) day)))
    (habits u)). lia.
Qed.

(** Counting after an update of the one habit of an id. *)
Lemma count_after_update (P : Habit -> bool) (g : Habit -> Habit) habitId :
  forall l h,
  NoDup (h_id <$> l) -> findHabit habitId l = Some h ->
  (forall x, h_id (g x) = h_id x) ->
  Z.of_nat (length (List.filter P
     (map (fun x => if String.eqb (h_id x) habitId then g x else x) l)))
  + (if P h then 1 else 0)
  = Z.of_nat (length (List.filter P l)) + (if P (g h) then 1 else 0).
Proof.
  induction l as [ | x l IH]; intros h ND Hf Hg; [discriminate | ].
  cbn [fmap list_fmap] in ND. apply NoDup_cons in ND as [Hx ND].
  unfold findHabit in Hf. cbn [find] in Hf. cbn [map List.filter].
  destruct (String.eqb_spec (h_id x) habitId) as [E | N].
  - injection Hf as <-.
    assert (Same : map (fun y => if String.eqb (h_id y) habitId then g y else y) l = l).
    { rewrite <- (map_id l) at 2. apply map_ext_in. intros y Hy.
      destruct (String.eqb_spec (h_id y) habitId) as [E' | _]; [ | reflexivity].
      exfalso. apply Hx. rewrite E, <- E'. apply list_elem_of_fmap.
      exists y. split; [reflexivity | now apply list_elem_of_In]. }
    rewrite Same. destruct (P x), (P (g x)); cbn [length]; lia.
  - specialize (IH h ND Hf Hg). destruct (P x); cbn [length]; lia.
Qed.

Lemma filter_both {A} (P Q : A -> bool) l :
  List.filter P (List.filter Q l) = List.filter (fun x => P x && Q x) l.
Proof.
  induction l as [ | x l IH]; [reflexivity | ]. cbn [List.filter].
  destruct (Q x); cbn [List.filter]; rewrite ?andb_true_r, ?andb_false_r;
    [destruct (P x) | ]; now rewrite IH.
Qed.

Lemma hasCompletion_truthy k h :
  hasCompletion k h = truthy (default ∅ (h_completions h) !! k).
Proof.
  unfold hasCompletion. destruct (h_completions h); [reflexivity | ].
  cbn [from_option]. now rewrite lookup_empty.
Qed.

(** X17. On the dashboard the number of completed habits of the selected
    date never exceeds the number of habits due, which never exceeds the
    number of habits.  When the ids are distinct, toggling a habit that
    is due on the selected date changes the completed count by exactly
    one (up if the date was open, down if it was completed) and leaves
    the number due as it was. *)
Theorem X17_dashboard_counts_follow_toggle fuel now u habitId selectedDate h :
  uniqueIds u -> findHabit habitId (habits u) = Some h -> (366 <= fuel)%nat ->
  todayHabitsFilter host selectedDate h = true ->
  0 <= completedToday host u selectedDate <= totalToday host u selectedDate
  /\ totalToday host u selectedDate <= Z.of_nat (length (habits u))
  /\ exists u',
       toggleHabitCompletion host fuel now u habitId selectedDate = Some u'
       /\ totalToday host u' selectedDate = totalToday host u selectedDate
       /\ completedToday host u' selectedDate
          = completedToday host u selectedDate
            + (if hasCompletion (getDateKey host selectedDate) h then -1 else 1).
Proof.
  intros ND Hf Hfuel Due.
  unfold completedToday, totalToday, todayHabits.
  pose proof (filter_length (hasCompletion (getDateKey host selectedDate))
                (List.filter (todayHabitsFilter host selectedDate) (habits u))) as A.
  pose proof (filter_length (todayHabitsFilter host selectedDate) (habits u)) as B.
  split; [lia | ]. split; [lia | ].
  destruct (toggle_found host fuel now u habitId selectedDate h Hf Hfuel) as (s & Hs & Ht).
  eexists. split; [exact Ht | ].
  set (U := streakUpdates _ s).
  unfold updateHabit. cbn [habits].
  assert (F : forall x, todayHabitsFilter host selectedDate (applyUpdates x U)
                        = todayHabitsFilter host selectedDate x) by reflexivity.
  split.
  - pose proof (count_after_update (todayHabitsFilter host selectedDate)
                  (fun x => applyUpdates x U) habitId (habits u) h ND Hf
                  (fun x => eq_refl)) as C.
    cbv beta in C. rewrite F in C. lia.
  - rewrite !filter_both.
    pose proof (count_after_update
                  (fun x => hasCompletion (getDateKey host selectedDate) x
                            && todayHabitsFilter host selectedDate x)
                  (fun x => applyUpdates x U) habitId (habits u) h ND Hf
                  (fun x => eq_refl)) as C.
    cbv beta in C. rewrite F, Due, !andb_true_r in C.
    assert (T : hasCompletion (getDateKey host selectedDate) (applyUpdates h U)
                = negb (hasCompletion (getDateKey host selectedDate) h)).
    { rewrite !hasCompletion_truthy. unfold U.
      cbn [applyUpdates streakUpdates h_completions u_completions from_option id].
      apply truthy_toggled. }
    rewrite T in C.
    destruct (hasCompletion (getDateKey host selectedDate) h); cbn [negb] in C; lia.
Qed.

End Dashboard.

(** ** The best habit and the quote of the day *)

Section BestAndQuote.
Import ES Str ESFacts StrFacts KeyFacts SortFacts RangeFacts.
Variable host : Host.

(** One round of the [reduce] of [getBestHabit]. *)
Lemma best_round now (done : list Habit) best x :
  match best with
  | None => forall h, h ∈ done -> h_currentStreak h <= 0
  | Some b => exists pre post, done = pre ++ b :: post /\ 0 < h_currentStreak b
      /\ (forall h, h ∈ pre -> h_currentStreak h < h_currentStreak b)
      /\ (forall h, h ∈ post -> h_currentStreak h <= h_currentStreak b)
  end ->
  match (if stats_currentStreak (getHabitStats host now x)
            >? match best with
               | Some b => stats_currentStreak (getHabitStats host now b)
               | None => 0
               end
         then Some x else best) with
  | None => forall h, h ∈ done ++ [x] -> h_currentStreak h <= 0
  | Some b => exists pre post, done ++ [x] = pre ++ b :: post /\ 0 < h_currentStreak b
      /\ (forall h, h ∈ pre -> h_currentStreak h < h_currentStreak b)
      /\ (forall h, h ∈ post -> h_currentStreak h <= h_currentStreak b)
  end.
Proof.
  change (stats_currentStreak (getHabitStats host now x)) with (h_currentStreak x).
  destruct best as [b | ].
  - change (stats_currentStreak (getHabitStats host now b)) with (h_currentStreak b).
    intros (pre & post & -> & Pos & Hpre & Hpost).
    destruct (Z.gtb_spec (h_currentStreak x) (h_currentStreak b)) as [G | G].
    + exists (pre ++ b :: post), []. split; [reflexivity | ]. split; [lia | ].
      split; [ | intros h Hin; now apply elem_of_nil in Hin].
      intros h Hin. apply elem_of_app in Hin as [Hin | Hin].
      * specialize (Hpre h Hin). lia.
      * apply elem_of_cons in Hin as [-> | Hin]; [lia | ].
        specialize (Hpost h Hin). lia.
    + exists pre, (post ++ [x]). split; [now rewrite <- app_assoc | ].
      split; [exact Pos | ]. split; [exact Hpre | ].
      intros h Hin. apply elem_of_app in Hin as [Hin | Hin]; [now apply Hpost | ].
      apply list_elem_of_singleton in Hin as ->. lia.
  - intros Hdone.
    destruct (Z.gtb_spec (h_currentStreak x) 0) as [G | G].
    + exists done, []. split; [reflexivity | ]. split; [lia | ].
      split; [ | intros h Hin; now apply elem_of_nil in Hin].
      intros h Hin. specialize (Hdone h Hin). lia.
    + intros h Hin. apply elem_of_app in Hin as [Hin | Hin]; [now apply Hdone | ].
      apply list_elem_of_singleton in Hin as ->. lia.
Qed.

Lemma best_fold now l : forall (done : list Habit) best,
  match best with
  | None => forall h, h ∈ done -> h_currentStreak h <= 0
  | Some b => exists pre post, done = pre ++ b :: post /\ 0 < h_currentStreak b
      /\ (forall h, h ∈ pre -> h_currentStreak h < h_currentStreak b)
      /\ (forall h, h ∈ post -> h_currentStreak h <= h_currentStreak b)
  end ->
  match fold_left
          (fun best habit =>
             let stats := getHabitStats host now habit in
             let bestStreak :=
               match best with
               | Some b => stats_currentStreak (getHabitStats host now b)
               | None => 0
               end in
             if stats_currentStreak stats >? bestStreak then Some habit else best)
          l best with
  | None => forall h, h ∈ done ++ l -> h_currentStreak h <= 0
  | Some b => exists pre post, done ++ l = pre ++ b :: post /\ 0 < h_currentStreak b
      /\ (forall h, h ∈ pre -> h_currentStreak h < h_currentStreak b)
      /\ (forall h, h ∈ post -> h_currentStreak h <= h_currentStreak b)
  end.
Proof.
  induction l as [ | x l IH]; intros done best Inv.
  - cbn [fold_left]. rewrite app_nil_r. exact Inv.
  - cbn [fold_left]. cbv zeta.
    replace (done ++ x :: l) with ((done ++ [x]) ++ l) by now rewrite <- app_assoc.
    apply IH. now apply best_round.
Qed.

Lemma bestStreak_fold l : forall a,
  a <= fold_left (fun max h => Z.max max (h_currentStreak h)) l a
  /\ (forall h, h ∈ l ->
        h_currentStreak h <= fold_left (fun max h => Z.max max (h_currentStreak h)) l a)
  /\ (fold_left (fun max h => Z.max max (h_currentStreak h)) l a = a
      \/ exists h, h ∈ l
           /\ fold_left (fun max h => Z.max max (h_currentStreak h)) l a
              = h_currentStreak h).
Proof.
  induction l as [ | x l IH]; intros a; cbn [fold_left].
  - split; [lia | ]. split; [ | now left].
    intros h Hin. now apply elem_of_nil in Hin.
  - destruct (IH (Z.max a (h_currentStreak x))) as (A & B & C).
    split; [lia | ]. split.
    + intros h Hin. apply elem_of_cons in Hin as [-> | Hin]; [lia | now apply B].
    + destruct C as [C | (h & Hin & C)].
      * rewrite C. destruct (Z.max_spec a (h_currentStreak x)) as [[_ E] | [_ E]];
          rewrite E; [right; exists x; split; [left | reflexivity] | now left].
      * right. exists h. split; [now right | exact C].
Qed.

(** X18. [getBestHabit] returns the first habit that has the largest
    cached current streak, provided that streak is positive; it returns
    [null] exactly when no habit has a positive one (in particular
    without habits or without a user).  The streak of the habit returned
    is the number on the "Best Streak" card. *)
Theorem X18_best_habit_is_first_maximum now currentUser :
  match getBestHabit host now currentUser with
  | None =>
      forall u, currentUser = Some u ->
        (forall h, h ∈ habits u -> h_currentStreak h <= 0) /\ bestStreak u = 0
  | Some b =>
      exists u pre post,
        currentUser = Some u /\ habits u = pre ++ b :: post
        /\ 0 < h_currentStreak b
        /\ (forall h, h ∈ pre -> h_currentStreak h < h_currentStreak b)
        /\ (forall h, h ∈ post -> h_currentStreak h <= h_currentStreak b)
        /\ bestStreak u = h_currentStreak b
  end.
Proof.
  unfold getBestHabit. destruct currentUser as [u | ]; [ | intros u [=]].
  pose proof (bestStreak_fold (habits u) 0) as (A & B & C). fold (bestStreak u) in A, B, C.
  destruct (Nat.eqb_spec (length (habits u)) 0) as [L | L].
  - intros u' [= <-]. apply length_zero_iff_nil in L.
    unfold bestStreak. rewrite L. split; [ | reflexivity].
    intros h Hin. now apply elem_of_nil in Hin.
  - pose proof (best_fold now (habits u) [] None
                  (fun h Hin => False_ind _ (proj1 (elem_of_nil h) Hin))) as F.
    cbn [app] in F.
    destruct (fold_left _ (habits u) None) as [b | ].
    + destruct F as (pre & post & E & Pos & Hpre & Hpost).
      exists u, pre, post. do 5 (split; [assumption || reflexivity | ]).
      assert (Hb : b ∈ habits u).
      { rewrite E. apply elem_of_app. right. left. }
      pose proof (B b Hb).
      destruct C as [C | (h & Hin & C)]; [lia | ].
      rewrite E in Hin. apply elem_of_app in Hin as [Hin | Hin].
      * specialize (Hpre h Hin). lia.
      * apply elem_of_cons in Hin as [-> | Hin]; [exact C | ].
        specialize (Hpost h Hin). lia.
    + intros u' [= <-]. split; [exact F | ].
      destruct C as [C | (h & Hin & C)]; [exact C | ].
      specialize (F h Hin). lia.
Qed.

Lemma dayOfYear_eq now : plainYear (getFullYear host now) ->
  (now - newDateYMD host (getFullYear host now) 0 0) / 86400000
  = spec_dayOfYear host now.
Proof.
  intros P. rewrite newDateYMD_plain by assumption. unfold spec_dayOfYear, UTC.
  set (o1 := LocalTZA host (MakeDate _ 0) false).
  assert (M : MakeDate (MakeDay (getFullYear host now) 0 0) 0
              = (DayFromYear (getFullYear host now) - 1) * msPerDay).
  { rewrite MakeDay_plain by lia. cbn [monthStart]. unfold MakeDate. lia. }
  rewrite M.
  unfold DayWithinYear, TimeWithinDay, getFullYear, Day, LocalTime.
  set (o2 := LocalTZA host now true). set (Y := DayFromYear _).
  unfold msPerDay. zdiv.
Qed.

Lemma spec_dayOfYear_fixed tz now :
  fixedOffset host tz -> spec_dayOfYear host now = DayWithinYear (LocalTime host now) + 1.
Proof.
  intros F. unfold spec_dayOfYear. rewrite !F.
  pose proof (TimeWithinDay_bounds (LocalTime host now)).
  unfold msPerDay in *. zdiv.
Qed.

Lemma getDailyQuote_found now currentUser :
  plainYear (getFullYear host now) -> 0 <= spec_dayOfYear host now ->
  exists quote,
    motivationalQuotes !! Z.to_nat (spec_dayOfYear host now mod 10) = Some quote
    /\ getDailyQuote host now currentUser
       = Some (stringReplace quote "{name}" (displayName currentUser)).
Proof.
  intros P H0. unfold getDailyQuote. rewrite dayOfYear_eq by assumption.
  change (Z.of_nat (length motivationalQuotes)) with 10.
  rewrite Z.rem_mod_nonneg by lia.
  set (i := spec_dayOfYear host now mod 10).
  assert (Hi : 0 <= i < 10) by (unfold i; zdiv).
  unfold arrayGet. destruct (Z.ltb_spec i 0); [lia | ].
  destruct (lookup_lt_is_Some_2 motivationalQuotes (Z.to_nat i)) as [quote Hq].
  { change (length motivationalQuotes) with 10%nat. lia. }
  exists quote. split; [exact Hq | ]. now rewrite Hq.
Qed.

(** X19. In a year that [new Date(year, 0, 0)] takes as it is (not
    0..99), the day count that [getDailyQuote] computes is the local day
    within the year counted from 1, plus the floor in days of the time of
    day corrected by the offset of local time at the midnight before
    1 January less the offset now.  When it is not negative, the index it
    takes modulo ten is in range, so a quote is found, and the result is
    this quote with the placeholder replaced by the display name.  With
    offsets below 24 hours the count is within 2 of the day of the year.
    Where the offset of local time is constant the count is the day of
    the year, between 1 and 366, and all instants of a local day get the
    same quote.  In New York on 1 July 2024 the count is 182 at 00:30 and
    183 at noon, and the two quotes differ. *)
Theorem X19_quote_of_the_day now currentUser :
  plainYear (getFullYear host now) ->
  (now - newDateYMD host (getFullYear host now) 0 0) / 86400000 = spec_dayOfYear host now
  /\ (0 <= spec_dayOfYear host now ->
      exists quote,
        motivationalQuotes !! Z.to_nat (spec_dayOfYear host now mod 10) = Some quote
        /\ getDailyQuote host now currentUser
           = Some (stringReplace quote "{name}" (displayName currentUser)))
  /\ (offsetsBounded host ->
      DayWithinYear (LocalTime host now) - 1 <= spec_dayOfYear host now
      <= DayWithinYear (LocalTime host now) + 3)
  /\ (forall tz, fixedOffset host tz ->
        spec_dayOfYear host now = DayWithinYear (LocalTime host now) + 1
        /\ 1 <= spec_dayOfYear host now <= 366
        /\ (forall now', Day (LocalTime host now') = Day (LocalTime host now) ->
              getDailyQuote host now' currentUser = getDailyQuote host now currentUser))
  /\ Day (LocalTime newYork july1_early) = Day (LocalTime newYork july1_noon)
  /\ spec_dayOfYear newYork july1_early = 182
  /\ spec_dayOfYear newYork july1_noon = 183
  /\ getDailyQuote newYork july1_early None <> getDailyQuote newYork july1_noon None.
Proof.
  intros P.
  pose proof (DayWithinYear_bounds (LocalTime host now)) as B.
  pose proof (InLeapYear_01 (LocalTime host now)) as L.
  split; [now apply dayOfYear_eq | ].
  split; [now apply getDailyQuote_found | ].
  split; [ | split; [ | split; [ | split; [ | split]]]].
  - intros Bd. unfold spec_dayOfYear.
    pose proof (TimeWithinDay_bounds (LocalTime host now)).
    pose proof (Bd (MakeDate (MakeDay (getFullYear host now) 0 0) 0) false).
    pose proof (Bd now true).
    unfold msPerDay in *. zdiv.
  - intros tz F. rewrite (spec_dayOfYear_fixed tz) by assumption.
    split; [reflexivity | ]. split; [lia | ].
    intros now' E.
    destruct (civil_fields_Day host host now' now E) as (Ey & _).
    assert (P' : plainYear (getFullYear host now')) by now rewrite Ey.
    unfold getDailyQuote. rewrite !dayOfYear_eq by assumption.
    rewrite !(spec_dayOfYear_fixed tz) by assumption.
    unfold DayWithinYear, YearFromTime. now rewrite E.
  - vm_compute. reflexivity.
  - vm_compute. reflexivity.
  - vm_compute. reflexivity.
  - vm_compute. discriminate.
Qed.

End BestAndQuote.

Section Replace.

Lemma stripPrefix_spec pat : forall s rest,
  stripPrefix pat s = Some rest -> s = String.append pat rest.
Proof.
  induction pat as [ | p pat IH]; intros s rest H.
  - now injection H as <-.
  - destruct s as [ | c s]; [discriminate | ]. cbn [stripPrefix] in H.
    destruct (Ascii.eqb_spec p c) as [-> | _]; [ | discriminate].
    cbv [String.append]. fold String.append. f_equal. now apply IH.
Qed.

Lemma findFirst_spec pat s : forall before rest,
  findFirst pat s = Some (before, rest) ->
  s = String.append before (String.append pat rest).
Proof.
  induction s as [ | c s IH]; intros before rest H.
  - cbn [findFirst] in H. destruct (stripPrefix pat EmptyString) as [r | ] eqn:E;
      [ | discriminate].
    injection H as <- <-. apply stripPrefix_spec in E. exact E.
  - cbn [findFirst] in H. destruct (stripPrefix pat (String c s)) as [r | ] eqn:E.
    + injection H as <- <-. apply stripPrefix_spec in E. exact E.
    + destruct (findFirst pat s) as [[b r] | ]; [ | discriminate].
      injection H as <- <-. cbv [String.append]. fold String.append.
      f_equal. now apply IH.
Qed.

Lemma GetSubstitution_plain matched before rest replacement :
  ~ In "$"%char (list_ascii_of_string replacement) ->
  GetSubstitution matched before rest replacement = replacement.
Proof.
  induction replacement as [ | c r IH]; intros N; [reflexivity | ].
  cbn [GetSubstitution].
  destruct (Ascii.eqb_spec c "$") as [-> | _].
  - exfalso. apply N. left. reflexivity.
  - f_equal. apply IH. intros Hin. apply N. right. exact Hin.
Qed.

Lemma append_empty_r s : String.append s EmptyString = s.
Proof.
  induction s as [ | c s IH]; [reflexivity | ].
  cbv [String.append]. fold String.append. now rewrite IH.
Qed.

(** X20. Every quote contains the placeholder, so that the display name
    always appears: for a name without a dollar sign the result is the
    quote with its first [{name}] replaced by the name.  A dollar sign in
    the name is a pattern of [replace]: a user named [$&] is greeted as
    [{name}]. *)
Theorem X20_placeholder_replaced quote :
  quote ∈ motivationalQuotes ->
  (exists before rest,
     quote = String.append before (String.append "{name}" rest)
     /\ forall name, ~ In "$"%char (list_ascii_of_string name) ->
          stringReplace quote "{name}" name
          = String.append before (String.append name rest))
  /\ stringReplace quote "{name}" "$&" = quote
  /\ stringReplace quote "{name}" "$$" = stringReplace quote "{name}" "$".
Proof.
  intros Hin.
  assert (F : is_Some (findFirst "{name}" quote)).
  { assert (A : Forall (fun q => is_Some (findFirst "{name}" q)) motivationalQuotes).
    { unfold motivationalQuotes. repeat constructor; vm_compute; eauto. }
    rewrite Forall_forall in A. now apply A. }
  destruct F as [[before rest] F]. pose proof (findFirst_spec _ _ _ _ F) as E.
  unfold stringReplace. rewrite F. split; [ | split].
  - exists before, rest. split; [exact E | ].
    intros name N. now rewrite GetSubstitution_plain.
  - cbn [GetSubstitution]. change (Ascii.eqb "$" "$") with true.
    change (Ascii.eqb "&" "$") with false. change (Ascii.eqb "&" "&") with true.
    cbv iota. now rewrite append_empty_r.
  - reflexivity.
Qed.

End Replace.

(** ** The form of a habit *)

Section Form.

Lemma existsb_eqb_elem (l : list Z) x : existsb (Z.eqb x) l = true <-> x ∈ l.
Proof.
  rewrite existsb_exists. split.
  - intros (y & Hin & E). apply Z.eqb_eq in E as <-. now apply list_elem_of_In.
  - intros Hin. exists x. split; [now apply list_elem_of_In | apply Z.eqb_refl].
Qed.

Lemma elem_of_without (l : list Z) x d :
  d ∈ List.filter (fun y => negb (y =? x)) l <-> d ∈ l /\ d <> x.
Proof.
  rewrite list_elem_of_In, filter_In, <- list_elem_of_In, negb_true_iff, Z.eqb_neq.
  reflexivity.
Qed.

Lemma without_absent (l : list Z) x :
  x ∉ l -> List.filter (fun y => negb (y =? x)) l = l.
Proof.
  induction l as [ | y l IH]; intros N; [reflexivity | ]. cbn [List.filter].
  destruct (Z.eqb_spec y x) as [-> | _]; cbn [negb].
  - exfalso. apply N. left.
  - f_equal. apply IH. intros Hin. apply N. now right.
Qed.

(** X21. A click on a weekday in the form flips the membership of that
    day and of no other; it keeps a list without duplicates free of
    them; a second click restores the list when the day was absent, and
    restores it up to the order when it was present.  A weekly habit
    saved from the form is due on that weekday exactly when the click
    selected it. *)
Theorem X21_weekday_click_flips_membership formData day :
  let l := f_selectedDays formData in
  let l' := f_selectedDays (toggleDay formData day) in
  (day ∈ l' <-> day ∉ l)
  /\ (forall d, d <> day -> (d ∈ l' <-> d ∈ l))
  /\ (NoDup l -> NoDup l')
  /\ (day ∉ l -> f_selectedDays (toggleDay (toggleDay formData day) day) = l)
  /\ (NoDup l -> f_selectedDays (toggleDay (toggleDay formData day) day) ≡ₚ l)
  /\ includes (Some l') day = negb (includes (Some l) day)
  /\ f_name (toggleDay formData day) = f_name formData
  /\ f_frequency (toggleDay formData day) = f_frequency formData.
Proof.
  intros l l'. subst l l'. unfold toggleDay. cbn [f_selectedDays f_name f_frequency].
  set (l := f_selectedDays formData).
  destruct (existsb (Z.eqb day) l) eqn:E.
  - assert (Hin : day ∈ l) by now apply existsb_eqb_elem.
    assert (Hout : day ∉ List.filter (fun d => negb (d =? day)) l).
    { rewrite elem_of_without. tauto. }
    assert (E' : existsb (Z.eqb day) (List.filter (fun d => negb (d =? day)) l) = false).
    { apply not_true_is_false. now rewrite existsb_eqb_elem. }
    rewrite E'.
    split; [tauto | ]. split; [intros d Hd; rewrite elem_of_without; tauto | ].
    split; [ | split; [tauto | split; [ | split; [ | split; reflexivity]]]].
    + intros ND. apply NoDup_ListNoDup, List.NoDup_filter, NoDup_ListNoDup, ND.
    + intros ND. apply NoDup_Permutation.
      * apply NoDup_app. split; [ | split].
        -- apply NoDup_ListNoDup, List.NoDup_filter, NoDup_ListNoDup, ND.
        -- intros x Hx Hx'. apply list_elem_of_singleton in Hx' as ->. contradiction.
        -- apply NoDup_singleton.
      * exact ND.
      * intros x. rewrite elem_of_app, elem_of_without, list_elem_of_singleton.
        destruct (Z.eq_dec x day) as [-> | N]; tauto.
    + cbn [includes]. now rewrite E, E'.
  - assert (Hout : day ∉ l).
    { intros Hin. apply existsb_eqb_elem in Hin. congruence. }
    assert (E' : existsb (Z.eqb day) (l ++ [day]) = true).
    { apply existsb_eqb_elem, elem_of_app. right. left. }
    rewrite E'.
    assert (Back : List.filter (fun d => negb (d =? day)) (l ++ [day]) = l).
    { rewrite List.filter_app, without_absent by assumption. cbn [List.filter].
      rewrite Z.eqb_refl. cbn [negb]. apply app_nil_r. }
    split; [split; [tauto | intros _; apply elem_of_app; right; left] | ].
    split.
    { intros d Hd. rewrite elem_of_app, list_elem_of_singleton. tauto. }
    split; [ | split; [intros _; exact Back | split; [ | split; [ | split; reflexivity]]]].
    + intros ND. apply NoDup_app. split; [exact ND | split; [ | apply NoDup_singleton]].
      intros x Hx Hx'. apply list_elem_of_singleton in Hx' as ->. contradiction.
    + intros _. now rewrite Back.
    + cbn [includes]. now rewrite E, E'.
Qed.

End Form.

(** ** The calendar *)

Section Calendar.
Import ES Str ESFacts StrFacts KeyFacts SortFacts RangeFacts.
Variable host : Host.

Lemma emptyLoop_spec n : forall i days,
  emptyLoop n i days = days ++ (EmptyCell <$> seqZ i (Z.of_nat n)).
Proof.
  induction n as [ | n IH]; intros i days.
  - cbn. now rewrite app_nil_r.
  - cbn [emptyLoop]. rewrite IH.
    rewrite Nat2Z.inj_succ, (seqZ_cons i) by lia.
    rewrite <- app_assoc. cbn [fmap list_fmap app].
    replace (Z.succ i) with (i + 1) by lia.
    replace (Z.pred (Z.succ (Z.of_nat n))) with (Z.of_nat n) by lia.
    reflexivity.
Qed.

Lemma dayLoop_spec u selectedMonth selectedDate now n : forall d days,
  dayLoop host u selectedMonth selectedDate now n d days
  = days ++ (dayCell host u selectedMonth selectedDate now <$> seqZ d (Z.of_nat n)).
Proof.
  induction n as [ | n IH]; intros d days.
  - cbn. now rewrite app_nil_r.
  - cbn [dayLoop]. rewrite IH.
    rewrite Nat2Z.inj_succ, (seqZ_cons d) by lia.
    rewrite <- app_assoc. cbn [fmap list_fmap app].
    replace (Z.succ d) with (d + 1) by lia.
    replace (Z.pred (Z.succ (Z.of_nat n))) with (Z.of_nat n) by lia.
    reflexivity.
Qed.

Lemma plainYear_negb year : plainYear year -> negb ((0 <=? year) && (year <=? 99)) = true.
Proof.
  unfold plainYear. intros P.
  destruct (Z.leb_spec 0 year); destruct (Z.leb_spec year 99); cbn; lia || reflexivity.
Qed.

Lemma renderCalendarDays_spec u selectedMonth selectedDate now :
  renderCalendarDays host u selectedMonth selectedDate now
  = (EmptyCell <$> seqZ 0 (firstDay host selectedMonth))
    ++ (dayCell host u selectedMonth selectedDate now
          <$> seqZ 1 (daysInMonth host selectedMonth)).
Proof.
  unfold renderCalendarDays. rewrite dayLoop_spec, emptyLoop_spec. cbn [app].
  pose proof (WeekDay_bounds (LocalTime host (newDateYMD host (getFullYear host selectedMonth)
                (getMonth host selectedMonth) 1))) as B1.
  pose proof (DateFromTime_bounds (LocalTime host (newDateYMD host (getFullYear host selectedMonth)
                (getMonth host selectedMonth + 1) 0))) as B2.
  unfold firstDay, daysInMonth, getDay, getDate. cbv zeta.
  rewrite !Z2Nat.id by lia. reflexivity.
Qed.

(** X22. The calendar of a month (of a year not in 0..99, in a zone
    that satisfies [zoneOk]) consists of as many
    fillers as the weekday index of the first of the month, followed
    by one cell for each day 1..N of the month in this order, N being the
    length of the month.  Hence in rows of seven the cell of every day
    stands in the column of its weekday, and there are at most 37 cells. *)
Theorem X22_calendar_grid_alignment u selectedMonth selectedDate now :
  zoneOk host ->
  plainYear (getFullYear host selectedMonth) ->
  let year := getFullYear host selectedMonth in
  let month := getMonth host selectedMonth in
  let cells := renderCalendarDays host u selectedMonth selectedDate now in
  0 <= firstDay host selectedMonth <= 6
  /\ firstDay host selectedMonth = (MakeDay year month 1 + 4) mod 7
  /\ daysInMonth host selectedMonth = DaysInMonth year month
  /\ Z.of_nat (length cells) = firstDay host selectedMonth + DaysInMonth year month
  /\ Z.of_nat (length cells) <= 37
  /\ (forall i, 0 <= i < firstDay host selectedMonth ->
        cells !! Z.to_nat i = Some (EmptyCell i))
  /\ (forall d, 1 <= d <= DaysInMonth year month ->
        cells !! Z.to_nat (firstDay host selectedMonth + d - 1)
        = Some (dayCell host u selectedMonth selectedDate now d)
        /\ (firstDay host selectedMonth + d - 1) mod 7
           = getDay host (newDateYMD host year month d)).
Proof.
  intros Z1 P year month cells.
  pose proof (MonthFromTime_bounds (LocalTime host selectedMonth)) as Bm.
  fold (getMonth host selectedMonth) in Bm. fold month in Bm.
  pose proof (DaysInMonth_bounds year month) as Bd.
  assert (F : firstDay host selectedMonth = (MakeDay year month 1 + 4) mod 7).
  { unfold firstDay. cbv zeta. fold year month.
    now apply getDay_newDateYMD. }
  assert (N : daysInMonth host selectedMonth = DaysInMonth year month).
  { unfold daysInMonth. cbv zeta. fold year month. now apply daysInMonth_getDate. }
  assert (B : 0 <= firstDay host selectedMonth <= 6) by (rewrite F; zdiv).
  assert (L : Z.of_nat (length (EmptyCell <$> seqZ 0 (firstDay host selectedMonth)))
              = firstDay host selectedMonth).
  { rewrite length_fmap, length_seqZ. lia. }
  unfold cells. rewrite renderCalendarDays_spec, N.
  split; [exact B | ]. split; [exact F | ]. split; [reflexivity | ].
  split; [rewrite length_app, !length_fmap, !length_seqZ; lia | ].
  split; [rewrite length_app, !length_fmap, !length_seqZ; lia | ].
  split.
  - intros i Hi. rewrite lookup_app_l by lia.
    rewrite list_lookup_fmap, lookup_seqZ_lt by lia.
    cbn [fmap option_fmap option_map]. do 2 f_equal. lia.
  - intros d Hd. split.
    + rewrite lookup_app_r by lia.
      rewrite list_lookup_fmap, lookup_seqZ_lt by lia.
      cbn [fmap option_fmap option_map].
      match goal with
      | |- Some (dayCell _ _ _ _ _ ?x) = _ => replace x with d by lia
      end.
      reflexivity.
    + rewrite (getDay_newDateYMD host year month d) by assumption.
      rewrite F.
      replace (MakeDay year month d) with (MakeDay year month 1 + (d - 1))
        by (rewrite <- MakeDay_date; f_equal; lia).
      zdiv.
Qed.

Lemma isoDate_day_inj y m d d' :
  validYMD y m d -> validYMD y m d' -> isoDate y m d = isoDate y m d' -> d = d'.
Proof.
  intros V V' E. apply (f_equal keyDay) in E.
  rewrite !keyDay_isoDate in E by assumption.
  replace d with (1 + (d - 1)) in E by lia. replace d' with (1 + (d' - 1)) in E by lia.
  rewrite !MakeDay_date in E. lia.
Qed.

(** X23. In the calendar of the month of a date of the years 1000..9999
    (in a zone that satisfies [zoneOk]), the cell
    marked as today is the cell of that date's day of the month
    and no other, and likewise the cell marked as selected. *)
Theorem X23_one_cell_is_marked u selectedMonth selectedDate now d :
  zoneOk host ->
  1000 <= getFullYear host selectedMonth <= 9999 ->
  1 <= d <= DaysInMonth (getFullYear host selectedMonth) (getMonth host selectedMonth) ->
  exists data rate isToday isSelected,
    dayCell host u selectedMonth selectedDate now d
    = DayCell d data isToday isSelected rate
    /\ (Day (LocalTime host selectedDate) = Day (LocalTime host selectedMonth) ->
          (isSelected = true <-> d = getDate host selectedMonth))
    /\ (Day (LocalTime host now) = Day (LocalTime host selectedMonth) ->
          (isToday = true <-> d = getDate host selectedMonth))
    /\ (getFullYear host selectedDate <> getFullYear host selectedMonth
        \/ getMonth host selectedDate <> getMonth host selectedMonth -> isSelected = false).
Proof.
  intros Z1 Hy Hd.
  pose proof (MonthFromTime_bounds (LocalTime host selectedMonth)) as Bm.
  pose proof (DateFromTime_bounds (LocalTime host selectedMonth)) as Bd.
  fold (getMonth host selectedMonth) in Bm.
  unfold dayCell. cbv zeta. eexists _, _, _, _. split; [reflexivity | ].
  rewrite getDateKey_newDateYMD by assumption.
  assert (V : validYMD (getFullYear host selectedMonth) (getMonth host selectedMonth + 1) d).
  { unfold validYMD.
    replace (getMonth host selectedMonth + 1 - 1) with (getMonth host selectedMonth) by lia.
    lia. }
  assert (V0 : validYMD (getFullYear host selectedMonth) (getMonth host selectedMonth + 1)
                 (getDate host selectedMonth)).
  { apply civil_valid. unfold getFullYear in Hy. lia. }
  assert (Same : forall t, Day (LocalTime host t) = Day (LocalTime host selectedMonth) ->
            (String.eqb (isoDate (getFullYear host selectedMonth)
                           (getMonth host selectedMonth + 1) d) (getDateKey host t) = true
             <-> d = getDate host selectedMonth)).
  { intros t E. rewrite (getDateKey_Day host host t selectedMonth E).
    rewrite getDateKey_isoDate by assumption. rewrite String.eqb_eq. split.
    - now apply isoDate_day_inj.
    - now intros ->. }
  split; [apply Same | ]. split; [apply Same | ].
  intros Other. apply String.eqb_neq. intros E.
  assert (K : isDateKey (getDateKey host selectedDate) = true).
  { rewrite <- E. now apply isDateKey_isoDate. }
  apply getDateKey_range in K. rewrite getDateKey_isoDate in E by assumption.
  pose proof (MonthFromTime_bounds (LocalTime host selectedDate)) as Bm'.
  fold (getMonth host selectedDate) in Bm'.
  assert (V' : validYMD (getFullYear host selectedDate) (getMonth host selectedDate + 1)
                 (getDate host selectedDate)).
  { apply civil_valid. unfold getFullYear in K. lia. }
  apply (f_equal keyDay) in E. rewrite !keyDay_isoDate in E by assumption.
  replace (getMonth host selectedMonth + 1 - 1) with (getMonth host selectedMonth) in E by lia.
  replace (getMonth host selectedDate + 1 - 1) with (getMonth host selectedDate) in E by lia.
  change (MakeDay (getFullYear host selectedDate) (getMonth host selectedDate)
            (getDate host selectedDate))
    with (MakeDay (YearFromTime (LocalTime host selectedDate))
            (MonthFromTime (LocalTime host selectedDate))
            (DateFromTime (LocalTime host selectedDate))) in E.
  rewrite MakeDay_civil in E. symmetry in E.
  pose proof (civil_year _ _ d Bm Hd (LocalTime host selectedDate) E) as Ey.
  pose proof (civil_month _ _ d Bm Hd (LocalTime host selectedDate) E) as Em.
  change (getFullYear host selectedDate) with (YearFromTime (LocalTime host selectedDate))
    in Other.
  change (getMonth host selectedDate) with (MonthFromTime (LocalTime host selectedDate))
    in Other.
  rewrite Ey, Em in Other. tauto.
Qed.

Lemma MakeDay_carry y m d k : MakeDay y (m + 12 * k) d = MakeDay (y + k) m d.
Proof.
  unfold MakeDay.
  replace ((m + 12 * k) / 12) with (m / 12 + k) by zdiv.
  replace ((m + 12 * k) mod 12) with (m mod 12) by zdiv.
  replace (y + (m / 12 + k)) with (y + k + m / 12) by lia. reflexivity.
Qed.

Lemma fields_of_first y m :
  zoneOk host -> plainYear y ->
  getFullYear host (newDateYMD host y m 1) = y + m / 12
  /\ getMonth host (newDateYMD host y m 1) = m mod 12
  /\ getDate host (newDateYMD host y m 1) = 1.
Proof.
  intros Z1 P. unfold getFullYear, getMonth, getDate.
  assert (Hm : 0 <= m mod 12 <= 11) by zdiv.
  pose proof (DaysInMonth_bounds (y + m / 12) (m mod 12)) as Bd.
  assert (E : Day (LocalTime host (newDateYMD host y m 1))
              = MakeDay (y + m / 12) (m mod 12) 1).
  { rewrite Day_newDateYMD by assumption.
    replace m with (m mod 12 + 12 * (m / 12)) at 1 by zdiv.
    apply MakeDay_carry. }
  assert (H1 : 1 <= 1 <= DaysInMonth (y + m / 12) (m mod 12)) by lia.
  split; [ | split].
  - apply (civil_year _ _ 1 Hm H1 _ E).
  - apply (civil_month _ _ 1 Hm H1 _ E).
  - apply (civil_date _ _ 1 Hm H1 _ E).
Qed.

(** X24. In a zone that satisfies [zoneOk], the
    arrows of the calendar lead to local midnight of the first day of the
    next and of the previous month, across the ends of the
    year (after December comes January of the next year, before January
    December of the year before); going forth and back, or back and
    forth, leads to the first of the month one started in.  Where the
    offset of local time is constant, the date itself lies from the first
    of its month on and before the first of the next. *)
Theorem X24_month_navigation t :
  zoneOk host ->
  100 < getFullYear host t ->
  let y := getFullYear host t in
  let m := getMonth host t in
  getFullYear host (nextMonth host t) = (if m =? 11 then y + 1 else y)
  /\ getMonth host (nextMonth host t) = (if m =? 11 then 0 else m + 1)
  /\ getDate host (nextMonth host t) = 1
  /\ getFullYear host (prevMonth host t) = (if m =? 0 then y - 1 else y)
  /\ getMonth host (prevMonth host t) = (if m =? 0 then 11 else m - 1)
  /\ getDate host (prevMonth host t) = 1
  /\ prevMonth host (nextMonth host t) = newDateYMD host y m 1
  /\ nextMonth host (prevMonth host t) = newDateYMD host y m 1
  /\ (forall tz, fixedOffset host tz ->
        t - nextMonth host t < 0 <= t - newDateYMD host y m 1).
Proof.
  intros Z1 Hy y m.
  pose proof (MonthFromTime_bounds (LocalTime host t)) as Bm.
  fold (getMonth host t) in Bm. fold m in Bm. fold y in Hy.
  assert (P : plainYear y) by (unfold plainYear; lia).
  destruct (fields_of_first y (m + 1) Z1 P) as (Ny & Nm & Nd).
  destruct (fields_of_first y (m - 1) Z1 P) as (Py & Pm & Pd).
  assert (Ny' : y + (m + 1) / 12 = if m =? 11 then y + 1 else y).
  { destruct (Z.eqb_spec m 11) as [-> | N]; [reflexivity | ].
    replace ((m + 1) / 12) with 0 by zdiv. lia. }
  assert (Nm' : (m + 1) mod 12 = if m =? 11 then 0 else m + 1).
  { destruct (Z.eqb_spec m 11) as [-> | N]; [reflexivity | ]. zdiv. }
  assert (Py' : y + (m - 1) / 12 = if m =? 0 then y - 1 else y).
  { destruct (Z.eqb_spec m 0) as [-> | N]; [reflexivity | ].
    replace ((m - 1) / 12) with 0 by zdiv. lia. }
  assert (Pm' : (m - 1) mod 12 = if m =? 0 then 11 else m - 1).
  { destruct (Z.eqb_spec m 0) as [-> | N]; [reflexivity | ]. zdiv. }
  unfold nextMonth, prevMonth. cbv zeta. fold y m.
  rewrite Ny, Nm, Nd, Py, Pm, Pd.
  split; [exact Ny' | ]. split; [exact Nm' | ]. split; [reflexivity | ].
  split; [exact Py' | ]. split; [exact Pm' | ]. split; [reflexivity | ].
  assert (Back : forall a b, plainYear (y + a / 12) ->
            (a mod 12 + b) mod 12 = m -> a / 12 + (a mod 12 + b) / 12 = 0 ->
            newDateYMD host (y + a / 12) (a mod 12 + b) 1 = newDateYMD host y m 1).
  { intros a b Pa Em Ey. rewrite !newDateYMD_plain by assumption. do 2 f_equal.
    replace (a mod 12 + b) with (m + 12 * ((a mod 12 + b) / 12)) by zdiv.
    rewrite MakeDay_carry. f_equal. lia. }
  split; [ | split].
  - apply Back; [unfold plainYear; zdiv | zdiv | zdiv].
  - replace (m - 1) with (m + -1) by lia. replace ((m + -1) mod 12 + 1)
      with ((m + -1) mod 12 - -1) by lia.
    replace ((m + -1) mod 12 - -1) with ((m + -1) mod 12 + 1) by lia.
    apply Back; [unfold plainYear; zdiv | zdiv | zdiv].
  - intros tz F. unfold nextMonth. cbv zeta. fold y m.
    rewrite !newDateYMD_plain by assumption.
    replace (m + 1) with (m + 1 + 12 * 0) by lia.
    rewrite (MakeDay_plain y m) by lia.
    pose proof (MakeDay_civil (LocalTime host t)) as C.
    fold (getFullYear host t) (getMonth host t) (getDate host t) in C. fold y m in C.
    rewrite (MakeDay_plain y m) in C by lia.
    pose proof (DateFromTime_bounds (LocalTime host t)) as Bd.
    fold (getFullYear host t) (getMonth host t) (getDate host t) in Bd. fold y m in Bd.
    pose proof (MakeDay_last y m Bm) as Last.
    replace (m + 1 + 12 * 0) with (m + 1) by lia.
    replace (MakeDay y (m + 1) 1) with (MakeDay y (m + 1) 0 + 1)
      by (rewrite <- MakeDay_date; f_equal).
    rewrite Last, (MakeDay_plain y m) by lia.
    unfold LocalTime in C. rewrite (F t true) in C.
    unfold UTC. rewrite !F.
    unfold MakeDate, Day, msPerDay in *. zdiv.
Qed.

(** X25. A month number outside 0..11 is carried into the year, as
    [new Date] does: the monthly series of month [m + 12 k] of a year is
    the series of month [m] of the year [k] years later (both years not
    in 0..99).  Month 12 is January of the next year, month -1 December
    of the year before. *)
Theorem X25_month_overflow_carries habit m year k :
  plainYear year -> plainYear (year + k) ->
  getMonthlyData host habit (m + 12 * k) year = getMonthlyData host habit m (year + k).
Proof.
  intros P P'.
  assert (E : forall mm d, newDateYMD host year (mm + 12 * k) d = newDateYMD host (year + k) mm d).
  { intros mm d. rewrite !newDateYMD_plain by assumption. now rewrite MakeDay_carry. }
  rewrite !getMonthlyData_spec.
  replace (m + 12 * k + 1) with (m + 1 + 12 * k) by lia. rewrite E.
  apply list_fmap_ext. intros i d _. unfold monthEntry. now rewrite E.
Qed.

End Calendar.

(** ** The hexadecimal form of the password hash *)

Section Hex.
Import Str ESFacts.

Lemma hex_of_byte (b : Byte.byte) :
  padStart 2 "0"%char (toString16 (Z.of_N (Byte.to_N b)))
  = String (hexChar (Z.of_N (Byte.to_N b) / 16))
      (String (hexChar (Z.of_N (Byte.to_N b) mod 16)) EmptyString).
Proof. destruct b; reflexivity. Qed.

Lemma byte_range (b : Byte.byte) : 0 <= Z.of_N (Byte.to_N b) < 256.
Proof. pose proof (Byte.to_N_bounded b). lia. Qed.

Lemma hexChar_code n : 0 <= n < 16 ->
  Z.of_N (N_of_ascii (hexChar n)) = if n <? 10 then 48 + n else 87 + n.
Proof.
  intros Hn. unfold hexChar, digitChar.
  destruct (Z.ltb_spec n 10); rewrite N_ascii_embedding by lia; lia.
Qed.

Lemma hexChar_inj n n' : 0 <= n < 16 -> 0 <= n' < 16 -> hexChar n = hexChar n' -> n = n'.
Proof.
  intros Hn Hn' E. apply (f_equal (fun c => Z.of_N (N_of_ascii c))) in E.
  rewrite !hexChar_code in E by assumption.
  destruct (Z.ltb_spec n 10); destruct (Z.ltb_spec n' 10); lia.
Qed.

Lemma hexOfBytes_cons b bs :
  hexOfBytes (b :: bs)
  = String (hexChar (Z.of_N (Byte.to_N b) / 16))
      (String (hexChar (Z.of_N (Byte.to_N b) mod 16)) (hexOfBytes bs)).
Proof.
  unfold hexOfBytes. cbn [map]. rewrite hex_of_byte.
  destruct bs as [ | b' bs]; [reflexivity | ].
  cbn [map String.concat]. cbv [String.append]. reflexivity.
Qed.

Lemma hexOfBytes_inj : forall bs bs', hexOfBytes bs = hexOfBytes bs' -> bs = bs'.
Proof.
  induction bs as [ | b bs IH]; intros [ | b' bs'] E.
  - reflexivity.
  - rewrite hexOfBytes_cons in E. discriminate E.
  - rewrite hexOfBytes_cons in E. discriminate E.
  - rewrite !hexOfBytes_cons in E. injection E as E1 E2 E3.
    pose proof (byte_range b) as R. pose proof (byte_range b') as R'.
    apply hexChar_inj in E1; [ | zdiv | zdiv]. apply hexChar_inj in E2; [ | zdiv | zdiv].
    f_equal; [ | now apply IH].
    assert (N : Byte.to_N b = Byte.to_N b') by (apply N2Z.inj; zdiv).
    pose proof (Byte.of_to_N b) as A. pose proof (Byte.of_to_N b') as A'.
    rewrite N in A. rewrite A in A'. now injection A'.
Qed.

(** X26. The stored password is the digest written with two lower-case
    hexadecimal digits for each byte, the high digit first: its length
    is twice the number of bytes (64 for the 32 bytes of SHA-256), every
    character is one of [0-9a-f], and two passwords have the same stored
    form exactly when they have the same digest. *)
Theorem X26_hash_is_hex_of_digest (digest : string -> list Byte.byte) password :
  String.length (hashPassword digest password)
  = (2 * length (digest password))%nat
  /\ (length (digest password) = 32%nat ->
      String.length (hashPassword digest password) = 64%nat)
  /\ Forall (fun c => exists n, 0 <= n < 16 /\ c = hexChar n)
       (list_ascii_of_string (hashPassword digest password))
  /\ (forall password',
        hashPassword digest password = hashPassword digest password'
        <-> digest password = digest password')
  /\ hexChar 10 = "a"%char /\ hexChar 15 = "f"%char /\ hexChar 9 = "9"%char.
Proof.
  unfold hashPassword.
  assert (L : forall bs, String.length (hexOfBytes bs) = (2 * length bs)%nat).
  { induction bs as [ | b bs IH]; [reflexivity | ].
    rewrite hexOfBytes_cons. cbn [String.length length]. rewrite IH. lia. }
  split; [apply L | ]. split; [intros H; rewrite L, H; reflexivity | ].
  split; [ | split; [ | repeat split]].
  - induction (digest password) as [ | b bs IH]; [constructor | ].
    rewrite hexOfBytes_cons. cbn [list_ascii_of_string].
    pose proof (byte_range b) as R.
    constructor; [eexists; split; [ | reflexivity]; zdiv | ].
    constructor; [eexists; split; [ | reflexivity]; zdiv | exact IH].
  - intros password'. split; [apply hexOfBytes_inj | now intros ->].
Qed.

End Hex.

(** ** Accounts and the session *)

Section Session.
Variable digest : string -> list Byte.byte.

Lemma find_first {A} (P : A -> bool) l a :
  List.find P l = Some a ->
  exists pre post, l = pre ++ a :: post /\ P a = true /\ forall x, x ∈ pre -> P x = false.
Proof.
  induction l as [ | x l IH]; [discriminate | ]. cbn [find].
  destruct (P x) eqn:E.
  - intros [= <-]. exists [], l. split; [reflexivity | ]. split; [exact E | ].
    intros y Hy. now apply elem_of_nil in Hy.
  - intros H. destruct (IH H) as (pre & post & -> & Pa & Hpre).
    exists (x :: pre), post. split; [reflexivity | ]. split; [exact Pa | ].
    intros y Hy. apply elem_of_cons in Hy as [-> | Hy]; [exact E | now apply Hpre].
Qed.

Lemma find_absent {A} (P : A -> bool) l :
  List.find P l = None <-> forall x, x ∈ l -> P x = false.
Proof.
  split.
  - intros H x Hin. apply list_elem_of_In in Hin. exact (find_none P l H x Hin).
  - intros H. induction l as [ | x l IH]; [reflexivity | ]. cbn [find].
    rewrite (H x) by left. apply IH. intros y Hy. apply H. now right.
Qed.

Lemma find_append {A} (P : A -> bool) l1 l2 :
  List.find P (l1 ++ l2)
  = match List.find P l1 with Some y => Some y | None => List.find P l2 end.
Proof.
  induction l1 as [ | x l1 IH]; [reflexivity | ]. cbn [app find].
  now destruct (P x).
Qed.

(** X27. Signing in succeeds exactly when some stored account has the
    e-mail and the hash of the password; it then signs in the first such
    account of the list and stores its id, and when it fails it changes
    nothing.  The form reports [Invalid email or password] exactly on
    failure, and on sign-up it refuses an empty name, e-mail or password
    without touching the state. *)
Theorem X27_sign_in_finds_first_match st email password :
  let matches a := String.eqb (acc_email a) email
                   && String.eqb (acc_password a) (hashPassword digest password) in
  (fst (signIn digest st email password) = true
   <-> exists a, a ∈ users (st_appData st) /\ matches a = true)
  /\ (fst (signIn digest st email password) = false ->
        snd (signIn digest st email password) = st)
  /\ (fst (signIn digest st email password) = true ->
        exists pre a post,
          users (st_appData st) = pre ++ a :: post /\ matches a = true
          /\ (forall x, x ∈ pre -> matches x = false)
          /\ st_currentUser (snd (signIn digest st email password)) = Some a
          /\ data_currentUser (st_appData (snd (signIn digest st email password)))
             = Some (user_id (acc_user a))
          /\ users (st_appData (snd (signIn digest st email password)))
             = users (st_appData st))
  /\ (forall newId now name,
        (fst (handleSubmit digest false newId now st name email password) = EmptyString
         <-> fst (signIn digest st email password) = true)
        /\ snd (handleSubmit digest false newId now st name email password)
           = snd (signIn digest st email password))
  /\ (forall newId now name,
        name = EmptyString \/ email = EmptyString \/ password = EmptyString ->
        handleSubmit digest true newId now st name email password
        = ("All fields are required"%string, st)).
Proof.
  intros matches. unfold signIn. fold matches.
  destruct (List.find matches (users (st_appData st))) as [a | ] eqn:F.
  - destruct (find_first _ _ _ F) as (pre & post & E & Pa & Hpre).
    cbn [fst snd st_currentUser st_appData data_currentUser users].
    split; [ | split; [discriminate | split; [ | split]]].
    + split; [ | reflexivity]. intros _. exists a. split; [ | exact Pa].
      rewrite E. apply elem_of_app. right. left.
    + intros _. exists pre, a, post. repeat split; assumption.
    + intros newId now name. unfold handleSubmit, signIn. fold matches. rewrite F.
      cbn [fst snd]. repeat split.
    + intros newId now name Hempty. unfold handleSubmit.
      destruct Hempty as [-> | [-> | ->]]; cbn [String.eqb orb];
        rewrite ?orb_true_r; reflexivity.
  - cbn [fst snd]. split; [ | split; [reflexivity | split; [discriminate | split]]].
    + split; [discriminate | ]. intros (a & Hin & Pa).
      rewrite find_absent in F. rewrite (F a Hin) in Pa. discriminate Pa.
    + intros newId now name. unfold handleSubmit, signIn. fold matches. rewrite F.
      cbn [fst snd]. split; [ | reflexivity]. split; discriminate.
    + intros newId now name Hempty. unfold handleSubmit.
      destruct Hempty as [-> | [-> | ->]]; cbn [String.eqb orb];
        rewrite ?orb_true_r; reflexivity.
Qed.

(** X28. Signing up always succeeds, appends the new account with the
    hash of its password, no habits, moods or reflections, and signs it
    in; no stored account is changed and an e-mail that is already taken
    is not refused.  After signing out, signing in with the same e-mail
    and password succeeds, and it reaches the new account exactly when
    no older account has the same e-mail and password hash. *)
Theorem X28_sign_up_then_sign_in newId now st name email password :
  let st1 := snd (signUp digest newId now st name email password) in
  let matches a := String.eqb (acc_email a) email
                   && String.eqb (acc_password a) (hashPassword digest password) in
  fst (signUp digest newId now st name email password) = true
  /\ (exists a, users (st_appData st1) = users (st_appData st) ++ [a]
        /\ st_currentUser st1 = Some a
        /\ data_currentUser (st_appData st1) = Some newId
        /\ acc_email a = email /\ acc_password a = hashPassword digest password
        /\ acc_user a = mkUser newId name [] ∅ ∅)
  /\ st_currentUser (signOut st1) = None
  /\ data_currentUser (st_appData (signOut st1)) = None
  /\ users (st_appData (signOut st1)) = users (st_appData st1)
  /\ fst (signIn digest (signOut st1) email password) = true
  /\ ((forall x, x ∈ users (st_appData st) -> matches x = false) ->
        st_currentUser (snd (signIn digest (signOut st1) email password))
        = st_currentUser st1)
  /\ (forall x, x ∈ users (st_appData st) -> matches x = true ->
        exists older, older ∈ users (st_appData st)
          /\ st_currentUser (snd (signIn digest (signOut st1) email password))
             = Some older).
Proof.
  intros st1 matches. unfold st1, signUp, signOut.
  cbn [fst snd st_appData st_currentUser users data_currentUser acc_user user_id
       data_theme st_theme st_currentView].
  set (a := mkAccount email (hashPassword digest password) (Str.toISOString now)
              (mkUser newId name [] ∅ ∅)).
  assert (Ma : matches a = true).
  { unfold matches, a. cbn [acc_email acc_password]. now rewrite !String.eqb_refl. }
  split; [reflexivity | ]. split; [exists a; repeat split | ].
  do 3 (split; [reflexivity | ]).
  unfold signIn. fold matches.
  cbn [st_appData users data_currentUser data_theme st_theme st_currentView].
  rewrite find_append.
  destruct (List.find matches (users (st_appData st))) as [b | ] eqn:F.
  - cbn [fst snd st_currentUser]. split; [reflexivity | ].
    apply find_some in F as [Hb Pb]. apply list_elem_of_In in Hb. split.
    + intros None'. rewrite (None' b Hb) in Pb. discriminate Pb.
    + intros x _ _. exists b. split; [exact Hb | reflexivity].
  - cbn [find]. rewrite Ma. cbn [fst snd st_currentUser].
    split; [reflexivity | ]. split; [reflexivity | ].
    intros x Hx Px. rewrite find_absent in F. rewrite (F x Hx) in Px. discriminate Px.
Qed.

Lemma updateCurrentUser_users st (a b : Account) :
  a ∈ users (st_appData st) ->
  user_id (acc_user a) = user_id (acc_user b) ->
  b ∈ users (st_appData (updateCurrentUser st b)).
Proof.
  intros Hin E. unfold updateCurrentUser. cbn [st_appData users].
  apply list_elem_of_In, in_map_iff. exists a.
  split; [ | now apply list_elem_of_In]. rewrite E. now rewrite String.eqb_refl.
Qed.

(** X29. The session and the stored data stay in agreement: after
    signing up, signing in, signing out, switching the theme and after
    every command of the signed-in user that keeps the user's id (all
    habit, mood and reflection commands do), the signed-in account is a
    stored account and its id is the stored current id.  A command stores
    the new state of the user, changes no account of another id, and
    keeps the number of accounts. *)
Theorem X29_session_stays_consistent st :
  sessionOk st ->
  (forall newId now name email password,
     sessionOk (snd (signUp digest newId now st name email password)))
  /\ (forall email password, sessionOk (snd (signIn digest st email password)))
  /\ sessionOk (signOut st)
  /\ sessionOk (toggleTheme st)
  /\ st_theme (toggleTheme st) = data_theme (st_appData (toggleTheme st))
  /\ (forall f, (forall u, user_id (f u) = user_id u) ->
        sessionOk (runCommand f st)
        /\ length (users (st_appData (runCommand f st)))
           = length (users (st_appData st))
        /\ (forall a, st_currentUser st = Some a ->
              st_currentUser (runCommand f st) = Some (withUser a (f (acc_user a)))
              /\ withUser a (f (acc_user a)) ∈ users (st_appData (runCommand f st))
              /\ forall i b, users (st_appData st) !! i = Some b ->
                   user_id (acc_user b) <> user_id (acc_user a) ->
                   users (st_appData (runCommand f st)) !! i = Some b)).
Proof.
  intros Ok. split; [ | split; [ | split; [ | split; [ | split]]]].
  - intros newId now name email password. unfold sessionOk, signUp.
    cbn [snd st_currentUser st_appData data_currentUser users acc_user user_id].
    split; [reflexivity | ]. apply elem_of_app. right. left.
  - intros email password. unfold signIn.
    destruct (List.find _ (users (st_appData st))) as [a | ] eqn:F; [ | exact Ok].
    destruct (find_first _ _ _ F) as (pre & post & E & _).
    unfold sessionOk. cbn [snd st_currentUser st_appData data_currentUser users].
    split; [reflexivity | ]. rewrite E. apply elem_of_app. right. left.
  - exact I.
  - unfold sessionOk, toggleTheme in *.
    cbn [st_currentUser st_appData data_currentUser users]. exact Ok.
  - reflexivity.
  - intros f Hf. unfold runCommand, sessionOk in *.
    destruct (st_currentUser st) as [a | ] eqn:Cur.
    + destruct Ok as [Id Hin].
      assert (Eid : user_id (acc_user a)
                    = user_id (acc_user (withUser a (f (acc_user a))))).
      { cbn [withUser acc_user]. now rewrite Hf. }
      pose proof (updateCurrentUser_users st a _ Hin Eid) as Hnew.
      split; [ | split].
      * cbn [updateCurrentUser st_currentUser st_appData data_currentUser].
        split; [ | exact Hnew]. rewrite Id. now rewrite <- Eid.
      * cbn [updateCurrentUser st_appData users]. apply length_map.
      * intros a' [= <-]. split; [reflexivity | ]. split; [exact Hnew | ].
        intros i b Hi N. cbn [updateCurrentUser st_appData users].
        change (map ?g ?l) with (g <$> l).
        rewrite list_lookup_fmap, Hi. cbn [fmap option_fmap option_map].
        rewrite <- Eid. apply String.eqb_neq in N. now rewrite N.
    + split; [now rewrite Cur | ]. split; [reflexivity | ]. intros a [=].
Qed.

End Session.

(** ** Labels and the empty series *)

Section EmptySeries.
Import ES Str ESFacts StrFacts KeyFacts SortFacts RangeFacts.
Variable host : Host.

Lemma getMonth_first year m :
  zoneOk host -> 0 <= m <= 11 -> getMonth host (newDateYMD host year m 1) = m.
Proof.
  intros Z1 Hm. unfold getMonth, newDateYMD.
  set (yr := if (0 <=? year) && (year <=? 99) then 1900 + year else year).
  pose proof (DaysInMonth_bounds yr m) as B.
  apply (civil_month yr m 1 Hm ltac:(lia)).
  rewrite (Z1 (MakeDate (MakeDay yr m 1) 0)). apply Day_midnight.
Qed.

Lemma zero_rate n : 1 <= n <= 31 ->
  Num.mul (Num.div (Num.ofZ 0) (Num.ofZ n)) (Num.ofZ 100) = S754_zero false.
Proof.
  intros Hn.
  assert (A : forallb
                (fun k => match Num.mul (Num.div (Num.ofZ 0) (Num.ofZ k)) (Num.ofZ 100) with
                          | S754_zero false => true
                          | _ => false
                          end) (seqZ 1 31) = true) by (vm_compute; reflexivity).
  apply (forallb_seqZ _ 1 31) with (z := n) in A; [ | lia].
  destruct (Num.mul (Num.div (Num.ofZ 0) (Num.ofZ n)) (Num.ofZ 100)) as [[ | ] | | | ];
    try discriminate A. reflexivity.
Qed.

Lemma monthEntry_empty habit m year d :
  default ∅ (h_completions habit) = ∅ -> completed (monthEntry host habit m year d) = 0.
Proof.
  intros E. unfold monthEntry. cbn [completed].
  destruct (h_completions habit) as [c | ]; [ | reflexivity].
  cbn [from_option id] in E. rewrite E, lookup_empty. reflexivity.
Qed.

(** X30. The entries of the yearly series are labelled [Jan] to [Dec] in
    this order, whatever the year (in a zone that satisfies [zoneOk]);
    for a habit without completions every
    day of every monthly series is open, and every month of the yearly
    series has 0 completions and the rate +0. *)
Theorem X30_labels_and_empty_series habit year :
  (zoneOk host -> month <$> getYearlyData host habit year = monthShort <$> seqZ 0 12)
  /\ (default ∅ (h_completions habit) = ∅ ->
      (forall m, Forall (fun e => completed e = 0) (getMonthlyData host habit m year))
      /\ Forall (fun e => month_completions e = 0
                          /\ month_completionRate e = S754_zero false)
           (getYearlyData host habit year)).
Proof.
  rewrite getYearlyData_spec. split.
  - intros Z1. rewrite <- list_fmap_compose. apply list_fmap_ext. intros i m Hm.
    apply lookup_seqZ in Hm as [-> Hm]. cbn [compose].
    unfold yearEntry. cbn [month]. rewrite getMonth_first by (try assumption; lia).
    reflexivity.
  - intros E.
    assert (Open : forall m, Forall (fun e => completed e = 0)
                               (getMonthlyData host habit m year)).
    { intros m. rewrite getMonthlyData_spec. apply Forall_fmap, Forall_forall.
      intros d _. now apply monthEntry_empty. }
    split; [exact Open | ].
    apply Forall_fmap, Forall_forall. intros m _. cbn [compose].
    unfold yearEntry. cbn [month_completions month_completionRate].
    assert (Z0 : List.filter (fun d => negb (completed d =? 0))
                   (getMonthlyData host habit m year) = []).
    { specialize (Open m). induction Open as [ | e l He _ IH]; [reflexivity | ].
      cbn [List.filter]. rewrite He. exact IH. }
    rewrite Z0. cbn [length Z.of_nat]. split; [reflexivity | ].
    pose proof (getMonthlyData_length host habit m year) as L1.
    assert (L2 : Z.of_nat (length (getMonthlyData host habit m year)) <= 31).
    { rewrite getMonthlyData_spec, length_fmap, length_seqZ.
      pose proof (DateFromTime_bounds (LocalTime host (newDateYMD host year (m + 1) 0))) as B.
      pose proof (DaysInMonth_bounds
                    (YearFromTime (LocalTime host (newDateYMD host year (m + 1) 0)))
                    (MonthFromTime (LocalTime host (newDateYMD host year (m + 1) 0)))).
      unfold getDate. lia. }
    destruct (Z.gtb_spec (Z.of_nat (length (getMonthlyData host habit m year))) 0); [ | lia].
    apply zero_rate. lia.
Qed.

End EmptySeries.

(** ** The zones of the examples *)

Section Zones.
Import ES ESFacts.

Lemma fixedHost_fixed tz : fixedOffset (fixedHost tz) tz.
Proof. intros t b. reflexivity. Qed.

Lemma IST_fixed : fixedOffset IST 19800000.
Proof. apply fixedHost_fixed. Qed.

Lemma IST_zoneOk : zoneOk IST.
Proof. exact (zoneOk_fixed IST _ IST_fixed). Qed.

(** New York changes its clock at 02:00, far from midnight: reading a
    local time and showing it again stays on the same day. *)
Lemma newYork_zoneOk : zoneOk newYork.
Proof.
  intros t. unfold LocalTime, UTC, newYork. cbn [LocalTZA]. cbv zeta.
  unfold Day, msPerDay.
  destruct (Z.leb_spec (19792 * 86400000 + 7 * 3600000 - 4 * 3600000) t);
    destruct (Z.ltb_spec t (20030 * 86400000 + 6 * 3600000 - 4 * 3600000));
    cbn [andb];
    match goal with
    | |- context [(?a <=? ?b) && (?c <? ?d)] =>
        destruct (Z.leb_spec a b); destruct (Z.ltb_spec c d); cbn [andb]
    end; zdiv.
Qed.

Lemma newYork_bounded : offsetsBounded newYork.
Proof.
  intros t b. unfold newYork. cbn [LocalTZA]. cbv zeta. unfold msPerDay.
  destruct b; match goal with
              | |- context [if ?c then _ else _] => destruct c
              end; lia.
Qed.

Lemma newYork_changes tz : ~ fixedOffset newYork tz.
Proof.
  intros F. pose proof (F 0 true) as A. pose proof (F mar15 true) as B.
  vm_compute in A, B. lia.
Qed.

End Zones.

(** ** Checking concrete maps by evaluation *)

Lemma wf_completions_check (c : gmap string bool) :
  forallb (fun kv => isDateKey kv.1 && kv.2) (map_to_list c) = true ->
  wf_completions c.
Proof.
  intros H. apply map_Forall_to_list, Forall_forall. intros [k v] Hin.
  rewrite forallb_forall in H. specialize (H (k, v) (proj1 (list_elem_of_In _ _) Hin)).
  cbn in H. apply andb_true_iff in H as [H1 H2]. cbn. split; [exact H1 | ].
  now destruct v.
Qed.

Lemma present_check (c : gmap string bool) (key : Z -> string) n :
  (let m := c in forallb (fun i => bool_decide (m !! key i = Some true)) (seqZ 0 n)) = true ->
  forall i, 0 <= i < n -> c !! key i = Some true.
Proof.
  cbv zeta. intros H i Hi.
  apply (StrFacts.forallb_seqZ _ 0 n) with (z := i) in H; [ | lia].
  now apply bool_decide_eq_true in H.
Qed.

Ltac wf_by_evaluation := apply wf_completions_check; vm_compute; reflexivity.

Ltac present_by_evaluation c key :=
  apply (present_check c key); vm_compute; reflexivity.

(** C10 as stated fails.  In [twoRuns] the 367 days up to 2024-02-13 are
    a maximal run that ends at the reference date (the day before it and
    the day after the reference date are absent), yet [longestStreak] is
    not 367: the older run of 368 days makes it at least 368. *)
Lemma C10_counterexample :
  wf_completions twoRuns
  /\ (forall i, 0 <= i < 367 ->
        twoRuns !! getDateKey IST (feb13 - i * ES.msPerDay) = Some true)
  /\ twoRuns !! getDateKey IST (feb13 - 367 * ES.msPerDay) = None
  /\ twoRuns !! getDateKey IST (feb13 + ES.msPerDay) = None
  /\ (exists s, calculateStreaks IST 366 0 dailyHabit twoRuns (Some feb13) = Some s
                /\ currentStreak s = 366 /\ 368 <= longestStreak s)
  /\ ~ (exists s, calculateStreaks IST 366 0 dailyHabit twoRuns (Some feb13) = Some s
                  /\ currentStreak s = 366 /\ longestStreak s = 367).
Proof.
  assert (W : wf_completions twoRuns) by wf_by_evaluation.
  assert (P : forall i, 0 <= i < 367 ->
            twoRuns !! getDateKey IST (feb13 - i * ES.msPerDay) = Some true)
    by present_by_evaluation twoRuns (fun i => getDateKey IST (feb13 - i * ES.msPerDay)).
  assert (Q : forall i, 0 <= i < 368 -> twoRuns !! dayKey (19367 - i) = Some true)
    by present_by_evaluation twoRuns (fun i => dayKey (19367 - i)).
  destruct (calculateStreaks_spec IST 366 0 dailyHabit twoRuns (Some feb13)
              IST_zoneOk W ltac:(lia)) as (cur & Hc & Hb & _ & Hstop).
  assert (cur = 366) as ->.
  { destruct (Z.eq_dec cur 366) as [E | N]; [exact E | ].
    specialize (Hstop ltac:(lia)). cbn [from_option id] in Hstop.
    rewrite <- (LocalDay_back IST _ feb13 cur IST_fixed), <- getDateKey_dayKey in Hstop.
    rewrite P in Hstop by lia. discriminate. }
  pose proof (calculateStreaks_longest_fixed IST _ _ _ _ _ _ _ IST_fixed W Hc) as Hl.
  cbn [currentStreak longestStreak] in Hl.
  pose proof (spec_longestRun_ge (isWeekly dailyHabit) (sortedKeys twoRuns) _ 368
                (sortedKeys_chronological twoRuns W) ltac:(lia)
                (run_daysPresent twoRuns _ 368 W Q)) as G.
  set (L := spec_longestRun (isWeekly dailyHabit) (sortedKeys twoRuns)) in *.
  set (R := longestRun (gapContinues IST dailyHabit) (sortedKeys twoRuns)) in *.
  clearbody L R.
  split; [exact W | ]. split; [exact P | ].
  split; [vm_compute; reflexivity | ]. split; [vm_compute; reflexivity | ].
  split.
  - eexists. split; [exact Hc | ]. cbn [currentStreak longestStreak]. lia.
  - intros (s & Hs & _ & Hl'). rewrite Hc in Hs. injection Hs as <-.
    cbn [longestStreak] in Hl'. lia.
Qed.

(** C2. The longest streak across a change of the clock.  In New York
    the keys of 10, 11 and 12 March 2024 are three consecutive calendar
    days, a run of 3 by the rule of the specification.  The keys of 11 and
    12 March, read as UTC midnight, lie on 10 and 11 March of local time;
    the local midnights of these two days are 23 hours apart,
    [getDaysDifference] floors this to 0 days, and for a daily habit the
    run search of the code stops there: [longestStreak] is 2.  In every
    zone [longestStreak] is the larger of the current streak and the
    longest run found with the test of the code over the ascending list of
    present keys; where the offset of local time is constant that test is
    the rule of the specification (a gap of exactly one day or, for a
    weekly habit, of at most seven days, the selected weekdays playing no
    part), and the list holds exactly the present keys, once each, in
    calendar order. *)
Theorem C2_longest_streak_runs :
  wf_completions marchDays
  /\ sortedKeys marchDays = ["2024-03-10"; "2024-03-11"; "2024-03-12"]%string
  /\ getDaysDifference newYork (OfString "2024-03-12") (OfString "2024-03-11") = Some 0
  /\ calculateStreaks newYork 366 0 dailyHabit marchDays (Some mar20)
     = Some (mkStreaks 0 2)
  /\ Z.max (spec_longestRun (isWeekly dailyHabit) (sortedKeys marchDays)) 0 = 3
  /\ (forall host fuel now habit (c : gmap string bool) referenceDate s,
        calculateStreaks host fuel now habit c referenceDate = Some s ->
        longestStreak s
        = Z.max (longestRun (gapContinues host habit) (sortedKeys c)) (currentStreak s))
  /\ (forall host tz fuel now habit (c : gmap string bool) referenceDate,
        fixedOffset host tz -> wf_completions c -> (366 <= fuel)%nat ->
        exists s,
          calculateStreaks host fuel now habit c referenceDate = Some s
          /\ longestStreak s
             = Z.max (spec_longestRun (isWeekly habit) (sortedKeys c)) (currentStreak s)
          /\ (forall k, k ∈ sortedKeys c <-> is_Some (c !! k))
          /\ NoDup (sortedKeys c)
          /\ StronglySorted Z.lt (keyDay <$> sortedKeys c)).
Proof.
  split; [wf_by_evaluation | ].
  split; [vm_compute; reflexivity | ].
  split; [vm_compute; reflexivity | ].
  split; [vm_compute; reflexivity | ].
  split; [vm_compute; reflexivity | ].
  split; [intros host fuel now habit c referenceDate s; apply calculateStreaks_longest | ].
  intros host tz fuel now habit c referenceDate F W Hf.
  destruct (calculateStreaks_total host fuel now habit c referenceDate Hf) as [s Hs].
  exists s. split; [exact Hs | ].
  split; [exact (calculateStreaks_longest_fixed host tz _ _ _ _ _ _ F W Hs) | ].
  split; [apply elem_of_sortedKeys | ].
  split; [apply NoDup_sortedKeys | now apply sortedKeys_chronological].
Qed.

(** ** The theorems at concrete inputs *)

(** The worked scenario of the specification: 1, 2, 4 and 5 January
    completed, reference date 5 January. *)
Example scenario_january :
  calculateStreaks IST 366 0 dailyHabit fourDays (Some jan5) = Some (mkStreaks 2 2).
Proof. vm_compute. reflexivity. Qed.

(** Today and the two days before completed, the third day before not. *)
Example scenario_three_days :
  calculateStreaks IST 366 0 dailyHabit (keysOfDays [19725; 19726; 19727]) (Some jan5)
  = Some (mkStreaks 3 3).
Proof. vm_compute. reflexivity. Qed.

(** A weekly habit bridges gaps of up to seven days, a daily one does not. *)
Example scenario_weekly_gap :
  calculateStreaks IST 366 0
    (mkHabit "h2" "Run" "5 km" "weekly" (Some [1; 3; 5]) "hard"
             "2023-12-26T10:00:00.000Z" None 0 0)
    (keysOfDays [19713; 19720; 19727]) (Some jan5) = Some (mkStreaks 1 3)
  /\ calculateStreaks IST 366 0 dailyHabit
       (keysOfDays [19713; 19720; 19727]) (Some jan5) = Some (mkStreaks 1 1).
Proof. split; vm_compute; reflexivity. Qed.

(** The backward walk crosses the change of the clock in New York one
    calendar day at a time: on 12 March the current streak is 3, and the
    final maximum makes the longest streak 3 as well. *)
Example scenario_spring_forward :
  calculateStreaks newYork 366 0 dailyHabit marchDays (Some mar12) = Some (mkStreaks 3 3).
Proof. vm_compute. reflexivity. Qed.

(** A stored marker other than [true] breaks the round trip of toggling:
    the well-formedness assumption of C5 is needed. *)
Example toggle_twice_false_marker :
  toggleCompletion (toggleCompletion {["2024-01-05"%string := false]} "2024-01-05")
                   "2024-01-05"
  <> ({["2024-01-05"%string := false]} : gmap string bool).
Proof.
  intros H. apply (f_equal (fun m => m !! "2024-01-05"%string)) in H.
  vm_compute in H. discriminate H.
Qed.

Lemma C1_witness :
  zoneOk newYork /\ wf_completions marchDays /\ (366 <= 366)%nat /\
  exists s,
    calculateStreaks newYork 366 0 dailyHabit marchDays (Some mar12) = Some s
    /\ 0 <= currentStreak s <= 366
    /\ (forall i, 0 <= i < currentStreak s ->
          marchDays !! dayKey (ES.Day (LocalTime newYork (default 0 (Some mar12))) - i)
          = Some true)
    /\ (currentStreak s < 366 ->
          marchDays
            !! dayKey (ES.Day (LocalTime newYork (default 0 (Some mar12))) - currentStreak s)
          = None)
    /\ (forall t, getDateKey newYork t = dayKey (ES.Day (LocalTime newYork t)))
    /\ (forall tz, fixedOffset newYork tz -> forall i,
          ES.Day (LocalTime newYork (default 0 (Some mar12) - i * ES.msPerDay))
          = ES.Day (LocalTime newYork (default 0 (Some mar12))) - i).
Proof.
  split; [exact newYork_zoneOk | ]. split; [wf_by_evaluation | ]. split; [lia | ].
  apply (C1_current_streak_walk newYork 366 0 dailyHabit marchDays (Some mar12));
    [exact newYork_zoneOk | wf_by_evaluation | lia].
Defined.

Lemma C4_witness :
  (366 <= 366)%nat /\
  ((exists s, calculateStreaks IST 366 0 dailyHabit fourDays (Some jan5) = Some s
      /\ 0 <= currentStreak s /\ 0 <= longestStreak s
      /\ currentStreak s <= longestStreak s)
   /\ (forall u u', userOk u -> step IST u u' -> userOk u')
   /\ (forall u habitId date,
         exists u', toggleHabitCompletion IST 366 0 u habitId date = Some u'
                    /\ step IST u u')
   /\ (forall newId u data h,
         h ∈ habits (addHabit newId 0 u data) -> h ∉ habits u ->
         h_currentStreak h = 0 /\ h_longestStreak h = 0)).
Proof.
  split; [lia | ].
  apply (C4_streak_invariant IST 366 0 dailyHabit fourDays (Some jan5)). lia.
Defined.

Lemma C5_witness :
  wf_completions fourDays /\
  (let k := getDateKey IST jan5 in
   toggleCompletion (toggleCompletion fourDays k) k = fourDays
   /\ (fourDays !! k = None -> toggleCompletion fourDays k !! k = Some true)
   /\ (is_Some (fourDays !! k) -> toggleCompletion fourDays k !! k = None)
   /\ (forall k', k' <> k -> toggleCompletion fourDays k !! k' = fourDays !! k')).
Proof.
  split; [wf_by_evaluation | ].
  apply (C5_toggle_twice IST fourDays jan5). wf_by_evaluation.
Defined.

Lemma C8_witness :
  zoneOk newYork /\ 0 <= 2 <= 11 /\ 1000 <= 2024 <= 9999 /\
  wf_completions (default ∅ (h_completions marchHabit)) /\
  (Z.of_nat (length (getMonthlyData newYork marchHabit 2 2024)) = ES.DaysInMonth 2024 2
   /\ day <$> getMonthlyData newYork marchHabit 2 2024 = seqZ 1 (ES.DaysInMonth 2024 2)
   /\ Forall (fun e =>
         (completed e = 0 \/ completed e = 1)
         /\ date e = Str.isoDate 2024 (2 + 1) (day e)
         /\ (completed e = 1
             <-> is_Some (default ∅ (h_completions marchHabit)
                            !! Str.isoDate 2024 (2 + 1) (day e))))
       (getMonthlyData newYork marchHabit 2 2024)).
Proof.
  split; [exact newYork_zoneOk | ].
  split; [lia | ]. split; [lia | ]. split; [wf_by_evaluation | ].
  apply (C8_monthly_series newYork marchHabit 2 2024);
    [exact newYork_zoneOk | lia | lia | wf_by_evaluation].
Defined.

Lemma C10_witness :
  zoneOk IST /\ wf_completions longRun /\ (366 <= 366)%nat /\ 366 < 367 /\
  (forall i, 0 <= i < 367 ->
     longRun !! dayKey (ES.Day (LocalTime IST (default 0 (Some feb13))) - i) = Some true) /\
  exists s,
    calculateStreaks IST 366 0 dailyHabit longRun (Some feb13) = Some s
    /\ currentStreak s = 366
    /\ 366 <= longestStreak s
    /\ (forall tz, fixedOffset IST tz ->
          367 <= longestStreak s
          /\ 366 < longestStreak s
          /\ (Z.of_nat (size longRun) = 367 -> longestStreak s = 367)).
Proof.
  split; [exact IST_zoneOk | ].
  split; [wf_by_evaluation | ]. split; [lia | ]. split; [lia | ].
  split; [present_by_evaluation longRun
            (fun i => dayKey (ES.Day (LocalTime IST (default 0 (Some feb13))) - i)) | ].
  apply (C10_cap_only_on_walk IST 366 0 dailyHabit longRun (Some feb13) 367);
    [exact IST_zoneOk | wf_by_evaluation | lia | lia
     | present_by_evaluation longRun
         (fun i => dayKey (ES.Day (LocalTime IST (default 0 (Some feb13))) - i))].
Defined.

(** ** Further theorems at concrete inputs *)

Lemma X2_witness :
  1000 <= getFullYear IST jan5 <= 9999 /\
  (getDateKey IST jan5 = getDateKey IST (jan5 + 3600000)
   <-> ES.Day (LocalTime IST jan5) = ES.Day (LocalTime IST (jan5 + 3600000))).
Proof.
  split; [vm_compute; split; discriminate | ].
  apply (X2_same_key_same_day IST jan5 (jan5 + 3600000)). vm_compute. split; discriminate.
Defined.

Lemma X4_witness :
  isWeekly dailyHabit = isWeekly readerHabit /\
  calculateStreaks IST 366 0 dailyHabit fourDays (Some jan5)
  = calculateStreaks IST 366 0 readerHabit fourDays (Some jan5).
Proof.
  split; [reflexivity | ].
  apply (X4_only_the_weekly_flag IST 366 0 dailyHabit readerHabit fourDays (Some jan5)).
  reflexivity.
Defined.

Lemma X5_witness :
  isWeekly dailyHabit = false /\
  calculateStreaks IST 366 0 dailyHabit fourDays (Some jan5) = Some (mkStreaks 2 2) /\
  exists s', calculateStreaks IST 366 0 readerHabit fourDays (Some jan5) = Some s'
    /\ currentStreak s' = currentStreak (mkStreaks 2 2)
    /\ longestStreak (mkStreaks 2 2) <= longestStreak s'.
Proof.
  split; [reflexivity | ]. split; [vm_compute; reflexivity | ].
  apply (X5_weekly_never_shorter IST 366 0 dailyHabit readerHabit fourDays (Some jan5));
    [reflexivity | vm_compute; reflexivity].
Defined.

Lemma X6_witness :
  zoneOk newYork /\
  ES.Day (LocalTime newYork (default 0 (Some mar12)))
  = ES.Day (LocalTime newYork (default (mar12 + 3600000) None)) /\
  calculateStreaks newYork 366 0 dailyHabit marchDays (Some mar12)
  = calculateStreaks newYork 366 (mar12 + 3600000) dailyHabit marchDays None.
Proof.
  split; [exact newYork_zoneOk | ]. split; [vm_compute; reflexivity | ].
  apply (X6_reference_day_only newYork 366 0 (mar12 + 3600000) dailyHabit marchDays
           (Some mar12) None); [exact newYork_zoneOk | vm_compute; reflexivity].
Defined.

Lemma X7_witness :
  zoneOk newYork /\ wf_completions marchDays /\ (366 <= 366)%nat /\
  exists s, calculateStreaks newYork 366 0 dailyHabit marchDays (Some mar12) = Some s
    /\ longestStreak s
       = Z.max (longestRun (gapContinues newYork dailyHabit) (sortedKeys marchDays))
               (currentStreak s)
    /\ currentStreak s <= longestStreak s <= Z.of_nat (size marchDays)
    /\ (forall tz, fixedOffset newYork tz ->
          longestStreak s = spec_longestRun (isWeekly dailyHabit) (sortedKeys marchDays)).
Proof.
  split; [exact newYork_zoneOk | ]. split; [wf_by_evaluation | ]. split; [lia | ].
  apply (X7_streaks_within_completions newYork 366 0 dailyHabit marchDays (Some mar12));
    [exact newYork_zoneOk | wf_by_evaluation | lia].
Defined.

Lemma X8_witness :
  calculateStreaks IST 366 0 dailyHabit fourDays (Some jan5) = Some (mkStreaks 2 2) /\
  ((currentStreak (mkStreaks 2 2) = 0
    <-> truthy (fourDays !! getDateKey IST (default 0 (Some jan5))) = false)
   /\ (truthy (fourDays !! getDateKey IST (default 0 (Some jan5))) = true ->
       1 <= currentStreak (mkStreaks 2 2))).
Proof.
  split; [vm_compute; reflexivity | ].
  apply (X8_current_streak_zero IST 366 0 dailyHabit fourDays (Some jan5)).
  vm_compute. reflexivity.
Defined.

Lemma X9_witness :
  toggleHabitCompletion IST 366 0 reader "h1" jan5 = Some readerToggled /\
  readerToggled <> reader /\
  (user_id readerToggled = user_id reader /\ user_name readerToggled = user_name reader
   /\ moods readerToggled = moods reader /\ reflections readerToggled = reflections reader
   /\ h_id <$> habits readerToggled = h_id <$> habits reader
   /\ (forall i h, habits reader !! i = Some h -> h_id h <> "h1"%string ->
         habits readerToggled !! i = Some h)
   /\ (forall i h, habits reader !! i = Some h ->
         exists h', habits readerToggled !! i = Some h'
           /\ h_name h' = h_name h /\ h_description h' = h_description h
           /\ h_frequency h' = h_frequency h /\ h_selectedDays h' = h_selectedDays h
           /\ h_difficulty h' = h_difficulty h /\ h_createdAt h' = h_createdAt h)
   /\ ((forall h, h ∈ habits reader -> h_id h <> "h1"%string) -> readerToggled = reader)).
Proof.
  split; [vm_compute; reflexivity | ].
  split.
  - intros E. apply (f_equal (fun u => h_currentStreak <$> habits u)) in E.
    vm_compute in E. discriminate E.
  - apply (X9_toggle_touches_one_id IST 366 0 reader "h1" jan5 readerToggled).
    vm_compute. reflexivity.
Defined.

Lemma X10_witness :
  findHabit "h1" (habits reader) = Some readerHabit /\ (366 <= 366)%nat /\
  exists u' h',
    toggleHabitCompletion IST 366 0 reader "h1" jan5 = Some u'
    /\ findHabit "h1" (habits u') = Some h'
    /\ h_completions h'
       = Some (toggleCompletion (default ∅ (h_completions readerHabit))
                 (getDateKey IST jan5))
    /\ calculateStreaks IST 366 0 h' (default ∅ (h_completions h')) (Some jan5)
       = Some (mkStreaks (h_currentStreak h') (h_longestStreak h'))
    /\ (hasCompletion (getDateKey IST jan5) readerHabit = true -> h_currentStreak h' = 0)
    /\ (hasCompletion (getDateKey IST jan5) readerHabit = false ->
        1 <= h_currentStreak h').
Proof.
  split; [reflexivity | ]. split; [lia | ].
  apply (X10_toggle_refreshes_cache IST 366 0 reader "h1" jan5 readerHabit);
    [reflexivity | lia].
Defined.

Lemma X11_witness :
  findHabit "h1" (habits reader) = Some readerHabit /\
  wf_completions (default ∅ (h_completions readerHabit)) /\ (366 <= 366)%nat /\
  exists u1 u2 s,
    toggleHabitCompletion IST 366 0 reader "h1" jan5 = Some u1
    /\ toggleHabitCompletion IST 366 0 u1 "h1" jan5 = Some u2
    /\ calculateStreaks IST 366 0 readerHabit (default ∅ (h_completions readerHabit))
         (Some jan5) = Some s
    /\ u2 = updateHabit reader "h1"
              (streakUpdates (default ∅ (h_completions readerHabit)) s).
Proof.
  split; [reflexivity | ]. split; [wf_by_evaluation | ]. split; [lia | ].
  apply (X11_toggle_twice_on_state IST 366 0 reader "h1" jan5 readerHabit);
    [reflexivity | wf_by_evaluation | lia].
Defined.

Lemma reader_completionsOk : completionsOk reader.
Proof. constructor; [wf_by_evaluation | constructor]. Qed.

Lemma X12_witness :
  completionsOk reader /\
  (forall fuel now habitId date u',
     1000 <= getFullYear IST date <= 9999 ->
     toggleHabitCompletion IST fuel now reader habitId date = Some u' ->
     completionsOk u').
Proof.
  split; [exact reader_completionsOk | ].
  apply (X12_completions_stay_well_formed IST reader reader_completionsOk).
Defined.

Lemma X13_witness :
  (forall h, h ∈ habits reader -> h_id h <> "h7"%string) /\
  (forall now data, deleteHabit (addHabit "h7" now reader data) "h7" = reader).
Proof.
  assert (F : forall h, h ∈ habits reader -> h_id h <> "h7"%string).
  { intros h Hin. apply list_elem_of_singleton in Hin as ->. discriminate. }
  split; [exact F | ]. apply (X13_add_then_delete reader "h7" F).
Defined.

Lemma X14_witness :
  0 <= ES.YearFromTime mar5 <= 9999 /\
  (ES.Day (LocalTime newYork (mar5 + 3600000)) = ES.Day (LocalTime newYork mar5) ->
   forall h,
     h ∈ habits (addHabit "h7" mar5 reader (mkForm "Run" "5 km" "daily" [] "hard")) ->
     h ∉ habits reader ->
     getHabitStats newYork (mar5 + 3600000) h = mkStats 0 "0.0" 0 0).
Proof.
  assert (Y : 0 <= ES.YearFromTime mar5 <= 9999) by (vm_compute; split; discriminate).
  split; [exact Y | ].
  apply (X14_stats_of_a_new_habit newYork "h7" mar5 reader
           (mkForm "Run" "5 km" "daily" [] "hard") (mar5 + 3600000) Y).
Defined.

Lemma X16_witness :
  zoneOk newYork /\ 1000 <= getFullYear newYork mar12 <= 9999 /\
  (forall mood,
     dd_mood (getDayData newYork (setMood newYork reader mar12 mood) mar12
                (getDate newYork mar12))
     = Some mood).
Proof.
  split; [exact newYork_zoneOk | ].
  split; [vm_compute; split; discriminate | ].
  apply (X16_calendar_cell_of_a_date newYork reader mar12);
    [exact newYork_zoneOk | vm_compute; split; discriminate].
Defined.

Lemma X17_witness :
  uniqueIds reader /\ findHabit "h1" (habits reader) = Some readerHabit /\
  (366 <= 366)%nat /\ todayHabitsFilter IST jan5 readerHabit = true /\
  (0 <= completedToday IST reader jan5 <= totalToday IST reader jan5
   /\ totalToday IST reader jan5 <= Z.of_nat (length (habits reader))
   /\ exists u',
        toggleHabitCompletion IST 366 0 reader "h1" jan5 = Some u'
        /\ totalToday IST u' jan5 = totalToday IST reader jan5
        /\ completedToday IST u' jan5
           = completedToday IST reader jan5
             + (if hasCompletion (getDateKey IST jan5) readerHabit then -1 else 1)).
Proof.
  assert (U : uniqueIds reader).
  { unfold uniqueIds. cbn. apply NoDup_singleton. }
  split; [exact U | ]. split; [reflexivity | ]. split; [lia | ].
  split; [reflexivity | ].
  apply (X17_dashboard_counts_follow_toggle IST 366 0 reader "h1" jan5 readerHabit);
    [exact U | reflexivity | lia | reflexivity].
Defined.

Lemma X19_witness :
  plainYear (getFullYear newYork july1_early) /\
  (july1_early - newDateYMD newYork (getFullYear newYork july1_early) 0 0) / 86400000
  = spec_dayOfYear newYork july1_early /\
  spec_dayOfYear newYork july1_early = 182 /\
  (exists quote,
     motivationalQuotes !! Z.to_nat (spec_dayOfYear newYork july1_early mod 10) = Some quote
     /\ getDailyQuote newYork july1_early (Some reader)
        = Some (stringReplace quote "{name}" (displayName (Some reader)))).
Proof.
  assert (P : plainYear (getFullYear newYork july1_early)).
  { right. vm_compute. reflexivity. }
  split; [exact P | ].
  pose proof (X19_quote_of_the_day newYork july1_early (Some reader) P)
    as (A & B & _ & _ & _ & C & _).
  split; [exact A | ]. split; [exact C | ].
  apply B. rewrite C. lia.
Defined.

Lemma X20_witness :
  "The secret of getting ahead is getting started, {name}."%string ∈ motivationalQuotes /\
  stringReplace "The secret of getting ahead is getting started, {name}." "{name}" "$&"
  = "The secret of getting ahead is getting started, {name}."%string.
Proof.
  assert (I : "The secret of getting ahead is getting started, {name}."%string
              ∈ motivationalQuotes).
  { unfold motivationalQuotes. do 2 right. left. }
  split; [exact I | ].
  apply (X20_placeholder_replaced
           "The secret of getting ahead is getting started, {name}." I).
Defined.

Lemma X22_witness :
  zoneOk newYork /\ plainYear (getFullYear newYork mar12) /\
  (0 <= firstDay newYork mar12 <= 6
   /\ firstDay newYork mar12
      = (ES.MakeDay (getFullYear newYork mar12) (getMonth newYork mar12) 1 + 4) mod 7
   /\ daysInMonth newYork mar12
      = ES.DaysInMonth (getFullYear newYork mar12) (getMonth newYork mar12)).
Proof.
  assert (P : plainYear (getFullYear newYork mar12)).
  { right. vm_compute. reflexivity. }
  split; [exact newYork_zoneOk | ]. split; [exact P | ].
  pose proof (X22_calendar_grid_alignment newYork reader mar12 mar12 mar12
                newYork_zoneOk P) as (A & B & C & _).
  exact (conj A (conj B C)).
Defined.

Lemma X23_witness :
  zoneOk newYork /\
  1000 <= getFullYear newYork mar12 <= 9999 /\
  1 <= 12 <= ES.DaysInMonth (getFullYear newYork mar12) (getMonth newYork mar12) /\
  exists data rate isToday isSelected,
    dayCell newYork reader mar12 mar12 mar12 12 = DayCell 12 data isToday isSelected rate
    /\ (ES.Day (LocalTime newYork mar12) = ES.Day (LocalTime newYork mar12) ->
          (isSelected = true <-> 12 = getDate newYork mar12))
    /\ (ES.Day (LocalTime newYork mar12) = ES.Day (LocalTime newYork mar12) ->
          (isToday = true <-> 12 = getDate newYork mar12))
    /\ (getFullYear newYork mar12 <> getFullYear newYork mar12
        \/ getMonth newYork mar12 <> getMonth newYork mar12 -> isSelected = false).
Proof.
  split; [exact newYork_zoneOk | ].
  split; [vm_compute; split; discriminate | ].
  split; [vm_compute; split; discriminate | ].
  apply (X23_one_cell_is_marked newYork reader mar12 mar12 mar12 12);
    [exact newYork_zoneOk | vm_compute; split; discriminate ..].
Defined.

Lemma X24_witness :
  zoneOk newYork /\ 100 < getFullYear newYork mar12 /\
  (getFullYear newYork (nextMonth newYork mar12)
   = (if getMonth newYork mar12 =? 11 then getFullYear newYork mar12 + 1
      else getFullYear newYork mar12)
   /\ getMonth newYork (nextMonth newYork mar12)
      = (if getMonth newYork mar12 =? 11 then 0 else getMonth newYork mar12 + 1)).
Proof.
  assert (H : 100 < getFullYear newYork mar12) by (vm_compute; reflexivity).
  split; [exact newYork_zoneOk | ]. split; [exact H | ].
  pose proof (X24_month_navigation newYork mar12 newYork_zoneOk H) as (A & B & _).
  exact (conj A B).
Defined.

Lemma X25_witness :
  plainYear 2023 /\ plainYear (2023 + 1) /\
  getMonthlyData IST readerHabit (0 + 12 * 1) 2023 = getMonthlyData IST readerHabit 0 (2023 + 1).
Proof.
  assert (P : plainYear 2023) by (right; lia).
  assert (P' : plainYear (2023 + 1)) by (right; lia).
  split; [exact P | ]. split; [exact P' | ].
  apply (X25_month_overflow_carries IST readerHabit 0 2023 1 P P').
Defined.

Lemma X29_witness :
  sessionOk signedIn /\
  (sessionOk (toggleTheme signedIn)
   /\ sessionOk (runCommand (fun u => deleteHabit u "h1") signedIn)
   /\ st_currentUser (runCommand (fun u => deleteHabit u "h1") signedIn)
      = Some (withUser readerAccount (deleteHabit reader "h1"))
   /\ withUser readerAccount (deleteHabit reader "h1")
      ∈ users (st_appData (runCommand (fun u => deleteHabit u "h1") signedIn))).
Proof.
  assert (Ok : sessionOk signedIn).
  { unfold sessionOk, signedIn. cbn [st_currentUser st_appData data_currentUser users].
    split; [reflexivity | left]. }
  split; [exact Ok | ].
  pose proof (X29_session_stays_consistent (fun _ => []) signedIn Ok)
    as (_ & _ & _ & T & _ & C).
  destruct (C (fun u => deleteHabit u "h1") (fun u => eq_refl)) as (A & _ & B).
  destruct (B readerAccount eq_refl) as (B1 & B2 & _).
  exact (conj T (conj A (conj B1 B2))).
Defined.
